(** * Hostel management: occupancy and billing core

    A shallow embedding of the Express/SQLite back end of the hostel
    management application (the server part of [public/js/forms.js]):
    the tables [Students], [Rooms], [Allocations] and [Payments], the
    fee snapshot computation ([resolveFeeStatus], [buildFeeSnapshot]) and
    the request handlers that mutate the store ([/allocate],
    [/transfer-room], [/payments/add], [/rooms/add], [/rooms/:id],
    [/students/:id]).

    Conventions of the embedding.
    - A JavaScript number is a [JsNumber]: the value of a double, kept as an
      exact rational, or one of the non-finite values.  Numbers stored in
      the database are finite and kept as [Q] (prices, capacities) or [Z]
      (identifiers, counters).  Where the rounding of double arithmetic
      decides an answer ([round2], the comparison of a payment with the
      total) the embedding rounds as binary64 does ([to_double]).
    - A date column (text 'YYYY-MM-DD', written by SQLite's [date('now')]) is
      the number of the UTC day; a JavaScript [Date] is a number of
      milliseconds since the epoch.  The clock is an input [now], in
      milliseconds.
    - A handler runs its store calls one after the other.  The oracle
      [fail : nat -> bool] says which of the calls of one request report an
      error to their callback.
    - A response is its HTTP status and its JSON payload; a template literal
      is kept as the list of its fragments. *)

From Stdlib Require Import ZArith QArith Qround Qpower List String Bool.
From Stdlib Require Import Lia Lqa.
Import ListNotations.

Open Scope Z_scope.

(** ** JavaScript values *)

Inductive JsNumber :=
| JNum (q : Q)
| JNaN
| JInf (positive : bool).

(** [Number.isFinite] *)
Definition is_finite (x : JsNumber) : bool :=
  match x with JNum _ => true | _ => false end.

Definition Qltb (a b : Q) : bool := negb (Qle_bool b a).

(** [x <= c] and [x > c] on a JavaScript number; every comparison with NaN
    is false. *)
Definition js_le (x : JsNumber) (c : Q) : bool :=
  match x with
  | JNum q => Qle_bool q c
  | JNaN => false
  | JInf positive => negb positive
  end.

Definition js_lt (x : JsNumber) (c : Q) : bool :=
  match x with
  | JNum q => Qltb q c
  | JNaN => false
  | JInf positive => negb positive
  end.

Definition js_gt (x : JsNumber) (c : Q) : bool :=
  match x with
  | JNum q => Qltb c q
  | JNaN => false
  | JInf positive => positive
  end.

(** [Number.isInteger] *)
Definition is_integer (x : JsNumber) : bool :=
  match x with
  | JNum q => Qeq_bool (inject_Z (Qfloor q)) q
  | _ => false
  end.

(** *** Doubles

    The product and the quotient of two doubles are the exact result
    rounded to the nearest double, ties to the one whose last digit is
    even.  A double has 53 binary digits; the last one has exponent -1074
    at least (below 2^-1022 the doubles are subnormal).  The exponent is
    not bounded above here: 2^1024 and beyond, Infinity in JavaScript, is
    far from every fee and amount that the handlers accept (at most
    500000). *)

(** [floor(log2 x)] of a positive [x] *)
Definition ilog2 (x : Q) : Z :=
  let k := Z.log2 (Qnum x) - Z.log2 (Zpos (Qden x)) in
  if Qle_bool (2 ^ k) x then k else k - 1.

(** The nearest integer, ties to the even one. *)
Definition nearest_even (x : Q) : Z :=
  let f := Qfloor x in
  match (x - inject_Z f ?= 1 # 2)%Q with
  | Lt => f
  | Gt => f + 1
  | Eq => if Z.even f then f else f + 1
  end.

(** The double nearest to a positive [x]. *)
Definition nearest_double (x : Q) : Q :=
  let e := Z.max (-1074) (ilog2 x - 52) in
  (inject_Z (nearest_even (x / 2 ^ e)) * 2 ^ e)%Q.

Definition to_double (x : Q) : Q :=
  match (x ?= 0)%Q with
  | Eq => 0%Q
  | Gt => nearest_double x
  | Lt => (- nearest_double (- x))%Q
  end.

(** [Math.round]: the nearest integer, ties towards plus infinity. *)
Definition Math_round (x : Q) : Z := Qfloor (x + (1 # 2)).

(** [Math.round(x * 100) / 100] on the double [x]: the product is rounded
    to a double before [Math.round] sees it, the quotient after.  So
    [0.145 * 100] is 14.499999999999998 and [round2] of 0.145 is 0.14. *)
Definition round2 (x : Q) : Q :=
  to_double (inject_Z (Math_round (to_double (to_double x * 100))) / 100).

(** ** Responses *)

Inductive frag :=
| Str (s : string)
| Int (z : Z)
| Num (q : Q)
| Cause.   (* [err.message], the text of a store error *)

Definition text := list frag.

Inductive FeeStatus :=
| PaymentPending
| Paid
| Late
| Defaulter
| CriticalDefaulter.

(** The label each status has in the JSON payload. *)
Definition fee_status_label (s : FeeStatus) : string :=
  match s with
  | PaymentPending => "Payment Pending"
  | Paid => "Paid"
  | Late => "Late"
  | Defaulter => "Defaulter"
  | CriticalDefaulter => "Critical Defaulter"
  end.

Record snapshot := {
  snap_student_id : Z;
  snap_monthly_fee : Q;
  snap_room_type : string;
  snap_allocation_date : Z;
  last_payment_date : option Z;
  due_date : option Z;
  days_late : Z;
  fine : Z;
  total_payable : Q;
  fee_status : FeeStatus;
  snap_today : Z
}.

Inductive payload :=
| JMessage (message : text)
| JCreated (message : text) (id : Z)
| JTransfer (message : text) (from_room_id to_room_id : Z)
| JPayment (message : text) (id : Z) (fee : option snapshot)
| JSnapshot (s : snapshot).

Record response := { status : Z; body : payload }.

Definition reply (code : Z) (message : string) : response :=
  {| status := code; body := JMessage [Str message] |}.

(** [res.json(...)] without [res.status(...)] *)
Definition ok (p : payload) : response := {| status := 200; body := p |}.

(** ** Tables *)

Record student := {
  student_id : Z;
  name : string;
  cnic : string;
  department : string;
  phone : string;
  address : string
}.

Record room := {
  room_id : Z;
  room_number : string;
  capacity : Q;
  current_occupancy : Z;
  floor_level : Z;
  room_type : string;
  monthly_fee : Q;
  wifi_available : Z
}.

Record allocation := {
  allocation_id : Z;
  alloc_student_id : Z;
  alloc_room_id : Z;
  allocation_date : Z
}.

Record payment := {
  payment_id : Z;
  pay_student_id : Z;
  amount : Q;
  pay_date : Z
}.

(** The four tables, rows in insertion order, and for each the largest
    rowid handed out so far (AUTOINCREMENT never reuses one). *)
Record DB := {
  Students : list student;
  Rooms : list room;
  Allocations : list allocation;
  Payments : list payment;
  seq_students : Z;
  seq_rooms : Z;
  seq_allocations : Z;
  seq_payments : Z
}.

Definition empty_db : DB :=
  {| Students := []; Rooms := []; Allocations := []; Payments := [];
     seq_students := 0; seq_rooms := 0; seq_allocations := 0;
     seq_payments := 0 |}.

(** The connection: the current contents and, while a transaction is open,
    the contents at its BEGIN. *)
Record conn := { data : DB; saved : option DB }.

Definition sql_begin (c : conn) : conn :=
  match saved c with
  | None => {| data := data c; saved := Some (data c) |}
  | Some _ => c
  end.

Definition sql_rollback (c : conn) : conn :=
  match saved c with
  | Some d => {| data := d; saved := None |}
  | None => c
  end.

Definition sql_commit (c : conn) : conn :=
  {| data := data c; saved := None |}.

(** A statement that changes the contents. *)
Definition exec (f : DB -> DB) (c : conn) : conn :=
  {| data := f (data c); saved := saved c |}.

(** ** Queries *)

(** [SELECT ... FROM Students WHERE student_id = ?] *)
Definition select_student (db : DB) (sid : Z) : option student :=
  find (fun s => student_id s =? sid) (Students db).

(** [SELECT ... FROM Rooms WHERE room_id = ?] *)
Definition select_room (db : DB) (rid : Z) : option room :=
  find (fun r => room_id r =? rid) (Rooms db).

(** [SELECT ... FROM Allocations WHERE student_id = ?], first row *)
Definition select_allocation (db : DB) (sid : Z) : option allocation :=
  find (fun a => alloc_student_id a =? sid) (Allocations db).

(** [SELECT ... FROM Allocations WHERE student_id = ?], all rows *)
Definition select_allocations (db : DB) (sid : Z) : list allocation :=
  filter (fun a => alloc_student_id a =? sid) (Allocations db).

(** [SELECT ... FROM Allocations JOIN Rooms ON Rooms.room_id =
    Allocations.room_id WHERE Allocations.student_id = ?], first row *)
Fixpoint join_rooms (db : DB) (rows : list allocation)
  : option (allocation * room) :=
  match rows with
  | [] => None
  | a :: rest =>
      match select_room db (alloc_room_id a) with
      | Some r => Some (a, r)
      | None => join_rooms db rest
      end
  end.

Definition select_allocation_room (db : DB) (sid : Z)
  : option (allocation * room) :=
  join_rooms db (select_allocations db sid).

(** [SELECT date FROM Payments WHERE student_id = ? ORDER BY date DESC
    LIMIT 1] *)
Fixpoint latest_date (rows : list payment) (sid : Z) : option Z :=
  match rows with
  | [] => None
  | p :: rest =>
      if pay_student_id p =? sid then
        match latest_date rest sid with
        | Some m => Some (Z.max (pay_date p) m)
        | None => Some (pay_date p)
        end
      else latest_date rest sid
  end.

Definition select_last_payment (db : DB) (sid : Z) : option Z :=
  latest_date (Payments db) sid.

(** ** Fee snapshot *)

Definition MAX_MONTHLY_FEE : Q := 500000.
Definition MAX_ROOM_CAPACITY : Q := 50.
Definition DAY_MS : Z := 24 * 60 * 60 * 1000.

(** SQLite's [date('now')] *)
Definition sql_date (now : Z) : Z := now / DAY_MS.

Definition startOfTodayUTC (now : Z) : Z := (now / DAY_MS) * DAY_MS.

Definition parseDbDate (value : option Z) : option Z :=
  match value with
  | Some d => Some (d * DAY_MS)
  | None => None
  end.

Definition formatDateISO (dateObj : Z) : Z := dateObj / DAY_MS.

Definition addDays (dateObj days : Z) : Z := dateObj + days * DAY_MS.

Definition resolveFeeStatus (rawDaysLate : option Z) (hasPayment : bool)
  : FeeStatus :=
  if negb hasPayment then PaymentPending
  else match rawDaysLate with
       | None => Paid
       | Some raw =>
           if raw <=? 0 then Paid
           else if raw <=? 5 then Late
           else if raw <=? 30 then Defaulter
           else CriticalDefaulter
       end.

Inductive SnapResult :=
| SnapErr (code : Z) (message : string)
| SnapOk (s : snapshot).

(** [k] is the index of the first of the two store calls. *)
Definition buildFeeSnapshot (fail : nat -> bool) (k : nat) (now : Z)
  (db : DB) (studentId : Z) : SnapResult :=
  if fail k then SnapErr 500 "Error verifying allocation"
  else
    match select_allocation_room db studentId with
    | None =>
        SnapErr 400 "Student must be allocated to a room before paying fees"
    | Some (allocRow, roomRow) =>
        let monthlyFee := monthly_fee roomRow in
        if Qle_bool monthlyFee 0 then
          SnapErr 500 "Room fee is not configured for this allocation"
        else if fail (S k) then SnapErr 500 "Error fetching payment history"
        else
          let today := startOfTodayUTC now in
          let lastPaymentDate := select_last_payment db studentId in
          let lastPayment := parseDbDate lastPaymentDate in
          let hasPayment :=
            match lastPayment with Some _ => true | None => false end in
          let dueDate :=
            match lastPayment with
            | Some d => Some (addDays d 30)
            | None => None
            end in
          let rawDaysLate :=
            match dueDate with
            | Some due => Some ((today - due) / DAY_MS)
            | None => None
            end in
          let daysLate :=
            match rawDaysLate with
            | Some raw => if 0 <? raw then raw else 0
            | None => 0
            end in
          let fine := if 0 <? daysLate then daysLate * 100 else 0 in
          SnapOk
            {| snap_student_id := studentId;
               snap_monthly_fee := monthlyFee;
               snap_room_type := room_type roomRow;
               snap_allocation_date := allocation_date allocRow;
               last_payment_date := lastPaymentDate;
               due_date :=
                 match dueDate with
                 | Some due => Some (formatDateISO due)
                 | None => None
                 end;
               days_late := daysLate;
               fine := fine;
               total_payable := (monthlyFee + inject_Z fine)%Q;
               fee_status := resolveFeeStatus rawDaysLate hasPayment;
               snap_today := formatDateISO today |}
    end.

Definition no_fault : nat -> bool := fun _ => false.

(** ** Statements *)

Definition with_students (f : list student -> list student) (db : DB) : DB :=
  {| Students := f (Students db); Rooms := Rooms db;
     Allocations := Allocations db; Payments := Payments db;
     seq_students := seq_students db; seq_rooms := seq_rooms db;
     seq_allocations := seq_allocations db;
     seq_payments := seq_payments db |}.

Definition with_rooms (f : list room -> list room) (db : DB) : DB :=
  {| Students := Students db; Rooms := f (Rooms db);
     Allocations := Allocations db; Payments := Payments db;
     seq_students := seq_students db; seq_rooms := seq_rooms db;
     seq_allocations := seq_allocations db;
     seq_payments := seq_payments db |}.

Definition with_allocations (f : list allocation -> list allocation)
  (db : DB) : DB :=
  {| Students := Students db; Rooms := Rooms db;
     Allocations := f (Allocations db); Payments := Payments db;
     seq_students := seq_students db; seq_rooms := seq_rooms db;
     seq_allocations := seq_allocations db;
     seq_payments := seq_payments db |}.

Definition with_payments (f : list payment -> list payment) (db : DB) : DB :=
  {| Students := Students db; Rooms := Rooms db;
     Allocations := Allocations db; Payments := f (Payments db);
     seq_students := seq_students db; seq_rooms := seq_rooms db;
     seq_allocations := seq_allocations db;
     seq_payments := seq_payments db |}.

Definition set_occupancy (n : Z) (r : room) : room :=
  {| room_id := room_id r; room_number := room_number r;
     capacity := capacity r; current_occupancy := n;
     floor_level := floor_level r; room_type := room_type r;
     monthly_fee := monthly_fee r; wifi_available := wifi_available r |}.

(** [INSERT INTO Students(name, cnic, department, phone, address)] *)
Definition insert_student (fields : student) (db : DB) : DB :=
  let id := seq_students db + 1 in
  {| Students :=
       Students db ++
       [{| student_id := id; name := name fields; cnic := cnic fields;
           department := department fields; phone := phone fields;
           address := address fields |}];
     Rooms := Rooms db; Allocations := Allocations db;
     Payments := Payments db;
     seq_students := id; seq_rooms := seq_rooms db;
     seq_allocations := seq_allocations db;
     seq_payments := seq_payments db |}.

(** [UPDATE Students SET name = ?, ... WHERE student_id = ?] *)
Definition update_student (sid : Z) (fields : student) (db : DB) : DB :=
  with_students
    (map (fun s =>
            if student_id s =? sid then
              {| student_id := student_id s; name := name fields;
                 cnic := cnic fields; department := department fields;
                 phone := phone fields; address := address fields |}
            else s)) db.

(** [INSERT INTO Allocations(student_id, room_id, allocation_date)
    VALUES (?, ?, date('now'))] *)
Definition insert_allocation (sid rid today : Z) (db : DB) : DB :=
  let id := seq_allocations db + 1 in
  {| Students := Students db; Rooms := Rooms db;
     Allocations :=
       Allocations db ++
       [{| allocation_id := id; alloc_student_id := sid;
           alloc_room_id := rid; allocation_date := today |}];
     Payments := Payments db;
     seq_students := seq_students db; seq_rooms := seq_rooms db;
     seq_allocations := id; seq_payments := seq_payments db |}.

(** [UPDATE Allocations SET room_id = ?, allocation_date = date('now')
    WHERE allocation_id = ?] *)
Definition update_allocation (rid today aid : Z) (db : DB) : DB :=
  with_allocations
    (map (fun a =>
            if allocation_id a =? aid then
              {| allocation_id := allocation_id a;
                 alloc_student_id := alloc_student_id a;
                 alloc_room_id := rid; allocation_date := today |}
            else a)) db.

(** [UPDATE Rooms SET current_occupancy = current_occupancy + 1
    WHERE room_id = ?] *)
Definition increment_occupancy (rid : Z) (db : DB) : DB :=
  with_rooms
    (map (fun r =>
            if room_id r =? rid then
              set_occupancy (current_occupancy r + 1) r
            else r)) db.

(** [UPDATE Rooms SET current_occupancy = CASE WHEN current_occupancy > 0
    THEN current_occupancy - 1 ELSE 0 END WHERE room_id = ?] *)
Definition decrement_occupancy_floor (rid : Z) (db : DB) : DB :=
  with_rooms
    (map (fun r =>
            if room_id r =? rid then
              set_occupancy
                (if 0 <? current_occupancy r then current_occupancy r - 1
                 else 0) r
            else r)) db.

(** [UPDATE Rooms SET current_occupancy = current_occupancy - 1
    WHERE room_id = ? AND current_occupancy > 0] *)
Definition decrement_occupancy_positive (rid : Z) (db : DB) : DB :=
  with_rooms
    (map (fun r =>
            if (room_id r =? rid) && (0 <? current_occupancy r) then
              set_occupancy (current_occupancy r - 1) r
            else r)) db.

(** [INSERT INTO Payments(student_id, amount, date)
    VALUES (?, ?, date('now'))] *)
Definition insert_payment (sid : Z) (paid : Q) (today : Z) (db : DB) : DB :=
  let id := seq_payments db + 1 in
  {| Students := Students db; Rooms := Rooms db;
     Allocations := Allocations db;
     Payments :=
       Payments db ++
       [{| payment_id := id; pay_student_id := sid; amount := paid;
           pay_date := today |}];
     seq_students := seq_students db; seq_rooms := seq_rooms db;
     seq_allocations := seq_allocations db; seq_payments := id |}.

(** [DELETE FROM Allocations WHERE student_id = ?] *)
Definition delete_allocations (sid : Z) (db : DB) : DB :=
  with_allocations
    (filter (fun a => negb (alloc_student_id a =? sid))) db.

(** [DELETE FROM Payments WHERE student_id = ?] *)
Definition delete_payments (sid : Z) (db : DB) : DB :=
  with_payments (filter (fun p => negb (pay_student_id p =? sid))) db.

(** [DELETE FROM Students WHERE student_id = ?] *)
Definition delete_student_row (sid : Z) (db : DB) : DB :=
  with_students (filter (fun s => negb (student_id s =? sid))) db.

(** [DELETE FROM Rooms WHERE room_id = ?] *)
Definition delete_room_row (rid : Z) (db : DB) : DB :=
  with_rooms (filter (fun r => negb (room_id r =? rid))) db.

(** ** POST /allocate

    [student_id] and [room_id] are taken from the body as they are; 0 stands
    for a missing or falsy value.  The store calls are: 0 the student, 1 the
    allocation, 2 the room, 3 the insert, 4 the occupancy update.  The
    handler opens no transaction. *)
Definition allocate (fail : nat -> bool) (now : Z) (student_id room_id : Z)
  (c : conn) : response * conn :=
  if (student_id =? 0) || (room_id =? 0) then
    (reply 400 "Student and room are required", c)
  else if fail 0%nat then (reply 500 "Error verifying student", c)
  else
    match select_student (data c) student_id with
    | None => (reply 404 "Student does not exist", c)
    | Some _ =>
        if fail 1%nat then (reply 500 "Error checking allocation", c)
        else
          match select_allocation (data c) student_id with
          | Some _ =>
              (reply 400 "Student is already allocated to a room", c)
          | None =>
              if fail 2%nat then (reply 500 "Error fetching room", c)
              else
                match select_room (data c) room_id with
                | None =>
                    ({| status := 404;
                        body := JMessage [Str "Room ID "; Int room_id;
                                          Str " does not exist"] |}, c)
                | Some r =>
                    if Qle_bool (capacity r)
                         (inject_Z (current_occupancy r))
                    then (reply 400 "Room is full", c)
                    else if fail 3%nat then
                      (reply 500 "Error allocating student", c)
                    else
                      let c1 :=
                        exec (insert_allocation student_id room_id
                                (sql_date now)) c in
                      if fail 4%nat then
                        (reply 500 "Error updating room", c1)
                      else
                        (ok (JMessage [Str "Student allocated successfully"]),
                         exec (increment_occupancy room_id) c1)
                end
          end
    end.

(** ** POST /transfer-room

    [studentId] and [newRoomId] are the [parseInt] of the body fields, 0 for
    NaN.  The store calls with a callback are: 0 the student, 1 the
    allocation, 2 the new room, 3 the allocation update, 4 the release of
    the old bed, 5 the reservation of the new one, 6 the COMMIT. *)
Definition rollback (code : Z) (message : text) (c : conn)
  : response * conn :=
  ({| status := code; body := JMessage message |}, sql_rollback c).

Definition transfer (fail : nat -> bool) (now : Z) (studentId newRoomId : Z)
  (c : conn) : response * conn :=
  if (studentId =? 0) || (newRoomId =? 0) then
    (reply 400 "student_id and new_room_id are required", c)
  else
    let c0 := sql_begin c in
    if fail 0%nat then rollback 500 [Str "Error verifying student"] c0
    else
      match select_student (data c0) studentId with
      | None => rollback 404 [Str "Student does not exist"] c0
      | Some _ =>
          if fail 1%nat then rollback 500 [Str "Error checking allocation"] c0
          else
            match select_allocation (data c0) studentId with
            | None =>
                rollback 400 [Str "Student is not allocated to any room"] c0
            | Some alloc =>
                let oldRoomId := alloc_room_id alloc in
                if fail 2%nat then
                  rollback 500 [Str "Error fetching new room"] c0
                else
                  match select_room (data c0) newRoomId with
                  | None =>
                      rollback 404
                        [Str "Room ID "; Int newRoomId;
                         Str " does not exist"] c0
                  | Some r =>
                      if oldRoomId =? newRoomId then
                        rollback 400 [Str "Student is already in this room"]
                          c0
                      else if Qle_bool (capacity r)
                                (inject_Z (current_occupancy r))
                      then rollback 400 [Str "New room is full"] c0
                      else if fail 3%nat then
                        rollback 500 [Str "Error updating allocation"] c0
                      else
                        let c1 :=
                          exec (update_allocation newRoomId (sql_date now)
                                  (allocation_id alloc)) c0 in
                        if fail 4%nat then
                          rollback 500
                            [Str "Error updating old room occupancy"] c1
                        else
                          let c2 :=
                            exec (decrement_occupancy_floor oldRoomId) c1 in
                          if fail 5%nat then
                            rollback 500
                              [Str "Error updating new room occupancy"] c2
                          else
                            let c3 :=
                              exec (increment_occupancy newRoomId) c2 in
                            if fail 6%nat then
                              rollback 500 [Str "Error committing transfer"]
                                c3
                            else
                              (ok (JTransfer [Str "Room transfer successful"]
                                     oldRoomId newRoomId),
                               sql_commit c3)
                  end
            end
      end.

(** ** POST /payments/add

    [studentId] is the [parseInt] of the body field, 0 for NaN; [amount] is
    [None] when the body has no amount and otherwise its [Number(...)].
    The store calls are: 0 the student, 1 and 2 the snapshot before the
    insert, 3 the insert, 4 and 5 the snapshot after it. *)
Definition mismatch_reason (s : snapshot) : text :=
  match last_payment_date s with
  | None => [Str "First payment must match the monthly fee."]
  | Some _ =>
      if 0 <? days_late s then
        [Str "Includes PKR "; Int (fine s); Str " late fee for ";
         Int (days_late s); Str " day(s)."]
      else [Str "Payment must match the monthly fee for this billing cycle."]
  end.

Definition invalid_amount : response :=
  {| status := 400;
     body := JMessage [Str "Invalid payment amount (max ";
                       Num MAX_MONTHLY_FEE; Str " PKR)"] |}.

Definition recordPayment (fail : nat -> bool) (now : Z) (studentId : Z)
  (amount : option JsNumber) (c : conn) : response * conn :=
  match amount with
  | None => (reply 400 "Student and amount are required", c)
  | Some amountValue =>
      if studentId =? 0 then (reply 400 "Student and amount are required", c)
      else
        match amountValue with
        | JNum q =>
            if Qle_bool q 0 || Qltb MAX_MONTHLY_FEE q then
              (invalid_amount, c)
            else if fail 0%nat then (reply 500 "Error verifying student", c)
            else
              match select_student (data c) studentId with
              | None => (reply 404 "Student does not exist", c)
              | Some _ =>
                  match buildFeeSnapshot fail 1 now (data c) studentId with
                  | SnapErr code message => (reply code message, c)
                  | SnapOk s =>
                      let expected := round2 (total_payable s) in
                      let provided := round2 q in
                      if negb (Qeq_bool provided expected) then
                        ({| status := 400;
                            body :=
                              JMessage
                                ([Str "Expected payment is PKR ";
                                  Num expected; Str ". "]
                                 ++ mismatch_reason s
                                 ++ [Str " Partial or extra payments are not allowed."])
                         |}, c)
                      else if fail 3%nat then
                        (reply 500 "Error recording payment", c)
                      else
                        let c1 :=
                          exec (insert_payment studentId expected
                                  (sql_date now)) c in
                        let lastID := seq_payments (data c1) in
                        match
                          buildFeeSnapshot fail 4 now (data c1) studentId
                        with
                        | SnapErr _ _ =>
                            (ok (JPayment [Str "Payment recorded"] lastID
                                   None), c1)
                        | SnapOk updated =>
                            (ok (JPayment [Str "Payment recorded"] lastID
                                   (Some updated)), c1)
                        end
                  end
              end
        | _ => (invalid_amount, c)
        end
  end.

(** ** GET /students/:id/fee-status *)
Definition handleFeeStatusRequest (fail : nat -> bool) (now : Z)
  (studentId : Z) (c : conn) : response :=
  if studentId =? 0 then reply 400 "Invalid student id"
  else if fail 0%nat then reply 500 "Error verifying student"
  else
    match select_student (data c) studentId with
    | None => reply 404 "Student does not exist"
    | Some _ =>
        match buildFeeSnapshot fail 1 now (data c) studentId with
        | SnapErr code message => reply code message
        | SnapOk s => ok (JSnapshot s)
        end
    end.

(** ** Rooms

    The body of a room request after JSON parsing: an absent field is
    [None].  A room number comes trimmed, with the value [Number(...)] has
    on it; [wifi_available] comes as its [parseBoolean]. *)
Record room_body := {
  b_room_number : option (string * JsNumber);
  b_room_type : option string;
  b_capacity : option JsNumber;
  b_monthly_fee : option JsNumber;
  b_floor_level : option JsNumber;
  b_wifi_available : option bool
}.

Record room_clean := {
  c_room_number : option string;
  c_room_type : option string;
  c_capacity : option Q;
  c_monthly_fee : option Q;
  c_floor_level : option Z;
  c_wifi_available : option Z
}.

Definition ROOM_NUMBER_MAX_LENGTH : nat := 12.

Definition validateRoomPayload (body : room_body) (requireAll : bool)
  : list text * room_clean :=
  let e_number :=
    match b_room_number body with
    | Some (s, n) =>
        if (String.length s =? 0)%nat then [[Str "Room number is required"]]
        else if (ROOM_NUMBER_MAX_LENGTH <? String.length s)%nat then
          [[Str "Room number must be under ";
            Int (Z.of_nat ROOM_NUMBER_MAX_LENGTH); Str " characters"]]
        else if js_lt n 0 then [[Str "Room number cannot be negative"]]
        else []
    | None => if requireAll then [[Str "Room number is required"]] else []
    end in
  let capacity_ok (x : JsNumber) :=
    negb (negb (is_finite x) || js_le x 0 || js_gt x MAX_ROOM_CAPACITY) in
  let e_capacity :=
    match b_capacity body with
    | Some x =>
        if capacity_ok x then []
        else [[Str "Capacity must be between 1 and "; Num MAX_ROOM_CAPACITY]]
    | None => if requireAll then [[Str "Capacity is required"]] else []
    end in
  let fee_ok (x : JsNumber) :=
    negb (negb (is_finite x) || js_lt x 0 || js_gt x MAX_MONTHLY_FEE) in
  let e_fee :=
    match b_monthly_fee body with
    | Some x =>
        if fee_ok x then []
        else [[Str "Monthly fee must be between 0 and ";
               Num MAX_MONTHLY_FEE; Str " PKR"]]
    | None => if requireAll then [[Str "Monthly fee is required"]] else []
    end in
  let floor_ok (x : JsNumber) :=
    negb (negb (is_integer x) || js_lt x 0 || js_gt x 200) in
  let e_floor :=
    match b_floor_level body with
    | Some x =>
        if floor_ok x then []
        else [[Str "Floor must be an integer between 0 and 200"]]
    | None => []
    end in
  (e_number ++ e_capacity ++ e_fee ++ e_floor,
   {| c_room_number :=
        match b_room_number body with
        | Some (s, _) => Some s
        | None => None
        end;
      c_room_type := b_room_type body;
      c_capacity :=
        match b_capacity body with
        | Some (JNum q) => if capacity_ok (JNum q) then Some q else None
        | _ => None
        end;
      c_monthly_fee :=
        match b_monthly_fee body with
        | Some (JNum q) => if fee_ok (JNum q) then Some q else None
        | _ => None
        end;
      c_floor_level :=
        match b_floor_level body with
        | Some (JNum q) =>
            if floor_ok (JNum q) then Some (Qfloor q) else None
        | Some _ => None
        | None => if requireAll then Some 0 else None
        end;
      c_wifi_available :=
        match b_wifi_available body with
        | Some b => Some (if b then 1 else 0)
        | None => if requireAll then Some 0 else None
        end |}).

(** [errors.join("; ")] *)
Fixpoint join_errors (errors : list text) : text :=
  match errors with
  | [] => []
  | [e] => e
  | e :: rest => e ++ Str "; " :: join_errors rest
  end.

Definition bad_request (errors : list text) : response :=
  {| status := 400; body := JMessage (join_errors errors) |}.

Definition or_else {A : Type} (o : option A) (d : A) : A :=
  match o with Some a => a | None => d end.

(** [INSERT INTO Rooms(room_number, capacity, current_occupancy, ...)
    VALUES (?, ?, 0, ?, ?, ?, ?)] *)
Definition insert_room (number : string) (cap : Q) (floor : Z)
  (type : string) (fee : Q) (wifi : Z) (db : DB) : DB :=
  let id := seq_rooms db + 1 in
  {| Students := Students db;
     Rooms :=
       Rooms db ++
       [{| room_id := id; room_number := number; capacity := cap;
           current_occupancy := 0; floor_level := floor; room_type := type;
           monthly_fee := fee; wifi_available := wifi |}];
     Allocations := Allocations db; Payments := Payments db;
     seq_students := seq_students db; seq_rooms := id;
     seq_allocations := seq_allocations db;
     seq_payments := seq_payments db |}.

(** POST /rooms/add.  Store calls: 0 the room number, 1 the insert.  With
    [requireAll] a payload without errors has its number, capacity and fee. *)
Definition rooms_add (fail : nat -> bool) (body : room_body) (c : conn)
  : response * conn :=
  let (errors, clean) := validateRoomPayload body true in
  match errors with
  | _ :: _ => (bad_request errors, c)
  | [] =>
      match c_room_number clean, c_capacity clean, c_monthly_fee clean with
      | Some number, Some cap, Some fee =>
          if fail 0%nat then (reply 500 "Error validating room number", c)
          else
            match
              find (fun r => String.eqb (room_number r) number)
                (Rooms (data c))
            with
            | Some _ => (reply 400 "Room number already exists", c)
            | None =>
                if fail 1%nat then (reply 500 "Error adding room", c)
                else
                  let c1 :=
                    exec (insert_room number cap
                            (or_else (c_floor_level clean) 0)
                            (match c_room_type clean with
                             | Some t =>
                                 if (String.length t =? 0)%nat then "Standard"
                                 else t
                             | None => "Standard"
                             end)
                            fee (or_else (c_wifi_available clean) 0)) c in
                  (ok (JCreated [Str "Room added successfully"]
                         (seq_rooms (data c1))), c1)
            end
      | _, _, _ => (reply 500 "Error adding room", c)
      end
  end.

(** [UPDATE Rooms SET <the fields of clean that are defined>
    WHERE room_id = ?] *)
Definition update_room (rid : Z) (clean : room_clean) (db : DB) : DB :=
  with_rooms
    (map (fun r =>
            if room_id r =? rid then
              {| room_id := room_id r;
                 room_number := or_else (c_room_number clean) (room_number r);
                 capacity := or_else (c_capacity clean) (capacity r);
                 current_occupancy := current_occupancy r;
                 floor_level := or_else (c_floor_level clean) (floor_level r);
                 room_type := or_else (c_room_type clean) (room_type r);
                 monthly_fee := or_else (c_monthly_fee clean) (monthly_fee r);
                 wifi_available :=
                   or_else (c_wifi_available clean) (wifi_available r) |}
            else r)) db.

Definition no_keys (clean : room_clean) : bool :=
  match c_room_number clean, c_room_type clean, c_capacity clean,
        c_monthly_fee clean, c_floor_level clean, c_wifi_available clean with
  | None, None, None, None, None, None => true
  | _, _, _, _, _, _ => false
  end.

(** PUT /rooms/:id.  Store calls: 0 the room, 1 the room number, 2 the
    update. *)
Definition rooms_update (fail : nat -> bool) (roomId : Z) (body : room_body)
  (c : conn) : response * conn :=
  if roomId =? 0 then (reply 400 "Invalid room id", c)
  else
    let (errors, clean) := validateRoomPayload body false in
    match errors with
    | _ :: _ => (bad_request errors, c)
    | [] =>
        if no_keys clean then (reply 400 "No updates provided", c)
        else if fail 0%nat then (reply 500 "Error fetching room", c)
        else
          match select_room (data c) roomId with
          | None => (reply 404 "Room not found", c)
          | Some r =>
              if match c_capacity clean with
                 | Some cap => Qltb cap (inject_Z (current_occupancy r))
                 | None => false
                 end
              then
                (reply 400 "Capacity cannot be less than current occupancy",
                 c)
              else
                let proceedUpdate :=
                  if fail 2%nat then (reply 500 "Error updating room", c)
                  else
                    (ok (JMessage [Str "Room updated successfully"]),
                     exec (update_room roomId clean) c) in
                match c_room_number clean with
                | Some number =>
                    if fail 1%nat then
                      (reply 500 "Error validating room number", c)
                    else
                      match
                        find (fun x =>
                                String.eqb (room_number x) number
                                && negb (room_id x =? roomId))
                          (Rooms (data c))
                      with
                      | Some _ => (reply 400 "Room number already exists", c)
                      | None => proceedUpdate
                      end
                | None => proceedUpdate
                end
          end
    end.

(** DELETE /rooms/:id.  Store calls: 0 the room, 1 the delete. *)
Definition rooms_delete (fail : nat -> bool) (roomId : Z) (c : conn)
  : response * conn :=
  if roomId =? 0 then (reply 400 "Invalid room id", c)
  else if fail 0%nat then (reply 500 "Error deleting room", c)
  else
    match select_room (data c) roomId with
    | None => (reply 404 "Room not found", c)
    | Some r =>
        if 0 <? current_occupancy r then
          (reply 400 "Cannot delete a room with allocated students", c)
        else if fail 1%nat then (reply 500 "Error deleting room", c)
        else
          (ok (JMessage [Str "Room deleted successfully"]),
           exec (delete_room_row roomId) c)
    end.

(** ** Students

    [validateStudentPayload] checks the form fields against regular
    expressions; a request carries the trimmed fields and the list of
    errors the validation found. *)
Record student_body := { fields : student; errors_found : list text }.

(** POST /add-student.  Store calls: 0 the CNIC, 1 the insert. *)
Definition add_student (fail : nat -> bool) (body : student_body) (c : conn)
  : response * conn :=
  match errors_found body with
  | _ :: _ => (bad_request (errors_found body), c)
  | [] =>
      if fail 0%nat then (reply 500 "Error validating student", c)
      else
        match
          find (fun s => String.eqb (cnic s) (cnic (fields body)))
            (Students (data c))
        with
        | Some _ => (reply 409 "CNIC already exists", c)
        | None =>
            if fail 1%nat then
              ({| status := 500;
                  body := JMessage [Str "Error adding student: ";
                                    Cause] |}, c)
            else
              let c1 := exec (insert_student (fields body)) c in
              (ok (JCreated [Str "Student added successfully"]
                     (seq_students (data c1))), c1)
        end
  end.

(** PUT /students/:id.  Store calls: 0 the CNIC, 1 the update. *)
Definition students_update (fail : nat -> bool) (studentId : Z)
  (body : student_body) (c : conn) : response * conn :=
  if studentId =? 0 then (reply 400 "Invalid student id", c)
  else
    match errors_found body with
    | _ :: _ => (bad_request (errors_found body), c)
    | [] =>
        if fail 0%nat then (reply 500 "Error validating student", c)
        else
          match
            find (fun s =>
                    String.eqb (cnic s) (cnic (fields body))
                    && negb (student_id s =? studentId))
              (Students (data c))
          with
          | Some _ => (reply 409 "CNIC already exists", c)
          | None =>
              if fail 1%nat then
                ({| status := 500;
                    body := JMessage [Str "Error updating student: ";
                                      Cause] |}, c)
              else
                match select_student (data c) studentId with
                | None => (reply 404 "Student not found", c)
                | Some _ =>
                    (ok (JMessage [Str "Student updated successfully"]),
                     exec (update_student studentId (fields body)) c)
                end
          end
    end.

(** DELETE /students/:id, in one transaction.  Store calls: 0 the student,
    1 the allocations, then one occupancy update per allocation
    ([updateRooms], calls 2 .. n+1), then the deletes of the allocations
    (n+2), the payments (n+3), the complaints (n+4, a table outside this
    model) and the student (n+5).  [updateRooms] answers whether every
    update went through, with the connection as it then is. *)
Fixpoint updateRooms (fail : nat -> bool) (k : nat) (roomIds : list Z)
  (c : conn) : bool * conn :=
  match roomIds with
  | [] => (true, c)
  | roomId :: rest =>
      if fail k then (false, c)
      else updateRooms fail (S k) rest
             (exec (decrement_occupancy_positive roomId) c)
  end.

Definition deleteDependentRows (fail : nat -> bool) (k : nat)
  (studentId : Z) (c : conn) : response * conn :=
  if fail k then rollback 500 [Str "Error deleting student"] c
  else
    let c1 := exec (delete_allocations studentId) c in
    if fail (k + 1)%nat then rollback 500 [Str "Error deleting student"] c1
    else
      let c2 := exec (delete_payments studentId) c1 in
      if fail (k + 2)%nat then rollback 500 [Str "Error deleting student"] c2
      else if fail (k + 3)%nat then
        rollback 500 [Str "Error deleting student"] c2
      else
        let c3 := exec (delete_student_row studentId) c2 in
        (ok (JMessage
               [Str "Student and related records deleted successfully"]),
         sql_commit c3).

Definition students_delete (fail : nat -> bool) (studentId : Z) (c : conn)
  : response * conn :=
  if studentId =? 0 then (reply 400 "Invalid student id", c)
  else
    let c0 := sql_begin c in
    if fail 0%nat then rollback 500 [Str "Error deleting student"] c0
    else
      match select_student (data c0) studentId with
      | None => rollback 404 [Str "Student not found"] c0
      | Some _ =>
          if fail 1%nat then rollback 500 [Str "Error deleting student"] c0
          else
            let roomIds :=
              map alloc_room_id (select_allocations (data c0) studentId) in
            match updateRooms fail 2 roomIds c0 with
            | (false, c1) => rollback 500 [Str "Error deleting student"] c1
            | (true, c1) =>
                deleteDependentRows fail (2 + List.length roomIds) studentId
                  c1
            end
      end.

(** ** The server as a transition system *)

Inductive request :=
| AddStudent (body : student_body)
| UpdateStudent (studentId : Z) (body : student_body)
| DeleteStudent (studentId : Z)
| Allocate (student_id room_id : Z)
| TransferRoom (studentId newRoomId : Z)
| AddPayment (studentId : Z) (amount : option JsNumber)
| AddRoom (body : room_body)
| UpdateRoom (roomId : Z) (body : room_body)
| DeleteRoom (roomId : Z).

Definition handle (fail : nat -> bool) (now : Z) (req : request) (c : conn)
  : response * conn :=
  match req with
  | AddStudent body => add_student fail body c
  | UpdateStudent studentId body => students_update fail studentId body c
  | DeleteStudent studentId => students_delete fail studentId c
  | Allocate student_id room_id => allocate fail now student_id room_id c
  | TransferRoom studentId newRoomId =>
      transfer fail now studentId newRoomId c
  | AddPayment studentId amount => recordPayment fail now studentId amount c
  | AddRoom body => rooms_add fail body c
  | UpdateRoom roomId body => rooms_update fail roomId body c
  | DeleteRoom roomId => rooms_delete fail roomId c
  end.

Definition fresh : conn := {| data := empty_db; saved := None |}.

(** The states the server can be in: a fresh database, then any sequence of
    requests, each with its own clock reading and its own store errors. *)
Inductive reachable : conn -> Prop :=
| reachable_fresh : reachable fresh
| reachable_step fail now req c :
    reachable c -> reachable (snd (handle fail now req c)).

(** Requests served one after the other without a store error. *)
Fixpoint serve (now : Z) (reqs : list request) (c : conn) : conn :=
  match reqs with
  | [] => c
  | req :: rest => serve now rest (snd (handle no_fault now req c))
  end.


(** The states reached while the clock has not passed day [t]. *)
Inductive reachable_by (t : Z) : conn -> Prop :=
| by_fresh : reachable_by t fresh
| by_step fail now req c :
    reachable_by t c -> sql_date now <= t ->
    reachable_by t (snd (handle fail now req c)).

(** ** Closed forms and predicates used in the statements *)

(** The room fee passes the guard of [buildFeeSnapshot]. *)
Definition fee_configured (r : room) : Prop := (0 < monthly_fee r)%Q.

(** What [buildFeeSnapshot] answers for a resident whose room fee passes the
    guard, when neither store call fails. *)
Definition snapshot_of (now studentId : Z) (a : allocation) (r : room)
  (last : option Z) : snapshot :=
  let raw :=
    match last with
    | Some d => Some (sql_date now - (d + 30))
    | None => None
    end in
  let late :=
    match raw with Some n => Z.max 0 n | None => 0 end in
  {| snap_student_id := studentId;
     snap_monthly_fee := monthly_fee r;
     snap_room_type := room_type r;
     snap_allocation_date := allocation_date a;
     last_payment_date := last;
     due_date :=
       match last with Some d => Some (d + 30) | None => None end;
     days_late := late;
     fine := late * 100;
     total_payable := (monthly_fee r + inject_Z (late * 100))%Q;
     fee_status :=
       resolveFeeStatus raw
         (match last with Some _ => true | None => false end);
     snap_today := sql_date now |}.


(** The status and the fine of an answer of [buildFeeSnapshot]. *)
Definition status_and_fine (r : SnapResult) : option (FeeStatus * Z) :=
  match r with
  | SnapOk s => Some (fee_status s, fine s)
  | SnapErr _ _ => None
  end.

(** ** Sample requests and states *)

Definition form (who number : string) : student_body :=
  {| fields :=
       {| student_id := 0; name := who; cnic := number;
          department := "Physics"; phone := "03001234567";
          address := "Mall Road Lahore" |};
     errors_found := [] |}.

Definition ali : student_body := form "Ali" "35202-1234567-1".
Definition bilal : student_body := form "Bilal" "35202-1234567-2".
Definition dawood : student_body := form "Dawood" "35202-1234567-3".

Definition new_room (number : string) (beds fee : Q) : room_body :=
  {| b_room_number := Some (number, JNaN); b_room_type := None;
     b_capacity := Some (JNum beds); b_monthly_fee := Some (JNum fee);
     b_floor_level := None; b_wifi_available := None |}.

Definition day (d : Z) : Z := d * DAY_MS.

(** Ali is in room A1 (two beds, 5000 a month) and has not paid yet. *)
Definition ali_unpaid : conn :=
  serve (day 20000)
    [AddStudent ali; AddRoom (new_room "A1" 2 5000); Allocate 1 1] fresh.

(** Ali paid his first month on day 20000. *)
Definition ali_paid : conn :=
  serve (day 20000) [AddPayment 1 (Some (JNum 5000))] ali_unpaid.

(** Ali in a room at 499900.001 a month, first month paid on day 20000. *)
Definition ali_costly : conn :=
  serve (day 20000)
    [AddStudent ali; AddRoom (new_room "A1" 2 (499900001 # 1000));
     Allocate 1 1; AddPayment 1 (Some (JNum 499900))] fresh.

(** Ali in a room at 499950 a month, first month paid on day 20000. *)
Definition ali_dear : conn :=
  serve (day 20000)
    [AddStudent ali; AddRoom (new_room "A1" 2 499950);
     Allocate 1 1; AddPayment 1 (Some (JNum 499950))] fresh.

(** The amount fails the range check of [recordPayment]. *)
Definition out_of_range (x : JsNumber) : Prop :=
  is_finite x = false \/ js_le x 0 = true \/ js_gt x MAX_MONTHLY_FEE = true.

(** Ali in room A1, and a second, empty room B2. *)
Definition two_rooms : conn :=
  serve (day 20000) [AddRoom (new_room "B2" 1 3000)] ali_unpaid.

(** Only the store call number [n] of the request fails. *)
Definition fails_at (n : nat) : nat -> bool := fun k => Nat.eqb k n.

(** ** Net effects

    What one request can do to the store when it is served outside a
    transaction: nothing, or the statements of one handler. *)

(** [updateRooms] without store errors, as the sequence of its updates. *)
Fixpoint release_beds (roomIds : list Z) (db : DB) : DB :=
  match roomIds with
  | [] => db
  | roomId :: rest => release_beds rest (decrement_occupancy_positive roomId db)
  end.

Definition valid_capacity (cap : Q) : Prop :=
  (0 < cap)%Q /\ (cap <= MAX_ROOM_CAPACITY)%Q.

Inductive effect (now : Z) (db : DB) : DB -> Prop :=
| eff_none : effect now db db
| eff_add_student f : effect now db (insert_student f db)
| eff_update_student sid f : effect now db (update_student sid f db)
| eff_delete_student sid :
    effect now db
      (delete_student_row sid
         (delete_payments sid
            (delete_allocations sid
               (release_beds (map alloc_room_id (select_allocations db sid))
                  db))))
| eff_allocate_row sid rid :
    select_allocation db sid = None ->
    effect now db (insert_allocation sid rid (sql_date now) db)
| eff_allocate sid rid r :
    select_allocation db sid = None ->
    select_room db rid = Some r ->
    (inject_Z (current_occupancy r) < capacity r)%Q ->
    effect now db
      (increment_occupancy rid
         (insert_allocation sid rid (sql_date now) db))
| eff_transfer sid rid a r :
    select_allocation db sid = Some a ->
    select_room db rid = Some r ->
    alloc_room_id a <> rid ->
    (inject_Z (current_occupancy r) < capacity r)%Q ->
    effect now db
      (increment_occupancy rid
         (decrement_occupancy_floor (alloc_room_id a)
            (update_allocation rid (sql_date now) (allocation_id a) db)))
| eff_payment sid paid :
    effect now db (insert_payment sid paid (sql_date now) db)
| eff_add_room number cap floor type fee wifi :
    valid_capacity cap ->
    effect now db (insert_room number cap floor type fee wifi db)
| eff_update_room rid clean r :
    select_room db rid = Some r ->
    (forall cap, c_capacity clean = Some cap ->
                 valid_capacity cap /\
                 (inject_Z (current_occupancy r) <= cap)%Q) ->
    effect now db (update_room rid clean db)
| eff_delete_room rid r :
    select_room db rid = Some r ->
    current_occupancy r <= 0 ->
    effect now db (delete_room_row rid db).

(** No student appears in two rows of Allocations. *)
Definition one_allocation_each (db : DB) : Prop :=
  NoDup (map alloc_student_id (Allocations db)).

(** ** Occupancy *)

Definition within_capacity (r : room) : Prop :=
  0 <= current_occupancy r /\
  (inject_Z (current_occupancy r) <= capacity r)%Q.

(** [0 <= occupancy <= capacity] in every room. *)
Definition occupancy_bounded (db : DB) : Prop :=
  Forall within_capacity (Rooms db).

(** Every capacity is a whole number. *)
Definition whole_capacities (db : DB) : Prop :=
  Forall (fun r => (inject_Z (Qfloor (capacity r)) == capacity r)%Q)
    (Rooms db).

(** Room ids are distinct and none exceeds the last one handed out. *)
Definition rooms_keyed (db : DB) : Prop :=
  NoDup (map room_id (Rooms db)) /\
  Forall (fun r => room_id r <= seq_rooms db) (Rooms db).

(** Three students and one room whose capacity was entered as 2.5. *)
Definition three_students : conn :=
  serve (day 20000)
    [AddStudent ali; AddStudent bilal; AddStudent dawood;
     AddRoom (new_room "C3" (5 # 2) 4000)] fresh.

Definition two_in_C3 : conn :=
  serve (day 20000) [Allocate 1 1; Allocate 2 1] three_students.

Definition three_in_C3 : conn :=
  serve (day 20000) [Allocate 3 1] two_in_C3.

Definition beds (c : conn) : list (Q * Z) :=
  map (fun r => (capacity r, current_occupancy r)) (Rooms (data c)).

(** A request served outside a transaction leaves none open and has one of
    the net effects. *)
Definition settled (now : Z) (c c' : conn) : Prop :=
  saved c' = None /\ effect now (data c) (data c').


(** ** Tactics *)

(** Case analysis on every test and look-up in the goal. *)
Ltac split_cases :=
  repeat
    match goal with
    | |- context [if ?b then _ else _] =>
        let E := fresh "E" in destruct b eqn:E
    | |- context [match ?o with Some _ => _ | None => _ end] =>
        let E := fresh "E" in destruct o eqn:E
    | |- context [match ?l with [] => _ | _ :: _ => _ end] =>
        let E := fresh "E" in destruct l eqn:E
    | |- context [match ?x with SnapErr _ _ => _ | SnapOk _ => _ end] =>
        let E := fresh "E" in destruct x eqn:E
    end.


(** Ali's room, after his first payment, has its fee set to 0. *)
Definition ali_fee_dropped : conn :=
  serve (day 20001)
    [UpdateRoom 1
       {| b_room_number := None; b_room_type := None; b_capacity := None;
          b_monthly_fee := Some (JNum 0); b_floor_level := None;
          b_wifi_available := None |}] ali_paid.

(** Ali's room costs 0.145 a month: [0.145 * 100] is 14.499999999999998 in
    double arithmetic. *)
Definition ali_cheap : conn :=
  serve (day 20000)
    [AddStudent ali; AddRoom (new_room "A1" 2 (145 # 1000)); Allocate 1 1]
    fresh.

(** ** Requests in flight

    Express runs a handler up to its first store call when the request
    arrives.  A store call completes later and then runs its callback, which
    issues the next call or answers.  [/allocate] opens no transaction, so
    between two of its callbacks the callbacks of other requests run on the
    same database.  A request of [/allocate] in flight is the store call it
    waits for; [allocate_callback] completes that call and runs its callback.
    The store calls are numbered as in [allocate]. *)

Inductive pending :=
| StudentQuery       (* SELECT student_id FROM Students *)
| AllocationQuery    (* SELECT allocation_id FROM Allocations *)
| RoomQuery          (* SELECT capacity, current_occupancy FROM Rooms *)
| AllocationInsert   (* INSERT INTO Allocations *)
| OccupancyUpdate    (* UPDATE Rooms SET current_occupancy *)
| Sent (r : response).

Definition allocate_arrives (student_id room_id : Z) : pending :=
  if (student_id =? 0) || (room_id =? 0) then
    Sent (reply 400 "Student and room are required")
  else StudentQuery.

Definition allocate_callback (fail : nat -> bool) (now : Z)
  (student_id room_id : Z) (p : pending) (db : DB) : pending * DB :=
  match p with
  | StudentQuery =>
      if fail 0%nat then (Sent (reply 500 "Error verifying student"), db)
      else
        match select_student db student_id with
        | None => (Sent (reply 404 "Student does not exist"), db)
        | Some _ => (AllocationQuery, db)
        end
  | AllocationQuery =>
      if fail 1%nat then (Sent (reply 500 "Error checking allocation"), db)
      else
        match select_allocation db student_id with
        | Some _ =>
            (Sent (reply 400 "Student is already allocated to a room"), db)
        | None => (RoomQuery, db)
        end
  | RoomQuery =>
      if fail 2%nat then (Sent (reply 500 "Error fetching room"), db)
      else
        match select_room db room_id with
        | None =>
            (Sent {| status := 404;
                     body := JMessage [Str "Room ID "; Int room_id;
                                       Str " does not exist"] |}, db)
        | Some r =>
            if Qle_bool (capacity r) (inject_Z (current_occupancy r))
            then (Sent (reply 400 "Room is full"), db)
            else (AllocationInsert, db)
        end
  | AllocationInsert =>
      if fail 3%nat then (Sent (reply 500 "Error allocating student"), db)
      else
        (OccupancyUpdate,
         insert_allocation student_id room_id (sql_date now) db)
  | OccupancyUpdate =>
      if fail 4%nat then (Sent (reply 500 "Error updating room"), db)
      else
        (Sent (ok (JMessage [Str "Student allocated successfully"])),
         increment_occupancy room_id db)
  | Sent r => (Sent r, db)
  end.

(** [n] callbacks of one request in a row. *)
Fixpoint allocate_callbacks (n : nat) (fail : nat -> bool) (now : Z)
  (student_id room_id : Z) (p : pending) (db : DB) : pending * DB :=
  match n with
  | O => (p, db)
  | S m =>
      let (p1, db1) := allocate_callback fail now student_id room_id p db in
      allocate_callbacks m fail now student_id room_id p1 db1
  end.

Record in_flight := {
  for_student : Z;
  for_room : Z;
  waits_for : pending
}.

Definition arrive (student_id room_id : Z) : in_flight :=
  {| for_student := student_id; for_room := room_id;
     waits_for := allocate_arrives student_id room_id |}.

Fixpoint put (i : nat) (f : in_flight) (pool : list in_flight)
  : list in_flight :=
  match pool, i with
  | [], _ => []
  | _ :: rest, O => f :: rest
  | x :: rest, S j => x :: put j f rest
  end.

(** The requests of [pool] are in flight together; [schedule] lists, in
    the order in which the store calls complete, the request each belongs
    to. *)
Fixpoint interleave (fail : nat -> bool) (now : Z) (schedule : list nat)
  (pool : list in_flight) (db : DB) : list in_flight * DB :=
  match schedule with
  | [] => (pool, db)
  | i :: rest =>
      match nth_error pool i with
      | None => interleave fail now rest pool db
      | Some f =>
          let (p, db1) :=
            allocate_callback fail now (for_student f) (for_room f)
              (waits_for f) db in
          interleave fail now rest
            (put i {| for_student := for_student f; for_room := for_room f;
                      waits_for := p |} pool) db1
      end
  end.

(** Ali is on record and has no room yet; rooms A1 and B2 have free beds. *)
Definition ali_waiting : conn :=
  serve (day 20000)
    [AddStudent ali; AddRoom (new_room "A1" 2 5000);
     AddRoom (new_room "B2" 1 3000)] fresh.

(** Two requests to allocate Ali, to A1 and to B2, arrive together: both
    have asked for his allocation before either inserts one. *)
Definition both_ask_first : list nat := [0; 0; 1; 1; 0; 0; 0; 1; 1; 1]%nat.

(** * The rest of the server, and the pages that call it *)

(** ** Changes

    The net effect of a request once more, now with what the handler has
    checked before it writes.  The flag is set for the one effect that is
    half an operation: the allocation row that [allocate] leaves behind when
    its occupancy update fails. *)

Definition fee_in_range (fee : Q) : Prop :=
  (0 <= fee)%Q /\ (fee <= MAX_MONTHLY_FEE)%Q.

Definition floor_in_range (f : Z) : Prop := 0 <= f <= 200.

Definition flag (w : Z) : Prop := w = 0 \/ w = 1.

(** Every field that [validateRoomPayload] lets through is in its range. *)
Definition clean_valid (clean : room_clean) : Prop :=
  (forall cap, c_capacity clean = Some cap -> valid_capacity cap) /\
  (forall fee, c_monthly_fee clean = Some fee -> fee_in_range fee) /\
  (forall f, c_floor_level clean = Some f -> floor_in_range f) /\
  (forall w, c_wifi_available clean = Some w -> flag w).

Inductive change (now : Z) (db : DB) : bool -> DB -> Prop :=
| ch_none : change now db false db
| ch_add_student f :
    (forall s, In s (Students db) -> cnic s <> cnic f) ->
    change now db false (insert_student f db)
| ch_update_student sid f st :
    select_student db sid = Some st ->
    (forall s, In s (Students db) -> cnic s = cnic f -> student_id s = sid) ->
    change now db false (update_student sid f db)
| ch_delete_student sid st :
    select_student db sid = Some st ->
    change now db false
      (delete_student_row sid
         (delete_payments sid
            (delete_allocations sid
               (release_beds (map alloc_room_id (select_allocations db sid))
                  db))))
| ch_allocate_row sid rid st r :
    select_student db sid = Some st ->
    select_allocation db sid = None ->
    select_room db rid = Some r ->
    (inject_Z (current_occupancy r) < capacity r)%Q ->
    change now db true (insert_allocation sid rid (sql_date now) db)
| ch_allocate sid rid st r :
    select_student db sid = Some st ->
    select_allocation db sid = None ->
    select_room db rid = Some r ->
    (inject_Z (current_occupancy r) < capacity r)%Q ->
    change now db false
      (increment_occupancy rid
         (insert_allocation sid rid (sql_date now) db))
| ch_transfer sid rid a r :
    select_allocation db sid = Some a ->
    select_room db rid = Some r ->
    alloc_room_id a <> rid ->
    (inject_Z (current_occupancy r) < capacity r)%Q ->
    change now db false
      (increment_occupancy rid
         (decrement_occupancy_floor (alloc_room_id a)
            (update_allocation rid (sql_date now) (allocation_id a) db)))
| ch_payment sid paid st :
    select_student db sid = Some st ->
    change now db false (insert_payment sid paid (sql_date now) db)
| ch_add_room number cap floor type fee wifi :
    valid_capacity cap -> fee_in_range fee -> floor_in_range floor ->
    flag wifi ->
    (forall r, In r (Rooms db) -> room_number r <> number) ->
    change now db false (insert_room number cap floor type fee wifi db)
| ch_update_room rid clean r :
    select_room db rid = Some r ->
    clean_valid clean ->
    (forall cap, c_capacity clean = Some cap ->
                 (inject_Z (current_occupancy r) <= cap)%Q) ->
    (forall number, c_room_number clean = Some number ->
       forall x, In x (Rooms db) -> room_number x = number ->
                 room_id x = rid) ->
    change now db false (update_room rid clean db)
| ch_delete_room rid r :
    select_room db rid = Some r ->
    current_occupancy r <= 0 ->
    change now db false (delete_room_row rid db).

(** What a handler returns: an error and the connection as it was, or a 200
    and a whole change. *)
Definition all_or_nothing (now : Z) (c : conn) (out : response * conn)
  : Prop :=
  (status (fst out) <> 200 /\ snd out = c) \/
  (status (fst out) = 200 /\ saved (snd out) = None /\
   change now (data c) false (data (snd out))).

(** ... or, for [allocate] alone, a 500 and half a change. *)
Definition half_done (fail : nat -> bool) (now : Z) (req : request)
  (c : conn) (out : response * conn) : Prop :=
  (exists sid rid, req = Allocate sid rid) /\
  fail 4%nat = true /\ status (fst out) = 500 /\ saved (snd out) = None /\
  change now (data c) true (data (snd out)).

(** The store errors that do not hit the occupancy update of [allocate]. *)
Definition spares (fail : nat -> bool) (req : request) : Prop :=
  match req with
  | Allocate _ _ => fail 4%nat = false
  | _ => True
  end.

(** The states reached when no store error hits the occupancy update of
    [allocate]; every other store call may fail. *)
Inductive reachable_whole : conn -> Prop :=
| whole_fresh : reachable_whole fresh
| whole_step fail now req c :
    reachable_whole c -> spares fail req ->
    reachable_whole (snd (handle fail now req c)).

(** Bilal has joined Ali in room A1; room B2 is empty. *)
Definition full_house : conn :=
  serve (day 20000) [AddStudent bilal; Allocate 2 1] two_rooms.

(** ** Keys and references *)

(** Student ids are distinct and none exceeds the last one handed out. *)
Definition students_keyed (db : DB) : Prop :=
  NoDup (map student_id (Students db)) /\
  Forall (fun s => student_id s <= seq_students db) (Students db).

Definition allocations_keyed (db : DB) : Prop :=
  NoDup (map allocation_id (Allocations db)) /\
  Forall (fun a => allocation_id a <= seq_allocations db) (Allocations db).

Definition cnics_distinct (db : DB) : Prop :=
  NoDup (map cnic (Students db)).

Definition room_numbers_distinct (db : DB) : Prop :=
  NoDup (map room_number (Rooms db)).

Definition known_student (db : DB) (sid : Z) : Prop :=
  In sid (map student_id (Students db)).

Definition known_room (db : DB) (rid : Z) : Prop :=
  In rid (map room_id (Rooms db)).

(** Every allocation and every payment is of a student on record. *)
Definition students_exist (db : DB) : Prop :=
  Forall (fun a => known_student db (alloc_student_id a)) (Allocations db) /\
  Forall (fun p => known_student db (pay_student_id p)) (Payments db).

(** Every allocation is to a room on record. *)
Definition rooms_exist (db : DB) : Prop :=
  Forall (fun a => known_room db (alloc_room_id a)) (Allocations db).

Definition room_in_range (r : room) : Prop :=
  valid_capacity (capacity r) /\ fee_in_range (monthly_fee r) /\
  floor_in_range (floor_level r) /\ flag (wifi_available r) /\
  0 <= current_occupancy r.

Definition rooms_in_range (db : DB) : Prop :=
  Forall room_in_range (Rooms db).

(** The number of allocations to a room. *)
Definition occupants (db : DB) (rid : Z) : Z :=
  Z.of_nat
    (List.length (filter (fun a => alloc_room_id a =? rid) (Allocations db))).

(** Every room's occupancy is the number of its allocations. *)
Definition occupancy_exact (db : DB) : Prop :=
  Forall (fun r => current_occupancy r = occupants db (room_id r)) (Rooms db).

(** The store is consistent: rooms and allocations have distinct ids, a
    student has at most one allocation, every allocation is to a room on
    record, and every occupancy is the number of the room's allocations. *)
Definition consistent (db : DB) : Prop :=
  rooms_keyed db /\ allocations_keyed db /\ one_allocation_each db /\
  rooms_exist db /\ occupancy_exact db.

(** The number of rows of a list of allocations that are to a room. *)
Definition tally (rows : list allocation) (rid : Z) : Z :=
  Z.of_nat (List.length (filter (fun a => alloc_room_id a =? rid) rows)).

(** The statuses in the order [resolveFeeStatus] tests them. *)
Definition severity (s : FeeStatus) : Z :=
  match s with
  | PaymentPending => 0
  | Paid => 0
  | Late => 1
  | Defaulter => 2
  | CriticalDefaulter => 3
  end.

(** ** GET /rooms/:id

    [roomId] is the [parseInt] of the path segment, [None] for NaN.  Every
    answer of this handler is sent with [res.json] alone, a 200.  Store
    calls: 0 the room, 1 its students. *)
Record room_view := {
  v_room_id : Z;
  v_room_number : string;
  v_capacity : Q;
  v_current_occupancy : Z;
  v_room_type : string;
  v_monthly_fee : Q;
  v_floor_level : Z;
  v_wifi_available : bool;
  v_students : list (Z * string);
  v_message : option string
}.

Inductive details :=
| NoDetails (message : text)
| Details (v : room_view).

(** [SELECT Students.student_id, Students.name FROM Allocations JOIN
    Students ON Students.student_id = Allocations.student_id WHERE
    Allocations.room_id = ?] *)
Definition room_students (db : DB) (rid : Z) : list (Z * string) :=
  flat_map
    (fun a =>
       map (fun s => (student_id s, name s))
         (filter (fun s => student_id s =? alloc_student_id a) (Students db)))
    (filter (fun a => alloc_room_id a =? rid) (Allocations db)).

Definition room_details (fail : nat -> bool) (roomId : option Z) (c : conn)
  : details :=
  if fail 0%nat then NoDetails [Str "Error fetching room"]
  else
    match
      match roomId with
      | Some rid => select_room (data c) rid
      | None => None
      end
    with
    | None =>
        NoDetails
          [Str "Room ID ";
           match roomId with Some rid => Int rid | None => Str "NaN" end;
           Str " does not exist"]
    | Some r =>
        if fail 1%nat then NoDetails [Str "Error fetching students"]
        else
          let students := room_students (data c) (room_id r) in
          Details
            {| v_room_id := room_id r;
               v_room_number := room_number r;
               v_capacity := capacity r;
               v_current_occupancy := current_occupancy r;
               v_room_type := room_type r;
               v_monthly_fee := monthly_fee r;
               v_floor_level := floor_level r;
               v_wifi_available := negb (wifi_available r =? 0);
               v_students := students;
               v_message :=
                 match students with
                 | [] => Some "No students in this room"%string
                 | _ :: _ => None
                 end |}
    end.

(** ** The dashboard queries

    The counts of GET /dashboard/metrics: the rows of Allocations, and the
    rows of Rooms [WHERE current_occupancy < capacity]. *)
Definition totalAllocations (db : DB) : Z :=
  Z.of_nat (List.length (Allocations db)).

Definition vacantRooms (db : DB) : Z :=
  Z.of_nat
    (List.length
       (filter (fun r => Qltb (inject_Z (current_occupancy r)) (capacity r))
          (Rooms db))).

(** * The pages (public/js)

    The functions of the browser side that compute on what the server
    sends.  A list of rooms is the answer of GET /rooms, the rows of
    Rooms. *)

(** [statusTone], the colour of the fee status badge *)
Definition statusTone (status : string) : string :=
  if String.eqb status "Paid" then "success"
  else if String.eqb status "Late" then "warning"
  else if String.eqb status "Defaulter"
          || String.eqb status "Critical Defaulter" then "danger"
  else if String.eqb status "Payment Pending" then "warning"
  else "".

(** The tones from good to bad. *)
Definition tone_rank (tone : string) : Z :=
  if String.eqb tone "success" then 0
  else if String.eqb tone "warning" then 1
  else if String.eqb tone "danger" then 2
  else -1.

(** [Math.max(0, x)] *)
Definition max0 (x : Q) : Q := if Qle_bool x 0 then 0%Q else x.

(** [openBeds] of the dashboard: [rooms.reduce((sum, room) => sum +
    Math.max(0, Number(room.capacity) - Number(room.current_occupancy || 0)),
    0)] *)
Definition openBeds (rooms : list room) : Q :=
  fold_left
    (fun sum r =>
       (sum + max0 (capacity r - inject_Z (current_occupancy r)))%Q)
    rooms 0%Q.

(** [openRooms] of the transfer dialog: [rooms.filter((room) =>
    Number(room.capacity) > Number(room.current_occupancy))] *)
Definition openRooms (rooms : list room) : list room :=
  filter (fun r => Qltb (inject_Z (current_occupancy r)) (capacity r)) rooms.

(** A field of a form payload: absent, null (what [toNumber] makes of
    anything that is not a finite number) or a number. *)
Inductive field :=
| Undefined
| Null
| Number (x : JsNumber).

(** The payload the room forms build.  Both forms trim the room number and
    the room type before they validate; the number comes with the value
    [Number(...)] has on it. *)
Record room_form := {
  f_room_number : option (string * JsNumber);
  f_room_type : option string;
  f_capacity : field;
  f_monthly_fee : field;
  f_floor_level : field;
  f_wifi_available : Z
}.

(** [validateRoomFormPayload]: null, or the errors (which it joins with
    ". ") *)
Definition validateRoomFormPayload (payload : room_form) (requireAll : bool)
  : option (list string) :=
  let filled :=
    match f_room_number payload with
    | Some (s, _) => negb (String.length s =? 0)%nat
    | None => false
    end in
  let e_required :=
    if requireAll && negb filled then ["Room number is required"%string] else [] in
  let e_length :=
    match f_room_number payload with
    | Some (s, _) =>
        if filled && (12 <? String.length s)%nat then
          ["Room number must be under 12 characters"%string]
        else []
    | None => []
    end in
  let e_negative :=
    match f_room_number payload with
    | Some (s, n) =>
        if filled && js_lt n 0 then ["Room number cannot be negative"%string]
        else []
    | None => []
    end in
  let check (value : field) (ok_number : JsNumber -> bool)
        (wrong missing : string) :=
    match value with
    | Undefined => if requireAll then [missing] else []
    | Null => [wrong]
    | Number x => if ok_number x then [] else [wrong]
    end in
  let e_capacity :=
    check (f_capacity payload)
      (fun x => negb (negb (is_finite x) || js_le x 0 || js_gt x 50))
      "Capacity must be between 1 and 50"%string
      "Capacity is required"%string in
  let e_fee :=
    check (f_monthly_fee payload)
      (fun x => negb (negb (is_finite x) || js_lt x 0 || js_gt x 500000))
      "Monthly fee must be between 0 and 500,000 PKR"%string
      "Monthly fee is required"%string in
  let e_floor :=
    check (f_floor_level payload)
      (fun x => negb (negb (is_integer x) || js_lt x 0 || js_gt x 200))
      "Floor must be an integer between 0 and 200"%string
      "Floor is required"%string in
  match e_required ++ e_length ++ e_negative ++ e_capacity ++ e_fee
        ++ e_floor with
  | [] => None
  | errors => Some errors
  end.

(** What the server reads of a payload sent with [JSON.stringify]: an
    absent field is absent, null and the numbers that are not finite arrive
    as null, and [Number(null)] is 0. *)
Definition sent (value : field) : option JsNumber :=
  match value with
  | Undefined => None
  | Null => Some (JNum 0)
  | Number (JNum q) => Some (JNum q)
  | Number _ => Some (JNum 0)
  end.

Definition to_body (payload : room_form) : room_body :=
  {| b_room_number := f_room_number payload;
     b_room_type := f_room_type payload;
     b_capacity := sent (f_capacity payload);
     b_monthly_fee := sent (f_monthly_fee payload);
     b_floor_level := sent (f_floor_level payload);
     b_wifi_available := Some (f_wifi_available payload =? 1) |}.

(** A filled add-room form. *)
Definition room_D4 : room_form :=
  {| f_room_number := Some ("D4"%string, JNaN);
     f_room_type := Some "single"%string;
     f_capacity := Number (JNum 1);
     f_monthly_fee := Number (JNum 9000);
     f_floor_level := Number (JNum 2);
     f_wifi_available := 0 |}.

(** The beds taken, over all rooms. *)
Definition bedsTaken (rooms : list room) : Z :=
  fold_right (fun r sum => current_occupancy r + sum) 0 rooms.

(** The first room of [full_house] and the second of its allocations. *)
Definition A1_full : room :=
  {| room_id := 1; room_number := "A1"; capacity := 2;
     current_occupancy := 2; floor_level := 0; room_type := "Standard";
     monthly_fee := 5000; wifi_available := 0 |}.

Definition bilal_in_A1 : allocation :=
  {| allocation_id := 2; alloc_student_id := 2; alloc_room_id := 1;
     allocation_date := 20000 |}.

(** ** Tactics *)

(** The cases of a change, with the names of what each has checked. *)
Ltac change_cases H :=
  destruct H as
    [ | f Hfree | sid f st Hst Hfree | sid st Hst
    | sid rid st r Hst Hnone Hroom Hfree
    | sid rid st r Hst Hnone Hroom Hfree
    | sid rid a r Halloc Hroom Hother Hfree | sid paid st Hst
    | number cap floor type fee wifi Hcap Hfee Hfloor Hwifi Hnum
    | rid clean r Hroom Hvalid Hguard Hnum | rid r Hroom Hempty ].

(** * Properties

    The statements marked C1 to C10 are the properties stated of the
    program; the other lemmas support them. *)

(** ** Dates *)

Lemma DAY_MS_pos : 0 < DAY_MS.
Proof. reflexivity. Qed.

Lemma formatDateISO_addDays (d n : Z) :
  formatDateISO (addDays (d * DAY_MS) n) = d + n.
Proof.
  unfold formatDateISO, addDays.
  rewrite <- Z.mul_add_distr_r.
  apply Z.div_mul. discriminate.
Qed.

(** The number of whole days between the due date and today's midnight. *)
Lemma raw_days_late (now d : Z) :
  (startOfTodayUTC now - addDays (d * DAY_MS) 30) / DAY_MS
  = sql_date now - (d + 30).
Proof.
  unfold startOfTodayUTC, addDays, sql_date.
  replace (now / DAY_MS * DAY_MS - (d * DAY_MS + 30 * DAY_MS))
    with ((now / DAY_MS - (d + 30)) * DAY_MS) by ring.
  apply Z.div_mul. discriminate.
Qed.

Lemma formatDateISO_today (now : Z) :
  formatDateISO (startOfTodayUTC now) = sql_date now.
Proof.
  unfold formatDateISO, startOfTodayUTC, sql_date.
  apply Z.div_mul. discriminate.
Qed.

(** ** The fee snapshot in closed form *)

Lemma fee_configured_guard (r : room) :
  fee_configured r <-> Qle_bool (monthly_fee r) 0 = false.
Proof.
  unfold fee_configured. split.
  - intros H. destruct (Qle_bool (monthly_fee r) 0) eqn:E; [|reflexivity].
    apply Qle_bool_iff in E. exfalso. exact (Qlt_not_le _ _ H E).
  - intros E. apply Qnot_le_lt. intros H.
    apply Qle_bool_iff in H. congruence.
Qed.

Lemma buildFeeSnapshot_closed (fail : nat -> bool) (k : nat)
  (now : Z) (db : DB) (sid : Z) (a : allocation) (r : room) :
  fail k = false -> fail (S k) = false ->
  select_allocation_room db sid = Some (a, r) ->
  fee_configured r ->
  buildFeeSnapshot fail k now db sid
  = SnapOk (snapshot_of now sid a r (select_last_payment db sid)).
Proof.
  intros Hk HSk Hjoin Hfee.
  apply fee_configured_guard in Hfee.
  unfold buildFeeSnapshot, snapshot_of.
  rewrite Hk, Hjoin, Hfee, HSk.
  destruct (select_last_payment db sid) as [d|]; cbn [parseDbDate].
  - rewrite raw_days_late, formatDateISO_addDays, formatDateISO_today.
    set (raw := sql_date now - (d + 30)).
    destruct (0 <? raw) eqn:E.
    + apply Z.ltb_lt in E. rewrite Z.max_r by lia.
      rewrite (proj2 (Z.ltb_lt 0 raw) E). reflexivity.
    + apply Z.ltb_ge in E. rewrite Z.max_l by lia. reflexivity.
  - rewrite formatDateISO_today. reflexivity.
Qed.

(** A snapshot is computed only past the allocation and fee guards. *)
Lemma buildFeeSnapshot_inv (fail : nat -> bool) (k : nat)
  (now : Z) (db : DB) (sid : Z) (s : snapshot) :
  buildFeeSnapshot fail k now db sid = SnapOk s ->
  exists a r,
    select_allocation_room db sid = Some (a, r) /\ fee_configured r /\
    s = snapshot_of now sid a r (select_last_payment db sid).
Proof.
  intros H.
  assert (G := H). unfold buildFeeSnapshot in G.
  destruct (fail k) eqn:Hk; [discriminate|].
  destruct (select_allocation_room db sid) as [[a r]|] eqn:Hjoin;
    [|discriminate].
  destruct (Qle_bool (monthly_fee r) 0) eqn:Hfee; [discriminate|].
  destruct (fail (S k)) eqn:HSk; [discriminate|].
  clear G. apply fee_configured_guard in Hfee.
  exists a, r. repeat split; trivial.
  rewrite (buildFeeSnapshot_closed fail k now db sid a r Hk HSk Hjoin Hfee)
    in H.
  congruence.
Qed.

Lemma resolveFeeStatus_table (raw : Z) :
  resolveFeeStatus (Some raw) true =
    if raw <=? 0 then Paid
    else if raw <=? 5 then Late
    else if raw <=? 30 then Defaulter
    else CriticalDefaulter.
Proof. reflexivity. Qed.

Lemma latest_date_none (rows : list payment) (sid : Z) :
  latest_date rows sid = None <->
  forall p, In p rows -> pay_student_id p <> sid.
Proof.
  induction rows as [|p rows IH]; simpl.
  - split; [intros _ q []|reflexivity].
  - destruct (pay_student_id p =? sid) eqn:E.
    + apply Z.eqb_eq in E. split.
      * destruct (latest_date rows sid); discriminate.
      * intros H. exfalso. apply (H p); auto.
    + apply Z.eqb_neq in E. rewrite IH. split.
      * intros H q [<-|Hq]; auto.
      * intros H q Hq. apply H. auto.
Qed.

(** ** Billing *)

(** C1, as amended.  A resident in a room at 5000 a month whose last payment
    is dated [D]: on day [D+29] the status is Paid; on [D+31] it is Late with
    a fine of 100; on [D+35], five days past the due date, it is still Late,
    with a fine of 500; on [D+61] it is CriticalDefaulter with a fine of
    3100. *)
Theorem fee_staircase (db : DB) (sid : Z) (a : allocation) (r : room)
  (D now : Z) :
  select_allocation_room db sid = Some (a, r) ->
  (monthly_fee r == 5000)%Q ->
  select_last_payment db sid = Some D ->
  let answer := status_and_fine (buildFeeSnapshot no_fault 0 now db sid) in
  (sql_date now = D + 29 -> answer = Some (Paid, 0)) /\
  (sql_date now = D + 31 -> answer = Some (Late, 100)) /\
  (sql_date now = D + 35 -> answer = Some (Late, 500)) /\
  (sql_date now = D + 61 -> answer = Some (CriticalDefaulter, 3100)).
Proof.
  intros Hjoin Hfee Hlast answer. subst answer.
  assert (Hpos : fee_configured r).
  { unfold fee_configured. rewrite Hfee. reflexivity. }
  rewrite (buildFeeSnapshot_closed no_fault 0 now db sid a r
             eq_refl eq_refl Hjoin Hpos), Hlast.
  unfold snapshot_of, status_and_fine; cbn [fee_status fine].
  repeat split; intros ->.
  - replace (D + 29 - (D + 30)) with (-1) by lia. reflexivity.
  - replace (D + 31 - (D + 30)) with 1 by lia. reflexivity.
  - replace (D + 35 - (D + 30)) with 5 by lia. reflexivity.
  - replace (D + 61 - (D + 30)) with 31 by lia. reflexivity.
Qed.

Lemma fee_staircase_witness :
  status_and_fine
    (buildFeeSnapshot no_fault 0 (day 20035) (data ali_paid) 1)
  = Some (Late, 500).
Proof.
  refine (proj1 (proj2 (proj2
    (fee_staircase (data ali_paid) 1
       {| allocation_id := 1; alloc_student_id := 1; alloc_room_id := 1;
          allocation_date := 20000 |}
       {| room_id := 1; room_number := "A1"; capacity := 2;
          current_occupancy := 1; floor_level := 0; room_type := "Standard";
          monthly_fee := 5000; wifi_available := 0 |}
       20000 (day 20035) _ _ _))) _);
    reflexivity.
Defined.

(** C1 as stated fails on day [D+35]: the resident is five days late, which
    [resolveFeeStatus] still classifies as Late. *)
Lemma staircase_day35_not_defaulter :
  select_last_payment (data ali_paid) 1 = Some 20000 /\
  status_and_fine
    (buildFeeSnapshot no_fault 0 (day (20000 + 35)) (data ali_paid) 1)
  = Some (Late, 500) /\
  status_and_fine
    (buildFeeSnapshot no_fault 0 (day (20000 + 35)) (data ali_paid) 1)
  <> Some (Defaulter, 500).
Proof.
  split; [vm_compute; reflexivity|].
  split; [vm_compute; reflexivity | vm_compute; discriminate].
Qed.



(** C7.  For a resident with an allocation and no payment on record, every
    snapshot [buildFeeSnapshot] computes has no due date, the status
    PaymentPending, no fine and the monthly fee as total.  The snapshot is
    computed whenever the room fee passes the guard and no store call
    fails. *)
Theorem snapshot_before_first_payment (fail : nat -> bool) (k : nat)
  (db : DB) (sid now : Z) (a : allocation) (r : room) :
  select_allocation_room db sid = Some (a, r) ->
  (forall p, In p (Payments db) -> pay_student_id p <> sid) ->
  (fee_configured r -> fail k = false -> fail (S k) = false ->
   exists s, buildFeeSnapshot fail k now db sid = SnapOk s) /\
  (forall s, buildFeeSnapshot fail k now db sid = SnapOk s ->
     snap_monthly_fee s = monthly_fee r /\
     due_date s = None /\
     fee_status s = PaymentPending /\
     fine s = 0 /\
     days_late s = 0 /\
     (total_payable s == snap_monthly_fee s)%Q).
Proof.
  intros Hjoin Hnone.
  assert (Hlast : select_last_payment db sid = None)
    by (apply latest_date_none; exact Hnone).
  split.
  - intros Hfee Hk HSk. eexists.
    apply (buildFeeSnapshot_closed fail k now db sid a r Hk HSk Hjoin Hfee).
  - intros s Hs.
    destruct (buildFeeSnapshot_inv fail k now db sid s Hs)
      as (a' & r' & Hjoin' & _ & ->).
    rewrite Hjoin in Hjoin'. injection Hjoin' as <- <-.
    rewrite Hlast. unfold snapshot_of.
    cbn [snap_monthly_fee due_date days_late fine total_payable fee_status].
    repeat split. cbn [Z.mul inject_Z]. apply Qplus_0_r.
Qed.

Lemma snapshot_before_first_payment_witness :
  exists s,
    buildFeeSnapshot no_fault 0 (day 20040) (data ali_unpaid) 1 = SnapOk s /\
    due_date s = None /\ fee_status s = PaymentPending /\ fine s = 0 /\
    (total_payable s == 5000)%Q.
Proof.
  assert (Hnone : forall p, In p (Payments (data ali_unpaid)) ->
                            pay_student_id p <> 1) by (intros p []).
  pose proof
    (snapshot_before_first_payment no_fault 0 (data ali_unpaid) 1 (day 20040)
       {| allocation_id := 1; alloc_student_id := 1; alloc_room_id := 1;
          allocation_date := 20000 |}
       {| room_id := 1; room_number := "A1"; capacity := 2;
          current_occupancy := 1; floor_level := 0; room_type := "Standard";
          monthly_fee := 5000; wifi_available := 0 |}
       eq_refl Hnone) as [Hex Hall].
  destruct (Hex eq_refl eq_refl eq_refl) as [s Hs].
  exists s. split; [exact Hs|].
  destruct (Hall s Hs) as (Hfee & Hdue & Hst & Hfine & _ & Htot).
  repeat split; trivial.
  rewrite Htot, Hfee. reflexivity.
Defined.

(** ** Payments *)

Lemma Qltb_lt (a b : Q) : Qltb a b = true <-> (a < b)%Q.
Proof.
  unfold Qltb. rewrite negb_true_iff. split.
  - intros E. apply Qnot_le_lt. intros H.
    apply Qle_bool_iff in H. congruence.
  - intros H. destruct (Qle_bool b a) eqn:E; [|reflexivity].
    apply Qle_bool_iff in E. exfalso. exact (Qlt_not_le _ _ H E).
Qed.

Lemma two_power_pos (e : Z) : (0 < 2 ^ e)%Q.
Proof. apply Qpower_0_lt. reflexivity. Qed.

Lemma ilog2_spec (x : Q) :
  (0 < x)%Q -> (2 ^ ilog2 x <= x)%Q /\ (x < 2 ^ (ilog2 x + 1))%Q.
Proof.
  intros Hx. unfold ilog2.
  destruct x as [n d]. cbn [Qnum Qden].
  assert (Hn : 0 < n) by (unfold Qlt in Hx; cbn in Hx; lia).
  set (a := Z.log2 n). set (b := Z.log2 (Z.pos d)).
  assert (Ha : 2 ^ a <= n < 2 ^ (a + 1)).
  { unfold a. pose proof (Z.log2_spec n Hn) as H.
    rewrite <- Z.add_1_r in H. exact H. }
  assert (Hb : 2 ^ b <= Z.pos d < 2 ^ (b + 1)).
  { unfold b. pose proof (Z.log2_spec (Z.pos d) eq_refl) as H.
    rewrite <- Z.add_1_r in H. exact H. }
  assert (Ha0 : 0 <= a) by apply Z.log2_nonneg.
  assert (Hb0 : 0 <= b) by apply Z.log2_nonneg.
  assert (Hpow : forall i j, 0 <= i -> 0 <= j ->
            (2 ^ (i - j) == inject_Z (2 ^ i) / inject_Z (2 ^ j))%Q).
  { intros i j Hi Hj. rewrite Qpower_minus by discriminate.
    rewrite !Zpower_Qpower by assumption. reflexivity. }
  assert (Hfrac : forall N D, 0 < D ->
            (inject_Z N / inject_Z D == N # Z.to_pos D)%Q).
  { intros N D HD. rewrite Qmake_Qdiv. rewrite Z2Pos.id by exact HD.
    reflexivity. }
  assert (Hpa : 0 < 2 ^ a) by (apply Z.pow_pos_nonneg; lia).
  assert (Hpb : 0 < 2 ^ b) by (apply Z.pow_pos_nonneg; lia).
  assert (Hpa1 : 0 < 2 ^ (a + 1)) by (apply Z.pow_pos_nonneg; lia).
  assert (Hpb1 : 0 < 2 ^ (b + 1)) by (apply Z.pow_pos_nonneg; lia).
  assert (Hup : (n # d < 2 ^ (a - b + 1))%Q).
  { replace (a - b + 1) with (a + 1 - b) by lia.
    rewrite Hpow by lia. rewrite Hfrac by exact Hpb.
    unfold Qlt. cbn [Qnum Qden]. rewrite Z2Pos.id by exact Hpb. nia. }
  assert (Hlow : (2 ^ (a - b - 1) <= n # d)%Q).
  { replace (a - b - 1) with (a - (b + 1)) by lia.
    rewrite Hpow by lia. rewrite Hfrac by exact Hpb1.
    unfold Qle. cbn [Qnum Qden]. rewrite Z2Pos.id by exact Hpb1. nia. }
  destruct (Qle_bool (2 ^ (a - b)) (n # d)) eqn:E.
  - apply Qle_bool_iff in E. split; [exact E|exact Hup].
  - split; [exact Hlow|].
    replace (a - b - 1 + 1) with (a - b) by lia.
    apply Qnot_le_lt. intros H. apply Qle_bool_iff in H. congruence.
Qed.

Lemma ilog2_le (x y : Q) :
  (0 < x)%Q -> (x <= y)%Q -> ilog2 x <= ilog2 y.
Proof.
  intros Hx Hxy.
  assert (Hy : (0 < y)%Q) by (eapply Qlt_le_trans; eassumption).
  destruct (ilog2_spec x Hx) as [Hlow _].
  destruct (ilog2_spec y Hy) as [_ Hup].
  destruct (Z_lt_le_dec (ilog2 y) (ilog2 x)) as [Hlt|Hle]; [|exact Hle].
  exfalso.
  assert (H : (2 ^ (ilog2 y + 1) <= 2 ^ ilog2 x)%Q)
    by (apply Qpower_le_compat_l; [lia|discriminate]).
  apply (Qlt_irrefl y).
  eapply Qlt_le_trans; [exact Hup|].
  eapply Qle_trans; [exact H|].
  eapply Qle_trans; eassumption.
Qed.

Lemma nearest_even_bounds (x : Q) :
  Qfloor x <= nearest_even x <= Qfloor x + 1.
Proof.
  unfold nearest_even.
  destruct (x - inject_Z (Qfloor x) ?= 1 # 2)%Q; [|lia|lia].
  destruct (Z.even (Qfloor x)); lia.
Qed.

Lemma nearest_even_le (x y : Q) :
  (x <= y)%Q -> nearest_even x <= nearest_even y.
Proof.
  intros Hxy. pose proof (Qfloor_resp_le x y Hxy) as Hf.
  destruct (Z.eq_dec (Qfloor x) (Qfloor y)) as [E|N].
  - unfold nearest_even. rewrite E.
    assert (Hr : (x - inject_Z (Qfloor y) <= y - inject_Z (Qfloor y))%Q).
    { unfold Qminus. apply Qplus_le_compat; [exact Hxy|apply Qle_refl]. }
    destruct (x - inject_Z (Qfloor y) ?= 1 # 2)%Q eqn:Cx;
      destruct (y - inject_Z (Qfloor y) ?= 1 # 2)%Q eqn:Cy;
      try (destruct (Z.even (Qfloor y)); lia); try lia; exfalso.
    + apply Qeq_alt in Cx. apply Qlt_alt in Cy. rewrite Cx in Hr.
      exact (Qlt_not_le _ _ Cy Hr).
    + apply Qgt_alt in Cx. apply Qeq_alt in Cy. rewrite Cy in Hr.
      exact (Qlt_not_le _ _ Cx Hr).
    + apply Qgt_alt in Cx. apply Qlt_alt in Cy.
      apply (Qlt_irrefl (1 # 2)).
      eapply Qlt_le_trans; [exact Cx|].
      eapply Qle_trans; [exact Hr|]. apply Qlt_le_weak. exact Cy.
  - pose proof (nearest_even_bounds x). pose proof (nearest_even_bounds y).
    lia.
Qed.

Lemma nearest_even_whole (n : Z) : nearest_even (inject_Z n) = n.
Proof.
  unfold nearest_even. rewrite Qfloor_Z.
  assert (E : (inject_Z n - inject_Z n ?= 1 # 2)%Q = Lt).
  { apply Qlt_alt. unfold Qminus. rewrite Qplus_opp_r. reflexivity. }
  rewrite E. reflexivity.
Qed.

Lemma nearest_double_le (x y : Q) :
  (0 < x)%Q -> (x <= y)%Q -> (nearest_double x <= nearest_double y)%Q.
Proof.
  intros Hx Hxy.
  assert (Hy : (0 < y)%Q) by (eapply Qlt_le_trans; eassumption).
  pose proof (ilog2_le x y Hx Hxy) as Hl.
  unfold nearest_double.
  set (ex := Z.max (-1074) (ilog2 x - 52)).
  set (ey := Z.max (-1074) (ilog2 y - 52)).
  assert (He : ex <= ey) by (unfold ex, ey; lia).
  destruct (Z.eq_dec ex ey) as [E|N].
  - rewrite E. apply Qmult_le_compat_r; [|apply Qlt_le_weak, two_power_pos].
    rewrite <- Zle_Qle. apply nearest_even_le.
    apply Qmult_le_compat_r; [exact Hxy|].
    apply Qlt_le_weak, Qinv_lt_0_compat, two_power_pos.
  - assert (Hey : ey = ilog2 y - 52) by (unfold ex, ey in *; lia).
    assert (Hex : ilog2 x - 52 <= ex) by (unfold ex; lia).
    destruct (ilog2_spec x Hx) as [_ Hxup].
    destruct (ilog2_spec y Hy) as [Hylow _].
    apply Qle_trans with (2 ^ (ex + 53))%Q.
    + rewrite Qpower_plus by discriminate.
      rewrite (Qmult_comm (2 ^ ex)).
      apply Qmult_le_compat_r; [|apply Qlt_le_weak, two_power_pos].
      change (2 ^ 53)%Q with (inject_Z (2 ^ 53)).
      rewrite <- Zle_Qle.
      rewrite <- (nearest_even_whole (2 ^ 53)).
      apply nearest_even_le.
      apply Qle_shift_div_r; [apply two_power_pos|].
      change (inject_Z (2 ^ 53)) with (2 ^ 53)%Q.
      rewrite <- Qpower_plus by discriminate.
      apply Qlt_le_weak. eapply Qlt_le_trans; [exact Hxup|].
      apply Qpower_le_compat_l; [lia|discriminate].
    + apply Qle_trans with (2 ^ (ey + 52))%Q.
      * apply Qpower_le_compat_l; [lia|discriminate].
      * rewrite Qpower_plus by discriminate.
        rewrite (Qmult_comm (2 ^ ey)).
        apply Qmult_le_compat_r; [|apply Qlt_le_weak, two_power_pos].
        change (2 ^ 52)%Q with (inject_Z (2 ^ 52)).
        rewrite <- Zle_Qle.
        rewrite <- (nearest_even_whole (2 ^ 52)) at 1.
        apply nearest_even_le.
        apply Qle_shift_div_l; [apply two_power_pos|].
        change (inject_Z (2 ^ 52)) with (2 ^ 52)%Q.
        rewrite <- Qpower_plus by discriminate.
        replace (52 + ey) with (ilog2 y) by lia. exact Hylow.
Qed.

Lemma nearest_double_nonneg (x : Q) : (0 < x)%Q -> (0 <= nearest_double x)%Q.
Proof.
  intros Hx. unfold nearest_double.
  apply Qmult_le_0_compat; [|apply Qlt_le_weak, two_power_pos].
  change 0%Q with (inject_Z 0). rewrite <- Zle_Qle.
  rewrite <- (nearest_even_whole 0). apply nearest_even_le.
  apply Qlt_le_weak. apply Qlt_shift_div_l; [apply two_power_pos|].
  rewrite Qmult_0_l. exact Hx.
Qed.

Lemma to_double_le (x y : Q) : (x <= y)%Q -> (to_double x <= to_double y)%Q.
Proof.
  intros Hxy. unfold to_double.
  destruct (Qcompare_spec x 0) as [Cx|Cx|Cx];
    destruct (Qcompare_spec y 0) as [Cy|Cy|Cy].
  - apply Qle_refl.
  - exfalso. rewrite Cx in Hxy. exact (Qlt_not_le _ _ Cy Hxy).
  - apply nearest_double_nonneg. exact Cy.
  - apply (Qopp_le_compat 0). apply nearest_double_nonneg.
    apply (Qopp_lt_compat x 0). exact Cx.
  - apply Qopp_le_compat. apply nearest_double_le.
    + apply (Qopp_lt_compat y 0). exact Cy.
    + apply Qopp_le_compat. exact Hxy.
  - apply Qle_trans with 0%Q.
    + apply (Qopp_le_compat 0). apply nearest_double_nonneg.
      apply (Qopp_lt_compat x 0). exact Cx.
    + apply nearest_double_nonneg. exact Cy.
  - exfalso. rewrite Cy in Hxy. exact (Qlt_not_le _ _ Cx Hxy).
  - exfalso. apply (Qlt_irrefl 0).
    eapply Qlt_le_trans; [exact Cx|].
    eapply Qle_trans; [exact Hxy|]. apply Qlt_le_weak. exact Cy.
  - apply nearest_double_le; assumption.
Qed.

Lemma to_double_compat (x y : Q) : (x == y)%Q -> (to_double x == to_double y)%Q.
Proof.
  intros H. apply Qle_antisym; apply to_double_le; rewrite H; apply Qle_refl.
Qed.

Lemma nearest_even_close (y : Q) :
  (inject_Z (nearest_even y) - y <= 1 # 2)%Q /\
  (y - inject_Z (nearest_even y) <= 1 # 2)%Q.
Proof.
  pose proof (Qfloor_le y) as Hlow. pose proof (Qlt_floor y) as Hup.
  rewrite inject_Z_plus in Hup. change (inject_Z 1) with 1%Q in Hup.
  unfold nearest_even.
  destruct (Qcompare_spec (y - inject_Z (Qfloor y)) (1 # 2)) as [C|C|C].
  - destruct (Z.even (Qfloor y)).
    + split; lra.
    + rewrite inject_Z_plus. change (inject_Z 1) with 1%Q. split; lra.
  - split; lra.
  - rewrite inject_Z_plus. change (inject_Z 1) with 1%Q. split; lra.
Qed.

(** [nearest_double x] has at most 53 digits above the exponent of its last
    place and is within half a unit of that place of [x]. *)
Lemma nearest_double_close (x : Q) :
  (0 < x)%Q ->
  let e := Z.max (-1074) (ilog2 x - 52) in
  0 <= nearest_even (x / 2 ^ e) <= 2 ^ 53 /\
  (nearest_double x - x <= (1 # 2) * 2 ^ e)%Q /\
  (x - nearest_double x <= (1 # 2) * 2 ^ e)%Q.
Proof.
  intros Hx e. pose proof (two_power_pos e) as He.
  assert (Hy : (x == x / 2 ^ e * 2 ^ e)%Q).
  { field. intros H. rewrite H in He. discriminate. }
  split; [split|].
  - rewrite <- (nearest_even_whole 0). apply nearest_even_le.
    apply Qlt_le_weak. apply Qlt_shift_div_l; [exact He|].
    rewrite Qmult_0_l. exact Hx.
  - rewrite <- (nearest_even_whole (2 ^ 53)). apply nearest_even_le.
    apply Qle_shift_div_r; [exact He|].
    change (inject_Z (2 ^ 53)) with (2 ^ 53)%Q.
    rewrite <- Qpower_plus by discriminate.
    destruct (ilog2_spec x Hx) as [_ Hup].
    apply Qlt_le_weak. eapply Qlt_le_trans; [exact Hup|].
    apply Qpower_le_compat_l; [unfold e; lia|discriminate].
  - unfold nearest_double. fold e.
    destruct (nearest_even_close (x / 2 ^ e)) as [Hup Hlow].
    apply (Qmult_le_compat_r _ _ (2 ^ e)) in Hup;
      [|apply Qlt_le_weak; exact He].
    apply (Qmult_le_compat_r _ _ (2 ^ e)) in Hlow;
      [|apply Qlt_le_weak; exact He].
    split.
    + rewrite Hy at 2. lra.
    + rewrite Hy at 1. lra.
Qed.

(** Doubles that are known: 0.1, the ties at [2^53 + 1] and [2^53 + 3],
    which go to the even neighbour, the product [0.145 * 100], and half of
    the smallest double, which goes to 0. *)
Lemma to_double_on_samples :
  (to_double (1 # 10) == 3602879701896397 # 36028797018963968)%Q /\
  (to_double (inject_Z (2 ^ 53 + 1)) == inject_Z (2 ^ 53))%Q /\
  (to_double (inject_Z (2 ^ 53 + 3)) == inject_Z (2 ^ 53 + 4))%Q /\
  (to_double (to_double (145 # 1000) * 100)
   == 8162774324609023 # 562949953421312)%Q /\
  (to_double (/ 2 ^ 1075) == 0)%Q /\
  (to_double (- (1 # 10)) == - to_double (1 # 10))%Q.
Proof.
  vm_compute. repeat split.
Qed.

Lemma round2_compat (x y : Q) : (x == y)%Q -> round2 x = round2 y.
Proof.
  intros H. unfold round2, Math_round.
  assert (E : (to_double (to_double x * 100) + (1 # 2)
               == to_double (to_double y * 100) + (1 # 2))%Q).
  { apply Qplus_comp; [|reflexivity]. apply to_double_compat.
    apply Qmult_comp; [|reflexivity]. apply to_double_compat. exact H. }
  rewrite (Qfloor_comp _ _ E). reflexivity.
Qed.

Lemma round2_le (x y : Q) : (x <= y)%Q -> (round2 x <= round2 y)%Q.
Proof.
  intros H. unfold round2, Math_round.
  apply to_double_le.
  apply Qmult_le_compat_r; [|discriminate].
  rewrite <- Zle_Qle. apply Qfloor_resp_le.
  apply Qplus_le_compat; [|apply Qle_refl].
  apply to_double_le.
  apply Qmult_le_compat_r; [|discriminate].
  apply to_double_le. exact H.
Qed.

Lemma buildFeeSnapshot_error_code (fail : nat -> bool) (k : nat)
  (now : Z) (db : DB) (sid code : Z) (message : string) :
  buildFeeSnapshot fail k now db sid = SnapErr code message ->
  code = 400 \/ code = 500.
Proof.
  unfold buildFeeSnapshot.
  destruct (fail k); [intros [= <- _]; auto|].
  destruct (select_allocation_room db sid) as [[a r]|];
    [|intros [= <- _]; auto].
  destruct (Qle_bool (monthly_fee r) 0); [intros [= <- _]; auto|].
  destruct (fail (S k)); [intros [= <- _]; auto|discriminate].
Qed.

(** The one path on which [recordPayment] answers 200. *)
Lemma recordPayment_accepted (fail : nat -> bool) (now sid : Z)
  (amount : option JsNumber) (c : conn) :
  status (fst (recordPayment fail now sid amount c)) = 200 ->
  exists q st s,
    amount = Some (JNum q) /\ sid <> 0 /\
    (0 < q)%Q /\ (q <= MAX_MONTHLY_FEE)%Q /\
    fail 0%nat = false /\ fail 3%nat = false /\
    select_student (data c) sid = Some st /\
    buildFeeSnapshot fail 1 now (data c) sid = SnapOk s /\
    (round2 q == round2 (total_payable s))%Q /\
    let c1 :=
      exec (insert_payment sid (round2 (total_payable s)) (sql_date now)) c in
    recordPayment fail now sid amount c
    = (ok (JPayment [Str "Payment recorded"] (seq_payments (data c) + 1)
             (match buildFeeSnapshot fail 4 now (data c1) sid with
              | SnapOk updated => Some updated
              | SnapErr _ _ => None
              end)), c1).
Proof.
  unfold recordPayment.
  destruct amount as [[q| |positive]|]; try (cbn; discriminate);
    destruct (sid =? 0) eqn:Esid; try (cbn; discriminate).
  destruct (Qle_bool q 0) eqn:Epos; [cbn; discriminate|].
  destruct (Qltb MAX_MONTHLY_FEE q) eqn:Emax; [cbn; discriminate|].
  cbn [orb].
  destruct (fail 0%nat) eqn:F0; [cbn; discriminate|].
  destruct (select_student (data c) sid) as [st|] eqn:Est;
    [|cbn; discriminate].
  destruct (buildFeeSnapshot fail 1 now (data c) sid) as [code m|s] eqn:Esnap.
  { cbn. intros ->.
    destruct (buildFeeSnapshot_error_code _ _ _ _ _ _ _ Esnap);
      discriminate. }
  destruct (Qeq_bool (round2 q) (round2 (total_payable s))) eqn:Eeq;
    [|cbn; discriminate].
  cbn [negb].
  destruct (fail 3%nat) eqn:F3; [cbn; discriminate|].
  intros _. exists q, st, s.
  apply Z.eqb_neq in Esid. apply Qeq_bool_iff in Eeq.
  repeat split; trivial.
  - apply Qnot_le_lt. intros H. apply Qle_bool_iff in H. congruence.
  - apply Qnot_lt_le. intros H. apply Qltb_lt in H. congruence.
  - cbv zeta.
    destruct (buildFeeSnapshot fail 4 now _ sid); reflexivity.
Qed.

(** An amount whose rounding differs from the rounded total is refused with
    a 400 and nothing is written. *)
Lemma recordPayment_mismatch (fail : nat -> bool) (now sid : Z) (q : Q)
  (c : conn) (st : student) (s : snapshot) :
  sid <> 0 -> fail 0%nat = false ->
  select_student (data c) sid = Some st ->
  buildFeeSnapshot fail 1 now (data c) sid = SnapOk s ->
  ~ (round2 q == round2 (total_payable s))%Q ->
  status (fst (recordPayment fail now sid (Some (JNum q)) c)) = 400 /\
  snd (recordPayment fail now sid (Some (JNum q)) c) = c.
Proof.
  intros Hsid F0 Hst Hsnap Hneq.
  unfold recordPayment.
  apply Z.eqb_neq in Hsid. rewrite Hsid.
  destruct (Qle_bool q 0 || Qltb MAX_MONTHLY_FEE q); [split; reflexivity|].
  rewrite F0, Hst, Hsnap.
  destruct (Qeq_bool (round2 q) (round2 (total_payable s))) eqn:Eeq.
  - apply Qeq_bool_iff in Eeq. contradiction.
  - split; reflexivity.
Qed.

(** The rounding is the one of double arithmetic: a total of 0.145 is
    expected as 0.14, which is also what the amounts 0.14 and 0.145 round
    to, and not as 0.15; 1.005 rounds to 1. *)
Lemma round2_on_doubles :
  (round2 (145 # 1000) == round2 (14 # 100))%Q /\
  ~ (round2 (145 # 1000) == round2 (15 # 100))%Q /\
  (round2 (14 # 100) == to_double (14 # 100))%Q /\
  (round2 (1005 # 1000) == 1)%Q /\
  (round2 5000 == 5000)%Q.
Proof.
  vm_compute. repeat split. discriminate.
Qed.

(** C3.  For an existing resident whose snapshot is [s]: [recordPayment]
    answers 200 only for an amount whose rounding to two decimals equals
    that of [total_payable s], both rounded as the handler rounds them, in
    double arithmetic; every amount whose rounding is smaller or larger is
    refused with a 400 and the store is left as it was; in particular, with
    a total of 5000, the amounts 4000 and 5100 are refused and no payment
    is inserted. *)
Theorem payment_amount_must_match (fail : nat -> bool) (now sid : Z)
  (c : conn) (st : student) (s : snapshot) :
  sid <> 0 -> fail 0%nat = false ->
  select_student (data c) sid = Some st ->
  buildFeeSnapshot fail 1 now (data c) sid = SnapOk s ->
  (forall amount,
     status (fst (recordPayment fail now sid amount c)) = 200 ->
     exists q, amount = Some (JNum q) /\
               (round2 q == round2 (total_payable s))%Q) /\
  (forall q,
     ~ (round2 q == round2 (total_payable s))%Q ->
     status (fst (recordPayment fail now sid (Some (JNum q)) c)) = 400 /\
     snd (recordPayment fail now sid (Some (JNum q)) c) = c) /\
  ((total_payable s == 5000)%Q ->
   forall q, q = 4000%Q \/ q = 5100%Q ->
     status (fst (recordPayment fail now sid (Some (JNum q)) c)) = 400 /\
     snd (recordPayment fail now sid (Some (JNum q)) c) = c /\
     Payments (data (snd (recordPayment fail now sid (Some (JNum q)) c)))
     = Payments (data c)).
Proof.
  intros Hsid F0 Hst Hsnap. split; [|split].
  - intros amount H200.
    destruct (recordPayment_accepted fail now sid amount c H200)
      as (q & st' & s' & -> & _ & _ & _ & _ & _ & _ & Hs' & Heq & _).
    rewrite Hsnap in Hs'. injection Hs' as <-.
    exists q. split; [reflexivity|exact Heq].
  - intros q Hneq.
    exact (recordPayment_mismatch fail now sid q c st s Hsid F0 Hst Hsnap Hneq).
  - intros Htotal q Hq.
    assert (Hneq : ~ (round2 q == round2 (total_payable s))%Q).
    { rewrite (round2_compat _ _ Htotal).
      destruct Hq as [-> | ->]; intros H; vm_compute in H; discriminate. }
    destruct (recordPayment_mismatch fail now sid q c st s
                Hsid F0 Hst Hsnap Hneq) as [H400 Hsame].
    repeat split; trivial. rewrite Hsame. reflexivity.
Qed.

Lemma payment_amount_must_match_witness :
  status (fst (recordPayment no_fault (day 20001) 1
                 (Some (JNum 4000)) ali_unpaid)) = 400 /\
  snd (recordPayment no_fault (day 20001) 1 (Some (JNum 4000)) ali_unpaid)
  = ali_unpaid /\
  status (fst (recordPayment no_fault (day 20001) 1
                 (Some (JNum 5100)) ali_unpaid)) = 400 /\
  status (fst (recordPayment no_fault (day 20001) 1
                 (Some (JNum 5000)) ali_unpaid)) = 200 /\
  status (fst (recordPayment no_fault (day 20001) 1
                 (Some (JNum (15 # 100))) ali_cheap)) = 400 /\
  status (fst (recordPayment no_fault (day 20001) 1
                 (Some (JNum (14 # 100))) ali_cheap)) = 200.
Proof.
  assert (Hcheap :
            status (fst (recordPayment no_fault (day 20001) 1
                           (Some (JNum (15 # 100))) ali_cheap)) = 400).
  { assert (Hst : select_student (data ali_cheap) 1
                  = Some {| student_id := 1; name := "Ali";
                            cnic := "35202-1234567-1";
                            department := "Physics";
                            phone := "03001234567";
                            address := "Mall Road Lahore" |})
      by (vm_compute; reflexivity).
    assert (Hone : 1 <> 0) by discriminate.
    eassert (Hs : buildFeeSnapshot no_fault 1 (day 20001) (data ali_cheap) 1
                  = SnapOk _) by (vm_compute; reflexivity).
    pose proof
      (payment_amount_must_match no_fault (day 20001) 1 ali_cheap _ _
         Hone eq_refl Hst Hs) as (_ & Hother & _).
    apply Hother. intros H. vm_compute in H. discriminate. }
  assert (Hst : select_student (data ali_unpaid) 1
                = Some {| student_id := 1; name := "Ali";
                          cnic := "35202-1234567-1"; department := "Physics";
                          phone := "03001234567";
                          address := "Mall Road Lahore" |}) by reflexivity.
  assert (Hone : 1 <> 0) by discriminate.
  pose proof
    (payment_amount_must_match no_fault (day 20001) 1 ali_unpaid _ _
       Hone eq_refl Hst eq_refl) as (_ & _ & Hpart).
  assert (Htotal : (5000 + inject_Z (0 * 100) == 5000)%Q) by reflexivity.
  destruct (Hpart Htotal 4000%Q (or_introl eq_refl)) as (H4 & Hsame & _).
  destruct (Hpart Htotal 5100%Q (or_intror eq_refl)) as (H5 & _ & _).
  split; [exact H4|]. split; [exact Hsame|]. split; [exact H5|].
  split; [vm_compute; reflexivity|].
  split; [exact Hcheap|vm_compute; reflexivity].
Defined.

Lemma round2_MAX : (round2 MAX_MONTHLY_FEE == MAX_MONTHLY_FEE)%Q.
Proof. vm_compute. reflexivity. Qed.

(** C10, as amended.  [recordPayment] answers "Invalid payment amount", a
    400, for every amount that is not finite, is at most 0 or exceeds
    500000, whatever the store holds and without touching it; hence, when
    the total of the resident's snapshot rounded to two decimals exceeds
    500000, no amount is accepted. *)
Theorem payment_amount_range (fail : nat -> bool) (now sid : Z) (c : conn) :
  (forall x, sid <> 0 -> out_of_range x ->
     recordPayment fail now sid (Some x) c = (invalid_amount, c)) /\
  (forall s,
     buildFeeSnapshot fail 1 now (data c) sid = SnapOk s ->
     (MAX_MONTHLY_FEE < round2 (total_payable s))%Q ->
     forall amount,
       status (fst (recordPayment fail now sid amount c)) <> 200).
Proof.
  split.
  - intros x Hsid Hx. unfold recordPayment.
    apply Z.eqb_neq in Hsid. rewrite Hsid.
    destruct x as [q| |positive]; try reflexivity.
    destruct Hx as [Hx|[Hx|Hx]]; cbn in Hx.
    + discriminate.
    + rewrite Hx. reflexivity.
    + rewrite Hx, orb_true_r. reflexivity.
  - intros s Hsnap Hbig amount H200.
    destruct (recordPayment_accepted fail now sid amount c H200)
      as (q & st & s' & _ & _ & _ & Hmax & _ & _ & _ & Hs' & Heq & _).
    rewrite Hsnap in Hs'. injection Hs' as <-.
    apply round2_le in Hmax. rewrite round2_MAX, Heq in Hmax.
    exact (Qlt_not_le _ _ Hbig Hmax).
Qed.

Lemma payment_amount_range_witness :
  recordPayment no_fault (day 20031) 1 (Some (JNum 500050)) ali_dear
  = (invalid_amount, ali_dear) /\
  status (fst (recordPayment no_fault (day 20031) 1 (Some (JNum 500000))
                 ali_dear)) <> 200.
Proof.
  assert (H1 : 1 <> 0) by discriminate.
  destruct (payment_amount_range no_fault (day 20031) 1 ali_dear)
    as [Hrange Hcap].
  split.
  - apply Hrange; [exact H1|]. right. right. reflexivity.
  - eassert (Hs : buildFeeSnapshot no_fault 1 (day 20031) (data ali_dear) 1
                  = SnapOk _) by (vm_compute; reflexivity).
    refine (Hcap _ Hs _ _). vm_compute. reflexivity.
Defined.

(** C10 as stated fails between 500000 and 500000.005: a month at
    499900.001 and one day late make a total of 500000.001, above 500000,
    and the amount 500000 is accepted. *)
Lemma total_above_cap_accepted :
  match buildFeeSnapshot no_fault 1 (day 20031) (data ali_costly) 1 with
  | SnapOk s =>
      (MAX_MONTHLY_FEE < total_payable s)%Q /\
      (total_payable s == 500000001 # 1000)%Q
  | SnapErr _ _ => False
  end /\
  status (fst (recordPayment no_fault (day 20031) 1 (Some (JNum 500000))
                 ali_costly)) = 200.
Proof. vm_compute. split; [split|]; reflexivity. Qed.

Lemma latest_date_app (rows : list payment) (p : payment) (sid : Z) :
  pay_student_id p = sid ->
  latest_date (rows ++ [p]) sid
  = Some (match latest_date rows sid with
          | Some m => Z.max m (pay_date p)
          | None => pay_date p
          end).
Proof.
  intros Hp. induction rows as [|x rows IH]; simpl.
  - rewrite (proj2 (Z.eqb_eq _ _) Hp). reflexivity.
  - rewrite IH. destruct (pay_student_id x =? sid).
    + destruct (latest_date rows sid); f_equal; lia.
    + reflexivity.
Qed.

Lemma select_allocation_room_ext (db db' : DB) (sid : Z) :
  Rooms db = Rooms db' -> Allocations db = Allocations db' ->
  select_allocation_room db sid = select_allocation_room db' sid.
Proof.
  intros Hr Ha. unfold select_allocation_room, select_allocations.
  rewrite Ha.
  induction (filter (fun a => alloc_student_id a =? sid) (Allocations db'))
    as [|a rows IH]; simpl; [reflexivity|].
  unfold select_room. rewrite Hr, IH. reflexivity.
Qed.

(** C8.  When [recordPayment] answers 200, the store differs from the one
    before the call by one row appended to Payments, for this resident,
    dated today and of the rounded total; students, rooms, allocations and
    the earlier payment rows are as they were.  If no earlier payment of the
    resident is dated after today and the store calls of the refresh do not
    fail, the answer carries the recomputed snapshot, whose status is Paid
    and whose due date is today plus 30 days. *)
Theorem payment_recorded (fail : nat -> bool) (now sid : Z)
  (amount : option JsNumber) (c : conn) :
  status (fst (recordPayment fail now sid amount c)) = 200 ->
  exists q s,
    amount = Some (JNum q) /\
    buildFeeSnapshot fail 1 now (data c) sid = SnapOk s /\
    (round2 q == round2 (total_payable s))%Q /\
    let out := recordPayment fail now sid amount c in
    Students (data (snd out)) = Students (data c) /\
    Rooms (data (snd out)) = Rooms (data c) /\
    Allocations (data (snd out)) = Allocations (data c) /\
    Payments (data (snd out))
    = Payments (data c) ++
      [{| payment_id := seq_payments (data c) + 1; pay_student_id := sid;
          amount := round2 (total_payable s); pay_date := sql_date now |}] /\
    saved (snd out) = saved c /\
    ((forall d, select_last_payment (data c) sid = Some d ->
                d <= sql_date now) ->
     fail 4%nat = false -> fail 5%nat = false ->
     exists updated,
       body (fst out)
       = JPayment [Str "Payment recorded"] (seq_payments (data c) + 1)
           (Some updated) /\
       last_payment_date updated = Some (sql_date now) /\
       fee_status updated = Paid /\
       due_date updated = Some (sql_date now + 30)).
Proof.
  intros H200.
  destruct (recordPayment_accepted fail now sid amount c H200)
    as (q & st & s & Hamount & _ & _ & _ & _ & _ & _ & Hsnap & Heq & Hout).
  exists q, s. repeat (split; [assumption|]).
  cbv zeta in Hout |- *. rewrite Hout. cbn [fst snd].
  repeat (split; [reflexivity|]).
  intros Hpast F4 F5.
  destruct (buildFeeSnapshot_inv fail 1 now (data c) sid s Hsnap)
    as (a & r & Hjoin & Hfee & _).
  set (c1 := exec (insert_payment sid (round2 (total_payable s))
                     (sql_date now)) c).
  assert (Hjoin1 : select_allocation_room (data c1) sid = Some (a, r)).
  { rewrite <- Hjoin. apply select_allocation_room_ext; reflexivity. }
  rewrite (buildFeeSnapshot_closed fail 4 now (data c1) sid a r
             F4 F5 Hjoin1 Hfee).
  assert (Hlast : select_last_payment (data c1) sid = Some (sql_date now)).
  { unfold select_last_payment, c1. cbn [data exec insert_payment Payments].
    rewrite latest_date_app by reflexivity. cbn [pay_date].
    fold (select_last_payment (data c) sid).
    destruct (select_last_payment (data c) sid) as [m|] eqn:E;
      [|reflexivity].
    specialize (Hpast m eq_refl). f_equal. lia. }
  rewrite Hlast.
  eexists. split; [reflexivity|].
  unfold snapshot_of.
  cbn [last_payment_date fee_status due_date].
  replace (sql_date now - (sql_date now + 30)) with (-30) by lia.
  repeat split.
Qed.

Lemma payment_recorded_witness :
  let out := recordPayment no_fault (day 20031) 1 (Some (JNum 5100))
               ali_paid in
  Payments (data (snd out))
  = Payments (data ali_paid) ++
    [{| payment_id := 2; pay_student_id := 1; amount := round2 5100;
        pay_date := 20031 |}] /\
  exists updated,
    body (fst out) = JPayment [Str "Payment recorded"] 2 (Some updated) /\
    fee_status updated = Paid /\ due_date updated = Some 20061.
Proof.
  destruct (payment_recorded no_fault (day 20031) 1 (Some (JNum 5100))
              ali_paid eq_refl)
    as (q & s & _ & Hs & _ & _ & _ & _ & Hpay & _ & Hnew).
  vm_compute in Hs. injection Hs as <-. split; [exact Hpay|].
  assert (Hpast : forall d, select_last_payment (data ali_paid) 1 = Some d ->
                            d <= sql_date (day 20031)).
  { intros d Hd. vm_compute in Hd. injection Hd as <-.
    vm_compute. discriminate. }
  destruct (Hnew Hpast eq_refl eq_refl) as (updated & Hb & _ & Hst & Hdue).
  exists updated. repeat split; assumption.
Defined.

(** The premise on earlier payments holds as long as the clock does not run
    backwards: a payment is dated with the day it is recorded on. *)
Lemma release_beds_payments (roomIds : list Z) :
  forall db, Payments (release_beds roomIds db) = Payments db.
Proof.
  induction roomIds as [|roomId rest IH]; intros db; simpl;
    [reflexivity|].
  rewrite IH. reflexivity.
Qed.

Lemma latest_date_bound (t sid : Z) (rows : list payment) :
  Forall (fun p => pay_date p <= t) rows ->
  forall d, latest_date rows sid = Some d -> d <= t.
Proof.
  induction 1 as [|p rows Hp Hrows IH]; simpl; intros d; [discriminate|].
  destruct (pay_student_id p =? sid); [|apply IH].
  destruct (latest_date rows sid) as [m|].
  - intros [= <-]. specialize (IH m eq_refl). lia.
  - intros [= <-]. exact Hp.
Qed.


(** ** Allocation and transfer *)

(** C9, as amended.  [allocate], when its look-ups do not fail: an unknown
    student is answered 404; a student who already has an allocation is
    answered 400 ("Student is already allocated to a room"), not 409; an
    unknown room is answered 404; a full room is answered 400 ("Room is
    full").  In each case the store, and with it the occupancy of the room,
    is left as it was. *)
Theorem allocate_errors (fail : nat -> bool) (now sid rid : Z) (c : conn) :
  sid <> 0 -> rid <> 0 ->
  fail 0%nat = false -> fail 1%nat = false -> fail 2%nat = false ->
  let out := allocate fail now sid rid c in
  (select_student (data c) sid = None ->
   fst out = reply 404 "Student does not exist" /\ snd out = c) /\
  (forall st a,
     select_student (data c) sid = Some st ->
     select_allocation (data c) sid = Some a ->
     fst out = reply 400 "Student is already allocated to a room" /\
     snd out = c) /\
  (forall st,
     select_student (data c) sid = Some st ->
     select_allocation (data c) sid = None ->
     select_room (data c) rid = None ->
     status (fst out) = 404 /\ snd out = c) /\
  (forall st r,
     select_student (data c) sid = Some st ->
     select_allocation (data c) sid = None ->
     select_room (data c) rid = Some r ->
     (capacity r <= inject_Z (current_occupancy r))%Q ->
     fst out = reply 400 "Room is full" /\ snd out = c /\
     select_room (data (snd out)) rid = Some r).
Proof.
  intros Hsid Hrid F0 F1 F2 out. subst out. unfold allocate.
  apply Z.eqb_neq in Hsid. apply Z.eqb_neq in Hrid.
  rewrite Hsid, Hrid, F0. cbn [orb].
  split; [|split; [|split]].
  - intros Hst. rewrite Hst. split; reflexivity.
  - intros st a Hst Ha. rewrite Hst, F1, Ha. split; reflexivity.
  - intros st Hst Ha Hr. rewrite Hst, F1, Ha, F2, Hr. split; reflexivity.
  - intros st r Hst Ha Hr Hfull. rewrite Hst, F1, Ha, F2, Hr.
    apply Qle_bool_iff in Hfull. rewrite Hfull.
    repeat split. exact Hr.
Qed.

Lemma allocate_errors_witness :
  fst (allocate no_fault (day 20001) 1 2 two_rooms)
  = reply 400 "Student is already allocated to a room" /\
  snd (allocate no_fault (day 20001) 1 2 two_rooms) = two_rooms.
Proof.
  assert (H1 : 1 <> 0) by discriminate.
  assert (H2 : 2 <> 0) by discriminate.
  pose proof (allocate_errors no_fault (day 20001) 1 2 two_rooms
                H1 H2 eq_refl eq_refl eq_refl) as (_ & Hbusy & _).
  exact (Hbusy _ _ eq_refl eq_refl).
Defined.

(** C9 as stated fails for the resident who already has an allocation: the
    answer is a 400, not a 409. *)
Lemma already_allocated_is_not_409 :
  select_student (data two_rooms) 1 <> None /\
  select_allocation (data two_rooms) 1 <> None /\
  status (fst (allocate no_fault (day 20001) 1 2 two_rooms)) = 400 /\
  status (fst (allocate no_fault (day 20001) 1 2 two_rooms)) <> 409.
Proof. repeat split; discriminate. Qed.

Lemma rollback_restores (c c1 : conn) :
  saved c = None -> saved c1 = Some (data c) -> sql_rollback c1 = c.
Proof.
  intros Hc Hc1. unfold sql_rollback. rewrite Hc1.
  destruct c as [d s]. cbn in *. subst s. reflexivity.
Qed.

Lemma sql_begin_saved (c : conn) :
  saved c = None -> saved (sql_begin c) = Some (data c).
Proof. intros H. unfold sql_begin. rewrite H. reflexivity. Qed.

(** Every path of [transfer] that does not end in its COMMIT ends in a
    ROLLBACK, or is left before the BEGIN. *)
Lemma transfer_failure_restores (fail : nat -> bool) (now sid rid : Z)
  (c : conn) :
  saved c = None ->
  status (fst (transfer fail now sid rid c)) <> 200 ->
  snd (transfer fail now sid rid c) = c.
Proof.
  intros Hc. unfold transfer.
  destruct ((sid =? 0) || (rid =? 0)); [reflexivity|].
  pose proof (sql_begin_saved c Hc) as Hb.
  assert (Hd : data (sql_begin c) = data c)
    by (unfold sql_begin; rewrite Hc; reflexivity).
  set (c0 := sql_begin c) in *.
  assert (R : forall f, sql_rollback (exec f c0) = c)
    by (intros f; apply rollback_restores; assumption).
  assert (R0 : sql_rollback c0 = c) by (apply rollback_restores; assumption).
  unfold rollback.
  repeat
    match goal with
    | |- context [if ?b then _ else _] => destruct b
    | |- context [match ?o with Some _ => _ | None => _ end] => destruct o
    end;
    cbn [fst snd]; try (intros _; first [exact R0 | apply rollback_restores;
                                         [exact Hc|exact Hb]]).
  intros H. exfalso. apply H. reflexivity.
Qed.

(** C4.  [transfer] is all or nothing: started outside a transaction,
    whenever it does not answer 200, whatever the reason (a missing
    argument, an unknown student or room, no allocation, the same room, a
    full room, a store error at any call, the COMMIT included), the
    connection is left exactly as it was before the call: the rows of every
    table, and so every occupancy and the resident's allocation with its
    room and date, are unchanged. *)
Theorem transfer_all_or_nothing (fail : nat -> bool) (now sid rid : Z)
  (c : conn) :
  saved c = None ->
  status (fst (transfer fail now sid rid c)) <> 200 ->
  snd (transfer fail now sid rid c) = c /\
  Rooms (data (snd (transfer fail now sid rid c))) = Rooms (data c) /\
  Allocations (data (snd (transfer fail now sid rid c)))
  = Allocations (data c).
Proof.
  intros Hc Hfail.
  rewrite (transfer_failure_restores fail now sid rid c Hc Hfail).
  repeat split.
Qed.

Lemma transfer_all_or_nothing_witness :
  status (fst (transfer (fails_at 5) (day 20010) 1 2 two_rooms)) = 500 /\
  snd (transfer (fails_at 5) (day 20010) 1 2 two_rooms) = two_rooms.
Proof.
  split; [reflexivity|].
  apply (transfer_all_or_nothing (fails_at 5) (day 20010) 1 2 two_rooms).
  - reflexivity.
  - discriminate.
Defined.

(** The same transfer without the store error: the bed in A1 is released,
    the bed in B2 is taken and the allocation row is rewritten in place. *)
Lemma transfer_example :
  let before := data two_rooms in
  let after := data (snd (transfer no_fault (day 20010) 1 2 two_rooms)) in
  map current_occupancy (Rooms before) = [1; 0] /\
  map current_occupancy (Rooms after) = [0; 1] /\
  Allocations before
  = [{| allocation_id := 1; alloc_student_id := 1; alloc_room_id := 1;
        allocation_date := 20000 |}] /\
  Allocations after
  = [{| allocation_id := 1; alloc_student_id := 1; alloc_room_id := 2;
        allocation_date := 20010 |}].
Proof. repeat split. Qed.

(** ** What a request does to the store *)

Lemma settled_same (now : Z) (c : conn) : saved c = None -> settled now c c.
Proof. intros H. split; [exact H|constructor]. Qed.

Lemma Qle_bool_false (a b : Q) : Qle_bool a b = false -> (b < a)%Q.
Proof.
  intros E. apply Qnot_le_lt. intros H. apply Qle_bool_iff in H. congruence.
Qed.

Lemma Qltb_false (a b : Q) : Qltb a b = false -> (b <= a)%Q.
Proof.
  intros E. apply Qnot_lt_le. intros H. apply Qltb_lt in H. congruence.
Qed.

Lemma validateRoomPayload_capacity (body : room_body) (requireAll : bool)
  (cap : Q) :
  c_capacity (snd (validateRoomPayload body requireAll)) = Some cap ->
  valid_capacity cap.
Proof.
  unfold validateRoomPayload. cbn [snd c_capacity].
  destruct (b_capacity body) as [[q| |p]|]; try discriminate.
  cbn [is_finite js_le js_gt negb orb].
  destruct (Qle_bool q 0) eqn:E0; [discriminate|].
  destruct (Qltb MAX_ROOM_CAPACITY q) eqn:E1; [discriminate|].
  cbn. intros [= <-]. split.
  - apply Qle_bool_false. exact E0.
  - apply Qltb_false. exact E1.
Qed.

(** With [requireAll], a payload without errors has a number, a capacity
    and a fee: the last case of [rooms_add] is never taken. *)
Lemma validateRoomPayload_complete (body : room_body) :
  fst (validateRoomPayload body true) = [] ->
  exists number cap fee,
    c_room_number (snd (validateRoomPayload body true)) = Some number /\
    c_capacity (snd (validateRoomPayload body true)) = Some cap /\
    c_monthly_fee (snd (validateRoomPayload body true)) = Some fee.
Proof.
  unfold validateRoomPayload.
  cbn [fst snd c_room_number c_capacity c_monthly_fee].
  intros H.
  apply app_eq_nil in H. destruct H as [Hnumber H].
  apply app_eq_nil in H. destruct H as [Hcap H].
  apply app_eq_nil in H. destruct H as [Hfee _].
  destruct (b_room_number body) as [[s n]|]; [|discriminate].
  destruct (b_capacity body) as [[q| |p]|]; try discriminate.
  destruct (b_monthly_fee body) as [[q'| |p']|]; try discriminate.
  destruct (negb (negb (is_finite (JNum q)) || js_le (JNum q) 0
                  || js_gt (JNum q) MAX_ROOM_CAPACITY)); [|discriminate].
  destruct (negb (negb (is_finite (JNum q')) || js_lt (JNum q') 0
                  || js_gt (JNum q') MAX_MONTHLY_FEE)); [|discriminate].
  do 3 eexists. repeat split.
Qed.

Lemma add_student_settled (fail : nat -> bool) (now : Z)
  (body : student_body) (c : conn) :
  saved c = None -> settled now c (snd (add_student fail body c)).
Proof.
  intros Hc. unfold add_student. split_cases; cbn [snd];
    try (apply settled_same; exact Hc).
  split; [exact Hc|constructor].
Qed.

Lemma students_update_settled (fail : nat -> bool) (now sid : Z)
  (body : student_body) (c : conn) :
  saved c = None -> settled now c (snd (students_update fail sid body c)).
Proof.
  intros Hc. unfold students_update. split_cases; cbn [snd];
    try (apply settled_same; exact Hc).
  split; [exact Hc|constructor].
Qed.

Lemma allocate_settled (fail : nat -> bool) (now sid rid : Z) (c : conn) :
  saved c = None -> settled now c (snd (allocate fail now sid rid c)).
Proof.
  intros Hc. unfold allocate. split_cases; cbn [snd];
    try (apply settled_same; exact Hc).
  - split; [exact Hc|]. apply eff_allocate_row. assumption.
  - split; [exact Hc|].
    eapply eff_allocate; try eassumption.
    apply Qle_bool_false. assumption.
Qed.

Lemma recordPayment_settled (fail : nat -> bool) (now sid : Z)
  (amount : option JsNumber) (c : conn) :
  saved c = None -> settled now c (snd (recordPayment fail now sid amount c)).
Proof.
  intros Hc. unfold recordPayment.
  destruct amount as [[q| |p]|]; split_cases; cbn [snd];
    try (apply settled_same; exact Hc);
    (split; [exact Hc|constructor]).
Qed.

Lemma rooms_add_settled (fail : nat -> bool) (now : Z) (body : room_body)
  (c : conn) :
  saved c = None -> settled now c (snd (rooms_add fail body c)).
Proof.
  intros Hc. unfold rooms_add.
  pose proof (validateRoomPayload_capacity body true) as Hcap.
  destruct (validateRoomPayload body true) as [errors clean].
  cbn [snd] in Hcap.
  split_cases; cbn [snd]; try (apply settled_same; exact Hc);
    (split; [exact Hc|]; constructor; apply Hcap; reflexivity).
Qed.

Lemma rooms_update_settled (fail : nat -> bool) (now rid : Z)
  (body : room_body) (c : conn) :
  saved c = None -> settled now c (snd (rooms_update fail rid body c)).
Proof.
  intros Hc. unfold rooms_update.
  pose proof (validateRoomPayload_capacity body false) as Hcap.
  destruct (validateRoomPayload body false) as [errors clean].
  cbn [snd] in Hcap.
  destruct (rid =? 0); [apply settled_same; exact Hc|].
  destruct errors; [|apply settled_same; exact Hc].
  destruct (no_keys clean); [apply settled_same; exact Hc|].
  destruct (fail 0%nat); [apply settled_same; exact Hc|].
  destruct (select_room (data c) rid) as [r|] eqn:Er;
    [|apply settled_same; exact Hc].
  assert (Hup : forall guard : bool,
             guard = match c_capacity clean with
                     | Some cap => Qltb cap (inject_Z (current_occupancy r))
                     | None => false
                     end ->
             guard = false ->
             settled now c (exec (update_room rid clean) c)).
  { intros guard Hg Hfalse. split; [exact Hc|].
    apply (eff_update_room now (data c) rid clean r Er).
    intros cap Hsome. split; [apply Hcap; exact Hsome|].
    rewrite Hsome in Hg. subst guard. apply Qltb_false. exact Hfalse. }
  destruct (match c_capacity clean with
            | Some cap => Qltb cap (inject_Z (current_occupancy r))
            | None => false
            end) eqn:Eg; [apply settled_same; exact Hc|].
  specialize (Hup false eq_refl eq_refl).
  destruct (c_room_number clean); split_cases; cbn [snd];
    try (apply settled_same; exact Hc); exact Hup.
Qed.

Lemma rooms_delete_settled (fail : nat -> bool) (now rid : Z) (c : conn) :
  saved c = None -> settled now c (snd (rooms_delete fail rid c)).
Proof.
  intros Hc. unfold rooms_delete. split_cases; cbn [snd];
    try (apply settled_same; exact Hc).
  split; [exact Hc|].
  eapply eff_delete_room; [eassumption|].
  apply Z.ltb_ge. assumption.
Qed.

(** The two outcomes of [transfer]. *)
Lemma transfer_outcome (fail : nat -> bool) (now sid rid : Z) (c : conn) :
  saved c = None ->
  let out := transfer fail now sid rid c in
  (status (fst out) <> 200 /\ snd out = c) \/
  (exists a r,
     select_allocation (data c) sid = Some a /\
     select_room (data c) rid = Some r /\
     alloc_room_id a <> rid /\
     (inject_Z (current_occupancy r) < capacity r)%Q /\
     fst out
     = ok (JTransfer [Str "Room transfer successful"] (alloc_room_id a) rid)
     /\
     saved (snd out) = None /\
     data (snd out)
     = increment_occupancy rid
         (decrement_occupancy_floor (alloc_room_id a)
            (update_allocation rid (sql_date now) (allocation_id a)
               (data c)))).
Proof.
  intros Hc out.
  destruct (Z.eq_dec (status (fst out)) 200) as [H200|Hnot].
  - right. subst out. revert H200. unfold transfer.
    assert (Hd : data (sql_begin c) = data c)
      by (unfold sql_begin; rewrite Hc; reflexivity).
    rewrite !Hd. unfold rollback.
    split_cases; cbn [fst snd status]; try discriminate.
    intros _. do 2 eexists.
    repeat (split; [try reflexivity|]).
    + apply Z.eqb_neq. assumption.
    + apply Qle_bool_false. assumption.
    + cbn [data sql_commit exec]. rewrite Hd. reflexivity.
  - left. split; [exact Hnot|].
    apply (transfer_failure_restores fail now sid rid c Hc Hnot).
Qed.

Lemma transfer_settled (fail : nat -> bool) (now sid rid : Z) (c : conn) :
  saved c = None -> settled now c (snd (transfer fail now sid rid c)).
Proof.
  intros Hc.
  destruct (transfer_outcome fail now sid rid c Hc)
    as [[_ Hsame]|(a & r & Ha & Hr & Hne & Hfree & _ & Hs & Hd)].
  - rewrite Hsame. apply settled_same. exact Hc.
  - split; [exact Hs|]. rewrite Hd.
    exact (eff_transfer now (data c) sid rid a r Ha Hr Hne Hfree).
Qed.

Lemma updateRooms_saved (fail : nat -> bool) (roomIds : list Z) :
  forall (k : nat) (c : conn),
    saved (snd (updateRooms fail k roomIds c)) = saved c.
Proof.
  induction roomIds as [|roomId rest IH]; intros k c; simpl; [reflexivity|].
  destruct (fail k); [reflexivity|]. rewrite IH. reflexivity.
Qed.

Lemma updateRooms_done (fail : nat -> bool) (roomIds : list Z) :
  forall (k : nat) (c c1 : conn),
    updateRooms fail k roomIds c = (true, c1) ->
    c1 = exec (release_beds roomIds) c.
Proof.
  induction roomIds as [|roomId rest IH]; intros k c c1; simpl.
  - intros [= <-]. destruct c. reflexivity.
  - destruct (fail k); [discriminate|].
    intros H. apply IH in H. rewrite H. reflexivity.
Qed.

(** The two outcomes of [students_delete]. *)
Lemma students_delete_outcome (fail : nat -> bool) (sid : Z) (c : conn) :
  saved c = None ->
  let out := students_delete fail sid c in
  (status (fst out) <> 200 /\ snd out = c) \/
  (status (fst out) = 200 /\ saved (snd out) = None /\
   data (snd out)
   = delete_student_row sid
       (delete_payments sid
          (delete_allocations sid
             (release_beds
                (map alloc_room_id (select_allocations (data c) sid))
                (data c))))).
Proof.
  intros Hc out. subst out. unfold students_delete.
  destruct (sid =? 0); [left; split; [discriminate|reflexivity]|].
  pose proof (sql_begin_saved c Hc) as Hb.
  assert (Hd : data (sql_begin c) = data c)
    by (unfold sql_begin; rewrite Hc; reflexivity).
  set (c0 := sql_begin c) in *.
  assert (R0 : sql_rollback c0 = c) by (apply rollback_restores; assumption).
  assert (R : forall f, sql_rollback (exec f c0) = c).
  { intros f. apply rollback_restores; assumption. }
  assert (R2 : forall f g, sql_rollback (exec g (exec f c0)) = c).
  { intros f g. apply rollback_restores; assumption. }
  assert (R3 : forall f g h, sql_rollback (exec h (exec g (exec f c0))) = c).
  { intros f g h. apply rollback_restores; assumption. }
  unfold rollback.
  destruct (fail 0%nat);
    [left; cbn [fst snd status]; split; [discriminate|exact R0]|].
  destruct (select_student (data c0) sid);
    [|left; cbn [fst snd status]; split; [discriminate|exact R0]].
  destruct (fail 1%nat);
    [left; cbn [fst snd status]; split; [discriminate|exact R0]|].
  pose proof (updateRooms_saved fail
                (map alloc_room_id (select_allocations (data c0) sid)) 2 c0)
    as Hsaved.
  destruct (updateRooms fail 2
              (map alloc_room_id (select_allocations (data c0) sid)) c0)
    as [[|] c1] eqn:Eup;
    [|left; cbn [fst snd status]; split; [discriminate|];
      apply rollback_restores; [exact Hc|];
      cbn [snd] in Hsaved; rewrite Hsaved; exact Hb].
  apply updateRooms_done in Eup. subst c1. clear Hsaved.
  unfold deleteDependentRows, rollback.
  split_cases; cbn [fst snd status]; rewrite ?R, ?R2, ?R3;
    try (left; split; [discriminate|reflexivity]).
  right. repeat split.
  cbn [data sql_commit exec]. rewrite Hd. reflexivity.
Qed.

Lemma students_delete_settled (fail : nat -> bool) (now sid : Z) (c : conn) :
  saved c = None -> settled now c (snd (students_delete fail sid c)).
Proof.
  intros Hc.
  destruct (students_delete_outcome fail sid c Hc)
    as [[_ Hsame]|(_ & Hs & Hd)].
  - rewrite Hsame. apply settled_same. exact Hc.
  - split; [exact Hs|]. rewrite Hd. constructor.
Qed.

Lemma handle_settled (fail : nat -> bool) (now : Z) (req : request)
  (c : conn) :
  saved c = None -> settled now c (snd (handle fail now req c)).
Proof.
  intros Hc. destruct req; cbn [handle].
  - apply add_student_settled; exact Hc.
  - apply students_update_settled; exact Hc.
  - apply students_delete_settled; exact Hc.
  - apply allocate_settled; exact Hc.
  - apply transfer_settled; exact Hc.
  - apply recordPayment_settled; exact Hc.
  - apply rooms_add_settled; exact Hc.
  - apply rooms_update_settled; exact Hc.
  - apply rooms_delete_settled; exact Hc.
Qed.

(** Between two requests no transaction is open. *)
Lemma reachable_settled (c : conn) : reachable c -> saved c = None.
Proof.
  induction 1 as [|fail now req c Hr IH]; [reflexivity|].
  apply (handle_settled fail now req c IH).
Qed.

(** An invariant of the net effects holds in every reachable state. *)
Lemma reachable_invariant (P : DB -> Prop) :
  P empty_db ->
  (forall now db db', effect now db db' -> P db -> P db') ->
  forall c, reachable c -> P (data c).
Proof.
  intros H0 Hstep c Hr.
  induction Hr as [|fail now req c Hr IH]; [exact H0|].
  destruct (handle_settled fail now req c (reachable_settled c Hr))
    as [_ Heff].
  exact (Hstep now _ _ Heff IH).
Qed.

(** ** At most one allocation per resident *)

Lemma release_beds_allocations (roomIds : list Z) :
  forall db, Allocations (release_beds roomIds db) = Allocations db.
Proof.
  induction roomIds as [|roomId rest IH]; intros db; simpl;
    [reflexivity|].
  rewrite IH. reflexivity.
Qed.

Lemma select_allocation_none (db : DB) (sid : Z) :
  select_allocation db sid = None ->
  ~ In sid (map alloc_student_id (Allocations db)).
Proof.
  unfold select_allocation. intros Hnone Hin.
  apply in_map_iff in Hin. destruct Hin as (a & Ha & Hin).
  pose proof (find_none _ _ Hnone a Hin) as H. cbn in H.
  apply Z.eqb_neq in H. contradiction.
Qed.

Lemma filter_keeps_distinct {Row Key : Type} (key : Row -> Key)
  (keep : Row -> bool) :
  forall rows : list Row,
    NoDup (map key rows) -> NoDup (map key (filter keep rows)).
Proof.
  intros rows. induction rows as [|x rows IH]; simpl; intros H; [exact H|].
  inversion H as [|y ys Hnotin Hrest]; subst.
  destruct (keep x); simpl; [|auto].
  constructor; [|auto].
  intros Hin. apply Hnotin.
  apply in_map_iff in Hin. destruct Hin as (z & Hz & Hin).
  apply filter_In in Hin. apply in_map_iff. exists z. tauto.
Qed.

Lemma NoDup_one_row (rows : list allocation) (sid : Z) :
  NoDup (map alloc_student_id rows) ->
  (List.length (filter (fun a => (alloc_student_id a =? sid)%Z) rows) <= 1)%nat.
Proof.
  induction rows as [|a rows IH]; simpl; intros H; [lia|].
  inversion H as [|y ys Hnotin Hrest]; subst.
  destruct (alloc_student_id a =? sid) eqn:E; [|auto].
  apply Z.eqb_eq in E. simpl.
  assert (Hnone : filter (fun x => alloc_student_id x =? sid) rows = []).
  { destruct (filter (fun x => alloc_student_id x =? sid) rows)
      as [|b l] eqn:F; [reflexivity|].
    exfalso. apply Hnotin.
    assert (Hb : In b (filter (fun x => alloc_student_id x =? sid) rows))
      by (rewrite F; left; reflexivity).
    apply filter_In in Hb. destruct Hb as [Hb Hs].
    apply Z.eqb_eq in Hs. apply in_map_iff. exists b. split; [lia|exact Hb]. }
  rewrite Hnone. simpl. lia.
Qed.

Lemma update_allocation_students (rid today aid : Z) (db : DB) :
  map alloc_student_id (Allocations (update_allocation rid today aid db))
  = map alloc_student_id (Allocations db).
Proof.
  unfold update_allocation, with_allocations. cbn [Allocations].
  rewrite map_map. apply map_ext. intros a.
  destruct (allocation_id a =? aid); reflexivity.
Qed.

Lemma update_allocation_ids (rid today aid : Z) (db : DB) :
  map allocation_id (Allocations (update_allocation rid today aid db))
  = map allocation_id (Allocations db).
Proof.
  unfold update_allocation, with_allocations. cbn [Allocations].
  rewrite map_map. apply map_ext. intros a.
  destruct (allocation_id a =? aid); reflexivity.
Qed.

Lemma effect_one_allocation_each (now : Z) (db db' : DB) :
  effect now db db' -> one_allocation_each db -> one_allocation_each db'.
Proof.
  unfold one_allocation_each.
  intros Heff H.
  destruct Heff as
    [ | f | sid f | sid | sid rid Hnone | sid rid r Hnone Hroom Hfree
    | sid rid a r Halloc Hroom Hother Hfree | sid paid
    | number cap floor type fee wifi Hcap | rid clean r Hroom Hguard
    | rid r Hroom Hempty ];
    try exact H.
  - cbn [delete_student_row delete_payments delete_allocations
         with_students with_payments with_allocations Allocations].
    rewrite release_beds_allocations. apply filter_keeps_distinct. exact H.
  - cbn [insert_allocation Allocations]. rewrite map_app. cbn [map].
    apply NoDup_app.
    + exact H.
    + constructor; [intros []|constructor].
    + intros x Hx [<-|[]]. cbn in Hx.
      exact (select_allocation_none db sid Hnone Hx).
  - cbn [increment_occupancy with_rooms insert_allocation Allocations].
    rewrite map_app. cbn [map].
    apply NoDup_app.
    + exact H.
    + constructor; [intros []|constructor].
    + intros x Hx [<-|[]]. cbn in Hx.
      exact (select_allocation_none db sid Hnone Hx).
  - cbn [increment_occupancy decrement_occupancy_floor with_rooms
         Allocations].
    rewrite update_allocation_students. exact H.
Qed.

Lemma serve_reachable (now : Z) (reqs : list request) :
  forall c, reachable c -> reachable (serve now reqs c).
Proof.
  induction reqs as [|req rest IH]; intros c Hc; simpl; [exact Hc|].
  apply IH. apply reachable_step. exact Hc.
Qed.

Lemma reachable_one_allocation_each (c : conn) :
  reachable c -> one_allocation_each (data c).
Proof.
  apply (reachable_invariant one_allocation_each).
  - constructor.
  - exact effect_one_allocation_each.
Qed.

Lemma allocate_refuses_second (fail : nat -> bool) (now sid rid : Z)
  (c : conn) (a : allocation) :
  select_allocation (data c) sid = Some a ->
  status (fst (allocate fail now sid rid c)) <> 200 /\
  snd (allocate fail now sid rid c) = c.
Proof.
  intros Ha. unfold allocate. rewrite Ha.
  split_cases; cbn [fst snd status]; split;
    solve [discriminate | reflexivity].
Qed.

Lemma only_row (rows : list allocation) (sid : Z) (a : allocation) :
  NoDup (map alloc_student_id rows) ->
  find (fun x => alloc_student_id x =? sid) rows = Some a ->
  filter (fun x => alloc_student_id x =? sid) rows = [a].
Proof.
  intros Hnd. pose proof (NoDup_one_row rows sid Hnd) as Hlen.
  clear Hnd. induction rows as [|x rows IH]; [discriminate|].
  cbn [find filter] in *.
  destruct (alloc_student_id x =? sid).
  - intros [= ->].
    destruct (filter (fun x => alloc_student_id x =? sid) rows);
      [reflexivity|].
    cbn [List.length] in Hlen. lia.
  - exact (IH Hlen).
Qed.

Lemma update_allocation_of (rid today aid sid : Z) (db : DB) :
  select_allocations (update_allocation rid today aid db) sid
  = map (fun a =>
           if allocation_id a =? aid then
             {| allocation_id := allocation_id a;
                alloc_student_id := alloc_student_id a;
                alloc_room_id := rid; allocation_date := today |}
           else a)
      (select_allocations db sid).
Proof.
  unfold select_allocations, update_allocation.
  cbn [with_allocations Allocations].
  induction (Allocations db) as [|x rows IH]; [reflexivity|].
  cbn [map filter].
  assert (E : alloc_student_id
                (if allocation_id x =? aid then
                   {| allocation_id := allocation_id x;
                      alloc_student_id := alloc_student_id x;
                      alloc_room_id := rid; allocation_date := today |}
                 else x) = alloc_student_id x)
    by (destruct (allocation_id x =? aid); reflexivity).
  rewrite E. destruct (alloc_student_id x =? sid); cbn [map];
    rewrite IH; reflexivity.
Qed.

(** Served one at a time, the requests keep a resident at one row of
    Allocations at most.  From a state reached that way: [allocate] for a
    resident who has a row answers an error and writes nothing; a successful
    [transfer] rewrites the resident's one row in place, which keeps its id
    and now has the new room and today's date, and adds no row; a
    successful [students_delete] leaves the resident no row. *)
Lemma one_allocation_one_at_a_time (c : conn) :
  reachable c ->
  (forall sid, (List.length (select_allocations (data c) sid) <= 1)%nat) /\
  (forall fail now sid rid a,
     select_allocation (data c) sid = Some a ->
     status (fst (allocate fail now sid rid c)) <> 200 /\
     snd (allocate fail now sid rid c) = c) /\
  (forall fail now sid rid,
     status (fst (transfer fail now sid rid c)) = 200 ->
     let after := data (snd (transfer fail now sid rid c)) in
     exists a,
       select_allocations (data c) sid = [a] /\
       alloc_room_id a <> rid /\
       select_allocations after sid
       = [{| allocation_id := allocation_id a; alloc_student_id := sid;
             alloc_room_id := rid; allocation_date := sql_date now |}] /\
       List.length (Allocations after)
       = List.length (Allocations (data c))) /\
  (forall fail sid,
     status (fst (students_delete fail sid c)) = 200 ->
     select_allocations (data (snd (students_delete fail sid c))) sid = []).
Proof.
  intros Hr. pose proof (reachable_settled c Hr) as Hc.
  pose proof (reachable_one_allocation_each c Hr) as Hone.
  split; [|split; [|split]].
  - intros sid. apply NoDup_one_row. exact Hone.
  - intros fail now sid rid a Ha.
    exact (allocate_refuses_second fail now sid rid c a Ha).
  - intros fail now sid rid H200 after. subst after.
    destruct (transfer_outcome fail now sid rid c Hc)
      as [[Hnot _]|(a & r & Ha & _ & Hne & _ & _ & _ & Hd)];
      [contradiction|].
    exists a. rewrite Hd.
    assert (Hrows : select_allocations (data c) sid = [a])
      by exact (only_row _ sid a Hone Ha).
    assert (Hsid : alloc_student_id a = sid).
    { apply find_some in Ha. destruct Ha as [_ Ha].
      apply Z.eqb_eq in Ha. exact Ha. }
    split; [exact Hrows|]. split; [exact Hne|]. split.
    + change (select_allocations
                (increment_occupancy rid
                   (decrement_occupancy_floor (alloc_room_id a)
                      (update_allocation rid (sql_date now)
                         (allocation_id a) (data c)))) sid)
        with (select_allocations
                (update_allocation rid (sql_date now) (allocation_id a)
                   (data c)) sid).
      rewrite update_allocation_of, Hrows. cbn [map].
      rewrite Z.eqb_refl, Hsid. reflexivity.
    + cbn [increment_occupancy decrement_occupancy_floor update_allocation
           with_rooms with_allocations Allocations].
      apply length_map.
  - intros fail sid H200.
    destruct (students_delete_outcome fail sid c Hc)
      as [[Hnot _]|(_ & _ & Hd)]; [contradiction|].
    rewrite Hd. unfold select_allocations.
    cbn [delete_student_row delete_payments delete_allocations
         with_students with_payments with_allocations Allocations].
    rewrite release_beds_allocations.
    induction (Allocations (data c)) as [|x l IH]; [reflexivity|].
    simpl. destruct (alloc_student_id x =? sid) eqn:E; simpl.
    + exact IH.
    + rewrite E. exact IH.
Qed.

Lemma one_at_a_time_example :
  (List.length (select_allocations (data two_rooms) 1) <= 1)%nat /\
  snd (allocate no_fault (day 20002) 1 2 two_rooms) = two_rooms /\
  select_allocations
    (data (snd (transfer no_fault (day 20002) 1 2 two_rooms))) 1
  = [{| allocation_id := 1; alloc_student_id := 1; alloc_room_id := 2;
        allocation_date := 20002 |}] /\
  select_allocations (data (snd (students_delete no_fault 1 two_rooms))) 1
  = [].
Proof.
  assert (Hr : reachable two_rooms).
  { unfold two_rooms, ali_unpaid.
    repeat apply serve_reachable. constructor. }
  destruct (one_allocation_one_at_a_time two_rooms Hr)
    as (Hone & Hsecond & Hmove & Hgone).
  split; [exact (Hone 1)|]. split; [|split].
  - exact (proj2 (Hsecond no_fault (day 20002) 1 2 _ eq_refl)).
  - destruct (Hmove no_fault (day 20002) 1 2 eq_refl)
      as (a & Ha & _ & Hafter & _).
    injection Ha as <-. exact Hafter.
  - exact (Hgone no_fault 1 eq_refl).
Qed.

(** The callbacks of one request of [/allocate], run with no other request
    between them, are the handler [allocate]. *)
Lemma allocate_callbacks_alone (fail : nat -> bool) (now sid rid : Z)
  (c : conn) :
  allocate_callbacks 5 fail now sid rid (allocate_arrives sid rid) (data c)
  = (Sent (fst (allocate fail now sid rid c)),
     data (snd (allocate fail now sid rid c))).
Proof.
  unfold allocate, allocate_arrives.
  destruct ((sid =? 0) || (rid =? 0)); [reflexivity|].
  cbn [allocate_callbacks allocate_callback].
  destruct (fail 0%nat); [reflexivity|].
  destruct (select_student (data c) sid); [|reflexivity].
  cbn [allocate_callbacks allocate_callback].
  destruct (fail 1%nat); [reflexivity|].
  destruct (select_allocation (data c) sid); [reflexivity|].
  cbn [allocate_callbacks allocate_callback].
  destruct (fail 2%nat); [reflexivity|].
  destruct (select_room (data c) rid) as [r|]; [|reflexivity].
  destruct (Qle_bool (capacity r) (inject_Z (current_occupancy r)));
    [reflexivity|].
  cbn [allocate_callbacks allocate_callback].
  destruct (fail 3%nat); [reflexivity|].
  cbn [allocate_callbacks allocate_callback].
  destruct (fail 4%nat); reflexivity.
Qed.

(** A pool of one request is that request alone. *)
Lemma interleave_alone (fail : nat -> bool) (now sid rid : Z) (db : DB)
  (n : nat) :
  forall p,
    interleave fail now (repeat 0%nat n)
      [{| for_student := sid; for_room := rid; waits_for := p |}] db
    = (let (p1, db1) := allocate_callbacks n fail now sid rid p db in
       ([{| for_student := sid; for_room := rid; waits_for := p1 |}], db1)).
Proof.
  revert db. induction n as [|n IH]; intros db p; [reflexivity|].
  cbn [repeat interleave nth_error for_student for_room waits_for
       allocate_callbacks].
  destruct (allocate_callback fail now sid rid p db) as [p1 db1].
  cbn [put]. apply IH.
Qed.

(** C6, at the input on which the code breaks it.  [/allocate] looks for
    the resident's allocation in one callback and inserts in a later one,
    with no transaction around them and no uniqueness on the student in
    Allocations.  Two requests for Ali, who has no room, are in flight
    together: each finds no allocation before the other has inserted, both
    answer 200, and Ali has two rows, one for A1 and one for B2.  Served one
    after the other, the second request is answered 400. *)
Theorem allocate_twice_in_flight :
  let before := data ali_waiting in
  let after :=
    interleave no_fault (day 20000) both_ask_first
      [arrive 1 1; arrive 1 2] before in
  reachable ali_waiting /\
  select_allocations before 1 = [] /\
  one_allocation_each before /\
  map waits_for (fst after)
  = [Sent (ok (JMessage [Str "Student allocated successfully"]));
     Sent (ok (JMessage [Str "Student allocated successfully"]))] /\
  select_allocations (snd after) 1
  = [{| allocation_id := 1; alloc_student_id := 1; alloc_room_id := 1;
        allocation_date := 20000 |};
     {| allocation_id := 2; alloc_student_id := 1; alloc_room_id := 2;
        allocation_date := 20000 |}] /\
  map current_occupancy (Rooms (snd after)) = [1; 1] /\
  ~ one_allocation_each (snd after) /\
  status
    (fst (allocate no_fault (day 20000) 1 2
            (snd (allocate no_fault (day 20000) 1 1 ali_waiting))))
  = 400.
Proof.
  cbv zeta. split.
  { unfold ali_waiting. apply serve_reachable. constructor. }
  split; [vm_compute; reflexivity|].
  split; [vm_compute; constructor|].
  split; [vm_compute; reflexivity|].
  split; [vm_compute; reflexivity|].
  split; [vm_compute; reflexivity|].
  split; [|vm_compute; reflexivity].
  unfold one_allocation_each. intros H. vm_compute in H.
  inversion H as [|x l Hnotin _]. apply Hnotin. left. reflexivity.
Qed.

(** ** Occupancy within capacity *)

(** C5, at the input on which the code breaks it.  [validateRoomPayload]
    accepts any finite capacity in (0, 50], whole or not.  In a room created
    with capacity 2.5 and holding two residents the bound holds; the room is
    not full for [allocate] (2 >= 2.5 is false), so a third resident is
    allocated and the occupancy, 3, exceeds the capacity. *)
Theorem fractional_capacity_overbooked :
  reachable two_in_C3 /\
  beds two_in_C3 = [((5 # 2)%Q, 2)] /\
  occupancy_bounded (data two_in_C3) /\
  status (fst (allocate no_fault (day 20000) 3 1 two_in_C3)) = 200 /\
  snd (allocate no_fault (day 20000) 3 1 two_in_C3) = three_in_C3 /\
  beds three_in_C3 = [((5 # 2)%Q, 3)] /\
  ~ occupancy_bounded (data three_in_C3).
Proof.
  split.
  { unfold two_in_C3, three_students.
    repeat apply serve_reachable. constructor. }
  repeat (split; [reflexivity|]).
  split.
  { constructor; [|constructor]. split; [discriminate|discriminate]. }
  repeat (split; [reflexivity|]).
  intros H. inversion H as [|r l [_ Hle] _]; subst.
  apply Hle. reflexivity.
Qed.

(** What holds of the bound apart from that: the statements of the handlers
    keep room ids distinct, and keep every occupancy within the capacity
    as long as the capacities are whole numbers. *)

Lemma map_room_id_same (g : room -> room) (l : list room) :
  (forall r, room_id (g r) = room_id r) ->
  map room_id (map g l) = map room_id l.
Proof.
  intros Hg. rewrite map_map. apply map_ext. exact Hg.
Qed.

Lemma increment_occupancy_ids (rid : Z) (db : DB) :
  map room_id (Rooms (increment_occupancy rid db)) = map room_id (Rooms db).
Proof.
  apply map_room_id_same. intros r. destruct (room_id r =? rid); reflexivity.
Qed.

Lemma decrement_occupancy_floor_ids (rid : Z) (db : DB) :
  map room_id (Rooms (decrement_occupancy_floor rid db))
  = map room_id (Rooms db).
Proof.
  apply map_room_id_same. intros r. destruct (room_id r =? rid); reflexivity.
Qed.

Lemma decrement_occupancy_positive_ids (rid : Z) (db : DB) :
  map room_id (Rooms (decrement_occupancy_positive rid db))
  = map room_id (Rooms db).
Proof.
  apply map_room_id_same. intros r.
  destruct ((room_id r =? rid) && (0 <? current_occupancy r)); reflexivity.
Qed.

Lemma update_room_ids (rid : Z) (clean : room_clean) (db : DB) :
  map room_id (Rooms (update_room rid clean db)) = map room_id (Rooms db).
Proof.
  apply map_room_id_same. intros r. destruct (room_id r =? rid); reflexivity.
Qed.

Lemma release_beds_ids (roomIds : list Z) :
  forall db,
    map room_id (Rooms (release_beds roomIds db)) = map room_id (Rooms db) /\
    seq_rooms (release_beds roomIds db) = seq_rooms db.
Proof.
  induction roomIds as [|roomId rest IH]; intros db; simpl;
    [split; reflexivity|].
  destruct (IH (decrement_occupancy_positive roomId db)) as [Hids Hseq].
  rewrite Hids, Hseq, decrement_occupancy_positive_ids.
  split; reflexivity.
Qed.

Lemma keyed_by_ids (db db' : DB) :
  map room_id (Rooms db') = map room_id (Rooms db) ->
  seq_rooms db' = seq_rooms db ->
  rooms_keyed db -> rooms_keyed db'.
Proof.
  unfold rooms_keyed. intros Hids Hseq [Hnd Hle].
  rewrite Hids, Hseq. split; [exact Hnd|].
  apply Forall_forall. intros r Hr.
  assert (Hin : In (room_id r) (map room_id (Rooms db)))
    by (rewrite <- Hids; apply in_map; exact Hr).
  apply in_map_iff in Hin. destruct Hin as (x & <- & Hx).
  rewrite Forall_forall in Hle. exact (Hle x Hx).
Qed.

Lemma effect_rooms_keyed (now : Z) (db db' : DB) :
  effect now db db' -> rooms_keyed db -> rooms_keyed db'.
Proof.
  intros Heff H.
  destruct Heff as
    [ | f | sid f | sid | sid rid Hnone | sid rid r Hnone Hroom Hfree
    | sid rid a r Halloc Hroom Hother Hfree | sid paid
    | number cap floor type fee wifi Hcap | rid clean r Hroom Hguard
    | rid r Hroom Hempty ];
    try exact H.
  - refine (keyed_by_ids db _ _ _ H).
    + exact (proj1 (release_beds_ids _ db)).
    + exact (proj2 (release_beds_ids _ db)).
  - refine (keyed_by_ids db _ _ _ H); [|reflexivity].
    exact (increment_occupancy_ids rid
             (insert_allocation sid rid (sql_date now) db)).
  - refine (keyed_by_ids db _ _ _ H); [|reflexivity].
    rewrite increment_occupancy_ids.
    exact (decrement_occupancy_floor_ids (alloc_room_id a)
             (update_allocation rid (sql_date now) (allocation_id a) db)).
  - destruct H as [Hnd Hle]. unfold rooms_keyed.
    cbn [insert_room Rooms seq_rooms]. split.
    + rewrite map_app. cbn [map room_id]. apply NoDup_app.
      * exact Hnd.
      * constructor; [intros []|constructor].
      * intros x Hx [<-|[]].
        apply in_map_iff in Hx. destruct Hx as (r & Hr & Hin).
        rewrite Forall_forall in Hle. specialize (Hle r Hin). lia.
    + apply Forall_app. split.
      * eapply Forall_impl; [|exact Hle]. cbn. intros r Hr. lia.
      * constructor; [cbn; lia|constructor].
  - refine (keyed_by_ids db _ _ _ H); [|reflexivity].
    apply update_room_ids.
  - destruct H as [Hnd Hle]. unfold rooms_keyed.
    cbn [delete_room_row with_rooms Rooms seq_rooms]. split.
    + apply filter_keeps_distinct. exact Hnd.
    + apply Forall_forall. intros x Hx. apply filter_In in Hx.
      rewrite Forall_forall in Hle. apply Hle. tauto.
Qed.

Lemma reachable_rooms_keyed (c : conn) : reachable c -> rooms_keyed (data c).
Proof.
  apply (reachable_invariant rooms_keyed).
  - split; constructor.
  - exact effect_rooms_keyed.
Qed.

Lemma the_room (l : list room) (rid : Z) (r x : room) :
  NoDup (map room_id l) ->
  find (fun y => room_id y =? rid) l = Some r ->
  In x l -> room_id x = rid -> x = r.
Proof.
  induction l as [|y l IH]; simpl; intros Hnd Hfind Hin Hid; [contradiction|].
  inversion Hnd as [|z zs Hnotin Hrest]; subst.
  destruct (room_id y =? room_id x) eqn:E.
  - apply Z.eqb_eq in E. injection Hfind as <-.
    destruct Hin as [Hx|Hx]; [symmetry; exact Hx|].
    exfalso. apply Hnotin. rewrite E. apply in_map. exact Hx.
  - apply Z.eqb_neq in E.
    destruct Hin as [Hx|Hx]; [subst y; contradiction|].
    apply IH; auto.
Qed.

Lemma one_more_fits (n : Z) (q : Q) :
  (inject_Z n < q)%Q -> (inject_Z (Qfloor q) == q)%Q ->
  (inject_Z (n + 1) <= q)%Q.
Proof.
  intros Hlt Hwhole. rewrite <- Hwhole in Hlt |- *.
  rewrite <- Zlt_Qlt in Hlt. rewrite <- Zle_Qle. lia.
Qed.

Lemma within_capacity_release (r : room) :
  within_capacity r ->
  within_capacity (set_occupancy (current_occupancy r - 1) r) \/
  current_occupancy r = 0.
Proof.
  intros [H0 Hle].
  destruct (Z.eq_dec (current_occupancy r) 0) as [E|E]; [right; exact E|].
  left. split; cbn; [lia|].
  eapply Qle_trans; [|exact Hle].
  rewrite <- Zle_Qle. lia.
Qed.

Lemma decrement_occupancy_positive_bounded (rid : Z) (db : DB) :
  occupancy_bounded db ->
  occupancy_bounded (decrement_occupancy_positive rid db).
Proof.
  unfold occupancy_bounded, decrement_occupancy_positive, with_rooms.
  cbn [Rooms]. intros H.
  apply Forall_forall. intros y Hy.
  apply in_map_iff in Hy. destruct Hy as (x & <- & Hx).
  rewrite Forall_forall in H. specialize (H x Hx).
  destruct ((room_id x =? rid) && (0 <? current_occupancy x)) eqn:E;
    [|exact H].
  apply andb_true_iff in E. destruct E as [_ E]. apply Z.ltb_lt in E.
  destruct (within_capacity_release x H) as [Hok|Hz]; [exact Hok|lia].
Qed.

Lemma release_beds_bounded (roomIds : list Z) :
  forall db, occupancy_bounded db ->
             occupancy_bounded (release_beds roomIds db).
Proof.
  induction roomIds as [|roomId rest IH]; intros db H; simpl; [exact H|].
  apply IH. apply decrement_occupancy_positive_bounded. exact H.
Qed.

Lemma decrement_occupancy_floor_bounded (rid : Z) (db : DB) :
  occupancy_bounded db -> occupancy_bounded (decrement_occupancy_floor rid db).
Proof.
  unfold occupancy_bounded, decrement_occupancy_floor, with_rooms.
  cbn [Rooms]. intros H.
  apply Forall_forall. intros y Hy.
  apply in_map_iff in Hy. destruct Hy as (x & <- & Hx).
  rewrite Forall_forall in H. specialize (H x Hx).
  destruct (room_id x =? rid); [|exact H].
  destruct (0 <? current_occupancy x) eqn:E.
  - apply Z.ltb_lt in E.
    destruct (within_capacity_release x H) as [Hok|Hz]; [exact Hok|lia].
  - destruct H as [H0 Hle]. apply Z.ltb_ge in E.
    assert (Hz : current_occupancy x = 0) by lia.
    split; cbn; [lia|]. rewrite Hz in Hle. exact Hle.
Qed.

(** Reserving a bed in the room that the handler found not full. *)
Lemma increment_occupancy_bounded (rid : Z) (db : DB) (r : room) :
  NoDup (map room_id (Rooms db)) ->
  select_room db rid = Some r ->
  (inject_Z (current_occupancy r) < capacity r)%Q ->
  (inject_Z (Qfloor (capacity r)) == capacity r)%Q ->
  occupancy_bounded db -> occupancy_bounded (increment_occupancy rid db).
Proof.
  unfold occupancy_bounded, increment_occupancy, with_rooms.
  cbn [Rooms]. intros Hnd Hr Hfree Hwhole H.
  apply Forall_forall. intros y Hy.
  apply in_map_iff in Hy. destruct Hy as (x & <- & Hx).
  rewrite Forall_forall in H. specialize (H x Hx).
  destruct (room_id x =? rid) eqn:E; [|exact H].
  apply Z.eqb_eq in E.
  assert (Hxr : x = r) by exact (the_room _ rid r x Hnd Hr Hx E).
  subst x. destruct H as [H0 _]. split; cbn; [lia|].
  apply one_more_fits; assumption.
Qed.

Lemma select_room_In (db : DB) (rid : Z) (r : room) :
  select_room db rid = Some r -> In r (Rooms db) /\ room_id r = rid.
Proof.
  unfold select_room. intros H. apply find_some in H.
  destruct H as [Hin Hid]. apply Z.eqb_eq in Hid. tauto.
Qed.

Lemma whole_capacity_back (g : room -> room) (l : list room) (r : room) :
  (forall x, capacity (g x) = capacity x) ->
  Forall (fun y => (inject_Z (Qfloor (capacity y)) == capacity y)%Q)
    (map g l) ->
  In r l ->
  (inject_Z (Qfloor (capacity r)) == capacity r)%Q.
Proof.
  intros Hg H Hin. rewrite Forall_forall in H.
  specialize (H (g r) (in_map g l r Hin)). rewrite Hg in H. exact H.
Qed.

Lemma select_room_decrement_other (old rid : Z) (db : DB) (r : room) :
  old <> rid ->
  select_room db rid = Some r ->
  select_room (decrement_occupancy_floor old db) rid = Some r.
Proof.
  unfold select_room, decrement_occupancy_floor, with_rooms. cbn [Rooms].
  intros Hne. induction (Rooms db) as [|x l IH]; simpl; [discriminate|].
  destruct (room_id x =? old) eqn:Eold; cbn [room_id set_occupancy].
  - apply Z.eqb_eq in Eold.
    destruct (room_id x =? rid) eqn:Erid; [apply Z.eqb_eq in Erid; lia|].
    exact IH.
  - destruct (room_id x =? rid); [trivial|exact IH].
Qed.

(** One request keeps [0 <= occupancy <= capacity] in every room whose
    capacity is a whole number. *)
Lemma effect_occupancy_bounded (now : Z) (db db' : DB) :
  effect now db db' ->
  rooms_keyed db -> whole_capacities db' ->
  occupancy_bounded db -> occupancy_bounded db'.
Proof.
  intros Heff [Hnd _] Hwhole H.
  destruct Heff as
    [ | f | sid f | sid | sid rid Hnone | sid rid r Hnone Hroom Hfree
    | sid rid a r Halloc Hroom Hother Hfree | sid paid
    | number cap floor type fee wifi Hcap | rid clean r Hroom Hguard
    | rid r Hroom Hempty ];
    try exact H.
  - unfold occupancy_bounded.
    cbn [delete_student_row delete_payments delete_allocations
         with_students with_payments with_allocations Rooms].
    apply release_beds_bounded. exact H.
  - destruct (select_room_In db rid r Hroom) as [Hin _].
    apply (increment_occupancy_bounded rid
             (insert_allocation sid rid (sql_date now) db) r);
      trivial.
    refine (whole_capacity_back _ (Rooms db) r _ Hwhole Hin).
    intros x. destruct (room_id x =? rid); reflexivity.
  - destruct (select_room_In db rid r Hroom) as [Hin _].
    set (db1 := update_allocation rid (sql_date now) (allocation_id a) db)
      in *.
    assert (Hb1 : occupancy_bounded
                    (decrement_occupancy_floor (alloc_room_id a) db1))
      by (apply decrement_occupancy_floor_bounded; exact H).
    apply (increment_occupancy_bounded rid _ r); trivial.
    + rewrite decrement_occupancy_floor_ids. exact Hnd.
    + apply select_room_decrement_other; assumption.
    + unfold whole_capacities in Hwhole.
      cbn [increment_occupancy decrement_occupancy_floor with_rooms Rooms]
        in Hwhole.
      rewrite map_map in Hwhole.
      refine (whole_capacity_back _ (Rooms db) r _ Hwhole Hin).
      intros x.
      destruct (room_id x =? alloc_room_id a); cbn [room_id set_occupancy];
        destruct (room_id x =? rid); reflexivity.
  - unfold occupancy_bounded. cbn [insert_room Rooms].
    apply Forall_app. split; [exact H|].
    constructor; [|constructor].
    destruct Hcap as [Hpos _]. split; cbn; [lia|].
    apply Qlt_le_weak. exact Hpos.
  - unfold occupancy_bounded, update_room, with_rooms. cbn [Rooms].
    apply Forall_forall. intros y Hy.
    apply in_map_iff in Hy. destruct Hy as (x & <- & Hx).
    unfold occupancy_bounded in H. rewrite Forall_forall in H.
    specialize (H x Hx).
    destruct (room_id x =? rid) eqn:E; [|exact H].
    apply Z.eqb_eq in E.
    assert (Hxr : x = r) by exact (the_room _ rid r x Hnd Hroom Hx E).
    subst x. destruct H as [Hz Hle]. split; cbn; [exact Hz|].
    destruct (c_capacity clean) as [cap|] eqn:Ecap; cbn; [|exact Hle].
    exact (proj2 (Hguard cap eq_refl)).
  - unfold occupancy_bounded, delete_room_row, with_rooms. cbn [Rooms].
    apply Forall_forall. intros x Hx. apply filter_In in Hx.
    unfold occupancy_bounded in H. rewrite Forall_forall in H.
    apply H. tauto.
Qed.

(** From a reachable state in which the bound holds, a request leads to a
    state in which it holds again, unless it leaves a room with a capacity
    that is not a whole number. *)
Lemma whole_capacity_step (fail : nat -> bool) (now : Z) (req : request)
  (c : conn) :
  reachable c ->
  occupancy_bounded (data c) ->
  whole_capacities (data (snd (handle fail now req c))) ->
  occupancy_bounded (data (snd (handle fail now req c))).
Proof.
  intros Hr Hb Hwhole.
  destruct (handle_settled fail now req c (reachable_settled c Hr))
    as [_ Heff].
  exact (effect_occupancy_bounded now _ _ Heff
           (reachable_rooms_keyed c Hr) Hwhole Hb).
Qed.

(** ** The clock *)

Lemma effect_payments_dated (t now : Z) (db db' : DB) :
  effect now db db' -> sql_date now <= t ->
  Forall (fun p => pay_date p <= t) (Payments db) ->
  Forall (fun p => pay_date p <= t) (Payments db').
Proof.
  intros Heff Hnow H.
  destruct Heff as
    [ | f | sid f | sid | sid rid Hnone | sid rid r Hnone Hroom Hfree
    | sid rid a r Halloc Hroom Hother Hfree | sid paid
    | number cap floor type fee wifi Hcap | rid clean r Hroom Hguard
    | rid r Hroom Hempty ];
    try exact H.
  - cbn [delete_student_row delete_payments delete_allocations
         with_students with_payments with_allocations Payments].
    rewrite release_beds_payments.
    apply Forall_forall. intros p Hp. apply filter_In in Hp.
    rewrite Forall_forall in H. apply H. tauto.
  - cbn [insert_payment Payments]. apply Forall_app. split; [exact H|].
    constructor; [exact Hnow|constructor].
Qed.

Lemma reachable_by_reachable (t : Z) (c : conn) :
  reachable_by t c -> reachable c.
Proof.
  induction 1; [constructor|apply reachable_step; assumption].
Qed.

Lemma payments_not_after (t : Z) (c : conn) :
  reachable_by t c ->
  forall sid d, select_last_payment (data c) sid = Some d -> d <= t.
Proof.
  intros Hr sid.
  apply latest_date_bound.
  induction Hr as [|fail now req c Hr IH Hnow]; [constructor|].
  destruct (handle_settled fail now req c
              (reachable_settled c (reachable_by_reachable t c Hr)))
    as [_ Heff].
  exact (effect_payments_dated t now _ _ Heff Hnow IH).
Qed.

(** The fee guard of [buildFeeSnapshot]: a room fee of 0, which
    [validateRoomPayload] accepts, makes the snapshot fail with a 500. *)
Lemma unconfigured_fee_is_refused :
  select_allocation_room (data ali_fee_dropped) 1 <> None /\
  select_last_payment (data ali_fee_dropped) 1 = Some 20000 /\
  buildFeeSnapshot no_fault 0 (day 20040) (data ali_fee_dropped) 1
  = SnapErr 500 "Room fee is not configured for this allocation".
Proof. vm_compute. split; [discriminate|split; reflexivity]. Qed.

(** * The rest of the server: properties *)

(** ** Validation of a room *)

Lemma validateRoomPayload_valid (body : room_body) (requireAll : bool) :
  clean_valid (snd (validateRoomPayload body requireAll)).
Proof.
  unfold validateRoomPayload, clean_valid.
  cbn [snd c_capacity c_monthly_fee c_floor_level c_wifi_available].
  split; [|split; [|split]].
  - intros cap.
    destruct (b_capacity body) as [[q| |p]|]; try discriminate.
    cbn [is_finite js_le js_gt negb orb].
    destruct (Qle_bool q 0) eqn:E0; [discriminate|].
    destruct (Qltb MAX_ROOM_CAPACITY q) eqn:E1; [discriminate|].
    cbn. intros [= <-]. split.
    + apply Qle_bool_false. exact E0.
    + apply Qltb_false. exact E1.
  - intros fee.
    destruct (b_monthly_fee body) as [[q| |p]|]; try discriminate.
    cbn [is_finite js_lt js_gt negb orb].
    destruct (Qltb q 0) eqn:E0; [discriminate|].
    destruct (Qltb MAX_MONTHLY_FEE q) eqn:E1; [discriminate|].
    cbn. intros [= <-]. split.
    + apply Qltb_false. exact E0.
    + apply Qltb_false. exact E1.
  - intros f.
    destruct (b_floor_level body) as [[q| |p]|]; try discriminate.
    + cbn [is_integer js_lt js_gt].
      destruct (Qeq_bool (inject_Z (Qfloor q)) q); [|discriminate].
      destruct (Qltb q 0) eqn:E0; [discriminate|].
      destruct (Qltb 200 q) eqn:E1; [discriminate|].
      cbn. intros [= <-].
      apply Qltb_false in E0. apply Qltb_false in E1.
      apply Qfloor_resp_le in E0. apply Qfloor_resp_le in E1.
      cbn in E0, E1. unfold floor_in_range. lia.
    + destruct requireAll; [|discriminate].
      intros [= <-]. unfold floor_in_range. lia.
  - intros w.
    destruct (b_wifi_available body) as [[|]|].
    + intros [= <-]. right. reflexivity.
    + intros [= <-]. left. reflexivity.
    + destruct requireAll; [|discriminate].
      intros [= <-]. left. reflexivity.
Qed.

(** ** What each handler returns *)

Lemma untouched (now : Z) (c : conn) (r : response) :
  status r <> 200 -> all_or_nothing now c (r, c).
Proof. intros H. left. split; [exact H|reflexivity]. Qed.

Lemma no_other_cnic (l : list student) (x : string) :
  find (fun s => String.eqb (cnic s) x) l = None ->
  forall s, In s l -> cnic s <> x.
Proof.
  intros Hnone s Hin Heq.
  pose proof (find_none _ _ Hnone s Hin) as H. cbn in H.
  apply String.eqb_neq in H. contradiction.
Qed.

Lemma cnic_only_here (l : list student) (x : string) (sid : Z) :
  find (fun s => String.eqb (cnic s) x && negb (student_id s =? sid)) l
  = None ->
  forall s, In s l -> cnic s = x -> student_id s = sid.
Proof.
  intros Hnone s Hin Heq.
  pose proof (find_none _ _ Hnone s Hin) as H. cbn in H.
  apply andb_false_iff in H. destruct H as [H|H].
  - apply String.eqb_neq in H. contradiction.
  - apply negb_false_iff in H. apply Z.eqb_eq in H. exact H.
Qed.

Lemma no_other_number (l : list room) (x : string) :
  find (fun r => String.eqb (room_number r) x) l = None ->
  forall r, In r l -> room_number r <> x.
Proof.
  intros Hnone r Hin Heq.
  pose proof (find_none _ _ Hnone r Hin) as H. cbn in H.
  apply String.eqb_neq in H. contradiction.
Qed.

Lemma number_only_here (l : list room) (x : string) (rid : Z) :
  find (fun r => String.eqb (room_number r) x && negb (room_id r =? rid)) l
  = None ->
  forall r, In r l -> room_number r = x -> room_id r = rid.
Proof.
  intros Hnone r Hin Heq.
  pose proof (find_none _ _ Hnone r Hin) as H. cbn in H.
  apply andb_false_iff in H. destruct H as [H|H].
  - apply String.eqb_neq in H. contradiction.
  - apply negb_false_iff in H. apply Z.eqb_eq in H. exact H.
Qed.

Lemma add_student_outcome (fail : nat -> bool) (now : Z)
  (body : student_body) (c : conn) :
  saved c = None -> all_or_nothing now c (add_student fail body c).
Proof.
  intros Hc. unfold add_student.
  split_cases; try (apply untouched; discriminate).
  right. cbn [fst snd status ok]. repeat split; [exact Hc|].
  cbn [data exec]. apply ch_add_student.
  apply no_other_cnic. assumption.
Qed.

Lemma students_update_outcome (fail : nat -> bool) (now sid : Z)
  (body : student_body) (c : conn) :
  saved c = None -> all_or_nothing now c (students_update fail sid body c).
Proof.
  intros Hc. unfold students_update.
  split_cases; try (apply untouched; discriminate).
  right. cbn [fst snd status ok]. repeat split; [exact Hc|].
  cbn [data exec]. eapply ch_update_student; [eassumption|].
  apply cnic_only_here. assumption.
Qed.

(** The three outcomes of [allocate]. *)
Lemma allocate_outcome (fail : nat -> bool) (now sid rid : Z) (c : conn) :
  saved c = None ->
  all_or_nothing now c (allocate fail now sid rid c) \/
  half_done fail now (Allocate sid rid) c (allocate fail now sid rid c).
Proof.
  intros Hc. unfold allocate.
  split_cases; try (left; apply untouched; discriminate).
  - right. unfold half_done. cbn [fst snd status reply].
    split; [do 2 eexists; reflexivity|].
    repeat split; try assumption.
    cbn [data exec]. eapply ch_allocate_row; try eassumption.
    apply Qle_bool_false. assumption.
  - left. right. cbn [fst snd status ok]. repeat split; [exact Hc|].
    cbn [data exec]. eapply ch_allocate; try eassumption.
    apply Qle_bool_false. assumption.
Qed.

Lemma transfer_whole (fail : nat -> bool) (now sid rid : Z) (c : conn) :
  saved c = None -> all_or_nothing now c (transfer fail now sid rid c).
Proof.
  intros Hc.
  destruct (transfer_outcome fail now sid rid c Hc)
    as [Hsame|(a & r & Ha & Hr & Hne & Hfree & Hresp & Hs & Hd)].
  - left. exact Hsame.
  - right. rewrite Hresp, Hd. repeat split; [exact Hs|].
    exact (ch_transfer now (data c) sid rid a r Ha Hr Hne Hfree).
Qed.

Lemma recordPayment_rejected (fail : nat -> bool) (now sid : Z)
  (amount : option JsNumber) (c : conn) :
  status (fst (recordPayment fail now sid amount c)) <> 200 ->
  snd (recordPayment fail now sid amount c) = c.
Proof.
  unfold recordPayment.
  destruct amount as [[q| |p]|]; split_cases; cbn [fst snd status ok];
    try reflexivity; intros H; exfalso; apply H; reflexivity.
Qed.

Lemma recordPayment_outcome (fail : nat -> bool) (now sid : Z)
  (amount : option JsNumber) (c : conn) :
  saved c = None ->
  all_or_nothing now c (recordPayment fail now sid amount c).
Proof.
  intros Hc.
  destruct (Z.eq_dec (status (fst (recordPayment fail now sid amount c))) 200)
    as [H200|Hnot].
  - right. split; [exact H200|].
    destruct (recordPayment_accepted fail now sid amount c H200)
      as (q & st & s & _ & _ & _ & _ & _ & _ & Hst & _ & _ & Hout).
    cbv zeta in Hout. rewrite Hout. cbn [snd fst]. split; [exact Hc|].
    cbn [data exec]. exact (ch_payment now (data c) sid _ st Hst).
  - left. split; [exact Hnot|].
    apply recordPayment_rejected. exact Hnot.
Qed.

Lemma rooms_add_outcome (fail : nat -> bool) (now : Z) (body : room_body)
  (c : conn) :
  saved c = None -> all_or_nothing now c (rooms_add fail body c).
Proof.
  intros Hc. unfold rooms_add.
  pose proof (validateRoomPayload_valid body true) as Hvalid.
  destruct (validateRoomPayload body true) as [errors clean].
  cbn [snd] in Hvalid.
  destruct Hvalid as (Hcap & Hfee & Hfloor & Hwifi).
  destruct errors; [|apply untouched; discriminate].
  destruct (c_room_number clean) as [number|];
    [|destruct (c_capacity clean); apply untouched; discriminate].
  destruct (c_capacity clean) as [cap|]; [|apply untouched; discriminate].
  destruct (c_monthly_fee clean) as [fee|]; [|apply untouched; discriminate].
  destruct (fail 0%nat); [apply untouched; discriminate|].
  destruct (find (fun r => String.eqb (room_number r) number)
              (Rooms (data c))) eqn:Efind; [apply untouched; discriminate|].
  destruct (fail 1%nat); [apply untouched; discriminate|].
  right. cbn [fst snd status ok]. repeat split; [exact Hc|].
  cbn [data exec]. apply ch_add_room.
  - apply Hcap. reflexivity.
  - apply Hfee. reflexivity.
  - destruct (c_floor_level clean) as [f|]; cbn.
    + apply Hfloor. reflexivity.
    + unfold floor_in_range. lia.
  - destruct (c_wifi_available clean) as [w|]; cbn.
    + apply Hwifi. reflexivity.
    + left. reflexivity.
  - apply no_other_number. exact Efind.
Qed.

Lemma rooms_update_outcome (fail : nat -> bool) (now rid : Z)
  (body : room_body) (c : conn) :
  saved c = None -> all_or_nothing now c (rooms_update fail rid body c).
Proof.
  intros Hc. unfold rooms_update.
  pose proof (validateRoomPayload_valid body false) as Hvalid.
  destruct (validateRoomPayload body false) as [errors clean].
  cbn [snd] in Hvalid.
  destruct (rid =? 0); [apply untouched; discriminate|].
  destruct errors; [|apply untouched; discriminate].
  destruct (no_keys clean); [apply untouched; discriminate|].
  destruct (fail 0%nat); [apply untouched; discriminate|].
  destruct (select_room (data c) rid) as [r|] eqn:Er;
    [|apply untouched; discriminate].
  destruct (match c_capacity clean with
            | Some cap => Qltb cap (inject_Z (current_occupancy r))
            | None => false
            end) eqn:Eg; [apply untouched; discriminate|].
  assert (Hguard : forall cap, c_capacity clean = Some cap ->
                     (inject_Z (current_occupancy r) <= cap)%Q).
  { intros cap Hsome. rewrite Hsome in Eg. apply Qltb_false. exact Eg. }
  assert (Hup : (forall number, c_room_number clean = Some number ->
                   forall x, In x (Rooms (data c)) ->
                             room_number x = number -> room_id x = rid) ->
                all_or_nothing now c
                  (ok (JMessage [Str "Room updated successfully"]),
                   exec (update_room rid clean) c)).
  { intros Hfree. right. cbn [fst snd status ok].
    repeat split; [exact Hc|]. cbn [data exec].
    exact (ch_update_room now (data c) rid clean r Er Hvalid Hguard Hfree). }
  destruct (c_room_number clean) as [number|] eqn:Enum.
  - destruct (fail 1%nat); [apply untouched; discriminate|].
    destruct (find (fun x => String.eqb (room_number x) number
                             && negb (room_id x =? rid))
                (Rooms (data c))) eqn:Efind;
      [apply untouched; discriminate|].
    destruct (fail 2%nat); [apply untouched; discriminate|].
    apply Hup. intros number' [= <-].
    apply number_only_here. exact Efind.
  - destruct (fail 2%nat); [apply untouched; discriminate|].
    apply Hup. discriminate.
Qed.

Lemma rooms_delete_outcome (fail : nat -> bool) (now rid : Z) (c : conn) :
  saved c = None -> all_or_nothing now c (rooms_delete fail rid c).
Proof.
  intros Hc. unfold rooms_delete.
  split_cases; try (apply untouched; discriminate).
  right. cbn [fst snd status ok]. repeat split; [exact Hc|].
  cbn [data exec]. eapply ch_delete_room; [eassumption|].
  apply Z.ltb_ge. assumption.
Qed.

Lemma students_delete_found (fail : nat -> bool) (sid : Z) (c : conn) :
  saved c = None ->
  status (fst (students_delete fail sid c)) = 200 ->
  exists st, select_student (data c) sid = Some st.
Proof.
  intros Hc. unfold students_delete.
  assert (Hd : data (sql_begin c) = data c)
    by (unfold sql_begin; rewrite Hc; reflexivity).
  rewrite !Hd. unfold rollback.
  destruct (sid =? 0); [discriminate|].
  destruct (fail 0%nat); [discriminate|].
  destruct (select_student (data c) sid) as [st|]; [|discriminate].
  intros _. exists st. reflexivity.
Qed.

Lemma students_delete_whole (fail : nat -> bool) (now sid : Z) (c : conn) :
  saved c = None -> all_or_nothing now c (students_delete fail sid c).
Proof.
  intros Hc.
  destruct (students_delete_outcome fail sid c Hc)
    as [Hsame|(H200 & Hs & Hd)].
  - left. exact Hsame.
  - right. split; [exact H200|]. split; [exact Hs|].
    destruct (students_delete_found fail sid c Hc H200) as [st Hst].
    rewrite Hd. exact (ch_delete_student now (data c) sid st Hst).
Qed.

Lemma handle_outcome (fail : nat -> bool) (now : Z) (req : request)
  (c : conn) :
  saved c = None ->
  all_or_nothing now c (handle fail now req c) \/
  half_done fail now req c (handle fail now req c).
Proof.
  intros Hc. destruct req; cbn [handle].
  - left. apply add_student_outcome; exact Hc.
  - left. apply students_update_outcome; exact Hc.
  - left. apply students_delete_whole; exact Hc.
  - apply allocate_outcome; exact Hc.
  - left. apply transfer_whole; exact Hc.
  - left. apply recordPayment_outcome; exact Hc.
  - left. apply rooms_add_outcome; exact Hc.
  - left. apply rooms_update_outcome; exact Hc.
  - left. apply rooms_delete_outcome; exact Hc.
Qed.

(** A request changes the store by a whole change, or by half of one. *)
Lemma handle_change (fail : nat -> bool) (now : Z) (req : request)
  (c : conn) :
  saved c = None ->
  exists half, change now (data c) half (data (snd (handle fail now req c))).
Proof.
  intros Hc.
  destruct (handle_outcome fail now req c Hc)
    as [[[_ Hsame]|(_ & _ & Hch)]|(_ & _ & _ & _ & Hch)].
  - rewrite Hsame. exists false. constructor.
  - exists false. exact Hch.
  - exists true. exact Hch.
Qed.

Lemma handle_change_whole (fail : nat -> bool) (now : Z) (req : request)
  (c : conn) :
  saved c = None -> spares fail req ->
  change now (data c) false (data (snd (handle fail now req c))).
Proof.
  intros Hc Hsp.
  destruct (handle_outcome fail now req c Hc)
    as [[[_ Hsame]|(_ & _ & Hch)]|[(sid & rid & ->) (Hf & _)]].
  - rewrite Hsame. constructor.
  - exact Hch.
  - cbn in Hsp. congruence.
Qed.

Lemma reachable_whole_reachable (c : conn) :
  reachable_whole c -> reachable c.
Proof.
  induction 1; [constructor|apply reachable_step; assumption].
Qed.

(** Invariants of all changes hold in every reachable state; invariants of
    whole changes hold where no half change was made. *)
Lemma reachable_change_invariant (P : DB -> Prop) :
  P empty_db ->
  (forall now db half db', change now db half db' -> P db -> P db') ->
  forall c, reachable c -> P (data c).
Proof.
  intros H0 Hstep c Hr.
  induction Hr as [|fail now req c Hr IH]; [exact H0|].
  destruct (handle_change fail now req c (reachable_settled c Hr))
    as [half Hch].
  exact (Hstep now _ half _ Hch IH).
Qed.

Lemma reachable_whole_invariant (P : DB -> Prop) :
  P empty_db ->
  (forall now db db', change now db false db' -> P db -> P db') ->
  forall c, reachable_whole c -> P (data c).
Proof.
  intros H0 Hstep c Hr.
  induction Hr as [|fail now req c Hr IH Hsp]; [exact H0|].
  pose proof (reachable_settled c (reachable_whole_reachable c Hr)) as Hc.
  exact (Hstep now _ _ (handle_change_whole fail now req c Hc Hsp) IH).
Qed.

(** ** Errors and what they leave behind *)

(** X1.  Apart from [allocate], a handler that does not answer 200 has
    written nothing: the connection is the one before the request, whatever
    the store errors. *)
Theorem errors_write_nothing (fail : nat -> bool) (now : Z) (req : request)
  (c : conn) :
  saved c = None ->
  (forall sid rid, req <> Allocate sid rid) ->
  status (fst (handle fail now req c)) <> 200 ->
  snd (handle fail now req c) = c.
Proof.
  intros Hc Hreq Hnot.
  destruct (handle_outcome fail now req c Hc)
    as [[[_ Hsame]|(H200 & _)]|[(sid & rid & Heq) _]].
  - exact Hsame.
  - contradiction.
  - exfalso. exact (Hreq sid rid Heq).
Qed.

Lemma errors_write_nothing_witness :
  status (fst (handle (fails_at 3) (day 20001) (DeleteStudent 1) full_house))
  = 500 /\
  snd (handle (fails_at 3) (day 20001) (DeleteStudent 1) full_house)
  = full_house.
Proof.
  split; [reflexivity|].
  apply (errors_write_nothing (fails_at 3) (day 20001) (DeleteStudent 1)
           full_house).
  - reflexivity.
  - discriminate.
  - discriminate.
Defined.

(** X2.  [allocate] opens no transaction: when the insert goes through and
    the occupancy update fails, it answers 500, the allocation row stays and
    the room's occupancy is not raised. *)
Theorem allocate_half_written (fail : nat -> bool) (now sid rid : Z)
  (c : conn) (st : student) (r : room) :
  sid <> 0 -> rid <> 0 ->
  fail 0%nat = false -> fail 1%nat = false -> fail 2%nat = false ->
  fail 3%nat = false -> fail 4%nat = true ->
  select_student (data c) sid = Some st ->
  select_allocation (data c) sid = None ->
  select_room (data c) rid = Some r ->
  (inject_Z (current_occupancy r) < capacity r)%Q ->
  let out := allocate fail now sid rid c in
  fst out = reply 500 "Error updating room" /\
  Allocations (data (snd out))
  = Allocations (data c) ++
    [{| allocation_id := seq_allocations (data c) + 1;
        alloc_student_id := sid; alloc_room_id := rid;
        allocation_date := sql_date now |}] /\
  Rooms (data (snd out)) = Rooms (data c) /\
  select_room (data (snd out)) rid = Some r.
Proof.
  intros Hsid Hrid F0 F1 F2 F3 F4 Hst Ha Hr Hfree out. subst out.
  unfold allocate.
  apply Z.eqb_neq in Hsid. apply Z.eqb_neq in Hrid.
  rewrite Hsid, Hrid, F0, Hst, F1, Ha, F2, Hr, F3, F4. cbn [orb].
  destruct (Qle_bool (capacity r) (inject_Z (current_occupancy r))) eqn:E.
  - apply Qle_bool_iff in E. exfalso. exact (Qlt_not_le _ _ Hfree E).
  - repeat split. exact Hr.
Qed.

Lemma allocate_half_written_witness :
  let out := allocate (fails_at 4) (day 20001) 2 1
               (serve (day 20000) [AddStudent bilal] two_rooms) in
  status (fst out) = 500 /\
  map alloc_student_id (Allocations (data (snd out))) = [1; 2] /\
  map current_occupancy (Rooms (data (snd out))) = [1; 0].
Proof.
  assert (H1 : 1 <> 0) by discriminate.
  assert (H2 : 2 <> 0) by discriminate.
  pose proof
    (allocate_half_written (fails_at 4) (day 20001) 2 1
       (serve (day 20000) [AddStudent bilal] two_rooms) _ _
       H2 H1 eq_refl eq_refl eq_refl eq_refl eq_refl eq_refl eq_refl eq_refl
       eq_refl) as (Hresp & Hallocs & Hrooms & _).
  cbv zeta. rewrite Hresp, Hallocs, Hrooms. repeat split.
Defined.

Lemma release_beds_students (roomIds : list Z) :
  forall db, Students (release_beds roomIds db) = Students db.
Proof.
  induction roomIds as [|roomId rest IH]; intros db; simpl;
    [reflexivity|].
  rewrite IH. reflexivity.
Qed.

(** X3.  A successful [students_delete] removes the student's row and every
    allocation and payment of the student, and no row of another student. *)
Theorem students_delete_cascade (fail : nat -> bool) (sid : Z) (c : conn) :
  saved c = None ->
  status (fst (students_delete fail sid c)) = 200 ->
  let after := data (snd (students_delete fail sid c)) in
  Students after
  = filter (fun s => negb (student_id s =? sid)) (Students (data c)) /\
  Allocations after
  = filter (fun a => negb (alloc_student_id a =? sid))
      (Allocations (data c)) /\
  Payments after
  = filter (fun p => negb (pay_student_id p =? sid)) (Payments (data c)) /\
  select_student after sid = None /\
  select_allocation after sid = None /\
  select_last_payment after sid = None.
Proof.
  intros Hc H200 after.
  destruct (students_delete_outcome fail sid c Hc)
    as [[Hnot _]|(_ & _ & Hd)]; [contradiction|].
  fold after in Hd.
  assert (HS : Students after
               = filter (fun s => negb (student_id s =? sid))
                   (Students (data c))).
  { rewrite Hd.
    cbn [delete_student_row delete_payments delete_allocations
         with_students with_payments with_allocations Students].
    rewrite release_beds_students. reflexivity. }
  assert (HA : Allocations after
               = filter (fun a => negb (alloc_student_id a =? sid))
                   (Allocations (data c))).
  { rewrite Hd.
    cbn [delete_student_row delete_payments delete_allocations
         with_students with_payments with_allocations Allocations].
    rewrite release_beds_allocations. reflexivity. }
  assert (HP : Payments after
               = filter (fun p => negb (pay_student_id p =? sid))
                   (Payments (data c))).
  { rewrite Hd.
    cbn [delete_student_row delete_payments delete_allocations
         with_students with_payments with_allocations Payments].
    rewrite release_beds_payments. reflexivity. }
  repeat (split; [assumption|]).
  split; [|split].
  - unfold select_student. rewrite HS.
    destruct (find (fun s => student_id s =? sid)
                (filter (fun s => negb (student_id s =? sid))
                   (Students (data c)))) as [s|] eqn:E; [|reflexivity].
    apply find_some in E. destruct E as [Hin Hid].
    apply filter_In in Hin. destruct Hin as [_ Hn].
    rewrite Hid in Hn. discriminate.
  - unfold select_allocation. rewrite HA.
    destruct (find (fun a => alloc_student_id a =? sid)
                (filter (fun a => negb (alloc_student_id a =? sid))
                   (Allocations (data c)))) as [a|] eqn:E; [|reflexivity].
    apply find_some in E. destruct E as [Hin Hid].
    apply filter_In in Hin. destruct Hin as [_ Hn].
    rewrite Hid in Hn. discriminate.
  - unfold select_last_payment. rewrite HP.
    apply latest_date_none. intros p Hp Heq.
    apply filter_In in Hp. destruct Hp as [_ Hn].
    apply Z.eqb_eq in Heq. rewrite Heq in Hn. discriminate.
Qed.

Lemma students_delete_cascade_witness :
  let after := data (snd (students_delete no_fault 1 ali_paid)) in
  Students after = [] /\ Allocations after = [] /\ Payments after = [].
Proof.
  destruct (students_delete_cascade no_fault 1 ali_paid eq_refl eq_refl)
    as (Hs & Ha & Hp & _).
  cbv zeta. rewrite Hs, Ha, Hp. repeat split.
Defined.

(** ** Keys *)

Lemma fresh_key_distinct {Row : Type} (key : Row -> Z) (rows : list Row)
  (top : Z) (row : Row) :
  NoDup (map key rows) -> Forall (fun x => key x <= top) rows ->
  key row = top + 1 ->
  NoDup (map key (rows ++ [row])) /\
  Forall (fun x => key x <= top + 1) (rows ++ [row]).
Proof.
  intros Hnd Hle Hrow. split.
  - rewrite map_app. cbn [map]. apply NoDup_app.
    + exact Hnd.
    + constructor; [intros []|constructor].
    + intros k Hk [<-|[]].
      apply in_map_iff in Hk. destruct Hk as (x & Hx & Hin).
      rewrite Forall_forall in Hle. specialize (Hle x Hin). lia.
  - apply Forall_app. split.
    + eapply Forall_impl; [|exact Hle]. cbn. intros x Hx. lia.
    + constructor; [lia|constructor].
Qed.

Lemma filter_keyed {Row : Type} (key : Row -> Z) (keep : Row -> bool)
  (rows : list Row) (top : Z) :
  NoDup (map key rows) -> Forall (fun x => key x <= top) rows ->
  NoDup (map key (filter keep rows)) /\
  Forall (fun x => key x <= top) (filter keep rows).
Proof.
  intros Hnd Hle. split.
  - apply filter_keeps_distinct. exact Hnd.
  - apply Forall_forall. intros x Hx. apply filter_In in Hx.
    rewrite Forall_forall in Hle. apply Hle. tauto.
Qed.

Lemma update_student_ids (sid : Z) (f : student) (db : DB) :
  map student_id (Students (update_student sid f db))
  = map student_id (Students db).
Proof.
  unfold update_student, with_students. cbn [Students].
  rewrite map_map. apply map_ext. intros s.
  destruct (student_id s =? sid); reflexivity.
Qed.

Lemma same_keys_keyed {Row : Type} (key : Row -> Z) (rows rows' : list Row)
  (top : Z) :
  map key rows' = map key rows ->
  NoDup (map key rows) /\ Forall (fun x => key x <= top) rows ->
  NoDup (map key rows') /\ Forall (fun x => key x <= top) rows'.
Proof.
  intros Hk [Hnd Hle]. rewrite Hk. split; [exact Hnd|].
  apply Forall_forall. intros x Hx.
  assert (Hin : In (key x) (map key rows))
    by (rewrite <- Hk; apply in_map; exact Hx).
  apply in_map_iff in Hin. destruct Hin as (y & Hy & Hin).
  rewrite Forall_forall in Hle. rewrite <- Hy. exact (Hle y Hin).
Qed.

Lemma change_students_keyed (now : Z) (db db' : DB) (half : bool) :
  change now db half db' -> students_keyed db -> students_keyed db'.
Proof.
  intros Hch H. unfold students_keyed in *.
  change_cases Hch; try exact H.
  - cbn [insert_student Students seq_students].
    destruct H as [Hnd Hle].
    apply fresh_key_distinct; trivial.
  - refine (same_keys_keyed student_id _ _ _ _ H).
    apply update_student_ids.
  - cbn [delete_student_row delete_payments delete_allocations
         with_students with_payments with_allocations Students seq_students].
    rewrite release_beds_students.
    assert (Hseq : forall l d, seq_students (release_beds l d)
                               = seq_students d).
    { induction l as [|x l IH]; intros d; simpl; [reflexivity|].
      rewrite IH. reflexivity. }
    rewrite Hseq. destruct H as [Hnd Hle].
    apply filter_keyed; assumption.
Qed.

Lemma change_allocations_keyed (now : Z) (db db' : DB) (half : bool) :
  change now db half db' -> allocations_keyed db -> allocations_keyed db'.
Proof.
  intros Hch H. unfold allocations_keyed in *.
  change_cases Hch; try exact H.
  - cbn [delete_student_row delete_payments delete_allocations
         with_students with_payments with_allocations
         Allocations seq_allocations].
    rewrite release_beds_allocations.
    assert (Hseq : forall l d, seq_allocations (release_beds l d)
                               = seq_allocations d).
    { induction l as [|x l IH]; intros d; simpl; [reflexivity|].
      rewrite IH. reflexivity. }
    rewrite Hseq. destruct H as [Hnd Hle].
    apply filter_keyed; assumption.
  - cbn [insert_allocation Allocations seq_allocations].
    destruct H as [Hnd Hle].
    apply fresh_key_distinct; trivial.
  - cbn [increment_occupancy with_rooms insert_allocation
         Allocations seq_allocations].
    destruct H as [Hnd Hle].
    apply fresh_key_distinct; trivial.
  - refine (same_keys_keyed allocation_id _ _ _ _ H).
    apply update_allocation_ids.
Qed.

Lemma change_effect (now : Z) (db db' : DB) (half : bool) :
  change now db half db' -> effect now db db'.
Proof.
  intros Hch. change_cases Hch.
  - apply eff_none.
  - apply eff_add_student.
  - apply eff_update_student.
  - apply eff_delete_student.
  - apply eff_allocate_row. exact Hnone.
  - exact (eff_allocate now db sid rid r Hnone Hroom Hfree).
  - exact (eff_transfer now db sid rid a r Halloc Hroom Hother Hfree).
  - apply eff_payment.
  - apply eff_add_room. exact Hcap.
  - apply (eff_update_room now db rid clean r Hroom).
    intros cap Hsome. split.
    + exact (proj1 Hvalid cap Hsome).
    + exact (Hguard cap Hsome).
  - exact (eff_delete_room now db rid r Hroom Hempty).
Qed.

(** Writing one label into the row of one key keeps labels distinct, when
    the label is not in use under another key. *)
Lemma relabel_distinct {Row Label : Type} (key : Row -> Z)
  (label : Row -> Label) (g : Row -> Row) (k : Z) (x : Label) :
  (forall s, key (g s) = key s) -> (forall s, label (g s) = x) ->
  forall rows : list Row,
    NoDup (map key rows) -> NoDup (map label rows) ->
    (forall s, In s rows -> label s = x -> key s = k) ->
    NoDup (map label (map (fun s => if key s =? k then g s else s) rows)).
Proof.
  intros Hkey Hlabel.
  assert (Hin : forall rows y,
            In y (map label
                    (map (fun s => if key s =? k then g s else s) rows)) ->
            y = x \/ In y (map label rows)).
  { induction rows as [|s rows IH]; simpl; intros y; [tauto|].
    intros [Hy|Hy].
    - destruct (key s =? k); [left; rewrite <- Hy; apply Hlabel|].
      right. left. exact Hy.
    - destruct (IH y Hy); tauto. }
  assert (Hsame : forall rows,
            ~ In k (map key rows) ->
            map (fun s => if key s =? k then g s else s) rows = rows).
  { induction rows as [|s rows IH]; simpl; intros Hk; [reflexivity|].
    destruct (key s =? k) eqn:E.
    - apply Z.eqb_eq in E. tauto.
    - rewrite IH by tauto. reflexivity. }
  induction rows as [|s rows IH]; simpl; intros Hnd Hlb Hfree;
    [constructor|].
  inversion Hnd as [|a l Hk Hnd']; subst.
  inversion Hlb as [|a l Hl Hlb']; subst.
  destruct (key s =? k) eqn:E.
  - apply Z.eqb_eq in E. rewrite Hsame by (rewrite <- E; exact Hk).
    constructor; [|exact Hlb'].
    rewrite Hlabel. intros Hx.
    apply in_map_iff in Hx. destruct Hx as (t & Ht & Hin').
    apply Hk. rewrite E, <- (Hfree t (or_intror Hin') Ht).
    apply in_map. exact Hin'.
  - apply Z.eqb_neq in E. constructor.
    + intros Hx. destruct (Hin rows _ Hx) as [Hx'|Hx'].
      * apply E. apply Hfree; [left; reflexivity|exact Hx'].
      * exact (Hl Hx').
    + apply IH; auto.
Qed.

Lemma change_cnics_distinct (now : Z) (db db' : DB) (half : bool) :
  change now db half db' ->
  students_keyed db -> cnics_distinct db -> cnics_distinct db'.
Proof.
  intros Hch [Hkeys _] H. unfold cnics_distinct in *.
  change_cases Hch; try exact H.
  - cbn [insert_student Students]. rewrite map_app. cbn [map cnic].
    apply NoDup_app.
    + exact H.
    + constructor; [intros []|constructor].
    + intros x Hx [<-|[]].
      apply in_map_iff in Hx. destruct Hx as (s & Hs & Hin).
      exact (Hfree s Hin Hs).
  - unfold update_student, with_students. cbn [Students].
    apply (relabel_distinct student_id cnic _ sid (cnic f));
      trivial.
  - cbn [delete_student_row delete_payments delete_allocations
         with_students with_payments with_allocations Students].
    rewrite release_beds_students.
    apply filter_keeps_distinct. exact H.
Qed.

Lemma release_beds_numbers (roomIds : list Z) :
  forall db,
    map room_number (Rooms (release_beds roomIds db))
    = map room_number (Rooms db).
Proof.
  induction roomIds as [|roomId rest IH]; intros db; simpl;
    [reflexivity|].
  rewrite IH. unfold decrement_occupancy_positive, with_rooms.
  cbn [Rooms]. rewrite map_map. apply map_ext. intros r.
  destruct ((room_id r =? roomId) && (0 <? current_occupancy r));
    reflexivity.
Qed.

Lemma change_room_numbers_distinct (now : Z) (db db' : DB) (half : bool) :
  change now db half db' ->
  rooms_keyed db -> room_numbers_distinct db -> room_numbers_distinct db'.
Proof.
  intros Hch [Hkeys _] H. unfold room_numbers_distinct in *.
  assert (Hocc : forall (g : room -> room) l,
            (forall r, room_number (g r) = room_number r) ->
            map room_number (map g l) = map room_number l).
  { intros g l Hg. rewrite map_map. apply map_ext. exact Hg. }
  change_cases Hch; try exact H.
  - cbn [delete_student_row delete_payments delete_allocations
         with_students with_payments with_allocations Rooms].
    rewrite release_beds_numbers. exact H.
  - cbn [increment_occupancy with_rooms insert_allocation Rooms].
    rewrite Hocc; [exact H|].
    intros x. destruct (room_id x =? rid); reflexivity.
  - cbn [increment_occupancy decrement_occupancy_floor update_allocation
         with_rooms with_allocations Rooms].
    rewrite !Hocc; [exact H| |].
    + intros x. destruct (room_id x =? alloc_room_id a); reflexivity.
    + intros x. destruct (room_id x =? rid); reflexivity.
  - cbn [insert_room Rooms]. rewrite map_app. cbn [map room_number].
    apply NoDup_app.
    + exact H.
    + constructor; [intros []|constructor].
    + intros x Hx [<-|[]].
      apply in_map_iff in Hx. destruct Hx as (y & Hy & Hin).
      exact (Hnum y Hin Hy).
  - unfold update_room, with_rooms. cbn [Rooms].
    destruct (c_room_number clean) as [number|] eqn:E.
    + apply (relabel_distinct room_id room_number _ rid number); trivial.
      exact (Hnum number eq_refl).
    + rewrite Hocc; [exact H|].
      intros x. destruct (room_id x =? rid); reflexivity.
  - cbn [delete_room_row with_rooms Rooms].
    apply filter_keeps_distinct. exact H.
Qed.

Lemma known_student_found (db : DB) (sid : Z) :
  known_student db sid <-> exists st, select_student db sid = Some st.
Proof.
  unfold known_student, select_student. split.
  - intros Hin. apply in_map_iff in Hin. destruct Hin as (s & Hs & Hin).
    destruct (find (fun x => student_id x =? sid) (Students db)) as [st|]
      eqn:E; [exists st; reflexivity|].
    pose proof (find_none _ _ E s Hin) as H. cbn in H.
    apply Z.eqb_neq in H. contradiction.
  - intros [st Hst]. apply find_some in Hst. destruct Hst as [Hin Hid].
    apply Z.eqb_eq in Hid. apply in_map_iff. exists st. tauto.
Qed.

Lemma known_room_found (db : DB) (rid : Z) :
  known_room db rid <-> exists r, select_room db rid = Some r.
Proof.
  unfold known_room, select_room. split.
  - intros Hin. apply in_map_iff in Hin. destruct Hin as (s & Hs & Hin).
    destruct (find (fun x => room_id x =? rid) (Rooms db)) as [r|]
      eqn:E; [exists r; reflexivity|].
    pose proof (find_none _ _ E s Hin) as H. cbn in H.
    apply Z.eqb_neq in H. contradiction.
  - intros [r Hr]. apply find_some in Hr. destruct Hr as [Hin Hid].
    apply Z.eqb_eq in Hid. apply in_map_iff. exists r. tauto.
Qed.

Lemma students_exist_by (db db' : DB) :
  (forall k, known_student db k -> known_student db' k) ->
  Allocations db' = Allocations db -> Payments db' = Payments db ->
  students_exist db -> students_exist db'.
Proof.
  intros Hk Ha Hp [HA HP]. unfold students_exist. rewrite Ha, Hp.
  split; (eapply Forall_impl; [|eassumption]); cbn; intros x; apply Hk.
Qed.

Lemma change_students_exist (now : Z) (db db' : DB) (half : bool) :
  change now db half db' -> students_exist db -> students_exist db'.
Proof.
  intros Hch H.
  change_cases Hch; try exact H.
  - apply (students_exist_by db); [|reflexivity|reflexivity|exact H].
    unfold known_student. cbn [insert_student Students].
    intros k Hk. rewrite map_app. apply in_or_app. left. exact Hk.
  - apply (students_exist_by db); [|reflexivity|reflexivity|exact H].
    unfold known_student. intros k Hk.
    rewrite update_student_ids. exact Hk.
  - destruct H as [HA HP]. unfold students_exist, known_student.
    cbn [delete_student_row delete_payments delete_allocations
         with_students with_payments with_allocations
         Students Allocations Payments].
    rewrite release_beds_students, release_beds_allocations,
      release_beds_payments.
    assert (Hkeep : forall k, In k (map student_id (Students db)) ->
              k <> sid ->
              In k (map student_id
                      (filter (fun s => negb (student_id s =? sid))
                         (Students db)))).
    { intros k Hk Hne. apply in_map_iff in Hk.
      destruct Hk as (s & Hs & Hin). apply in_map_iff. exists s.
      split; [exact Hs|]. apply filter_In. split; [exact Hin|].
      apply negb_true_iff. apply Z.eqb_neq. lia. }
    split; apply Forall_forall; intros x Hx; apply filter_In in Hx;
      destruct Hx as [Hin Hne]; apply negb_true_iff in Hne;
      apply Z.eqb_neq in Hne; apply Hkeep; trivial.
    + rewrite Forall_forall in HA. exact (HA x Hin).
    + rewrite Forall_forall in HP. exact (HP x Hin).
  - destruct H as [HA HP]. split; [|exact HP].
    cbn [insert_allocation Allocations]. apply Forall_app. split.
    + exact HA.
    + constructor; [|constructor]. cbn.
      apply known_student_found. exists st. exact Hst.
  - destruct H as [HA HP]. split; [|exact HP].
    cbn [increment_occupancy with_rooms insert_allocation Allocations].
    apply Forall_app. split.
    + exact HA.
    + constructor; [|constructor]. cbn.
      apply known_student_found. exists st. exact Hst.
  - destruct H as [HA HP]. split; [|exact HP].
    cbn [increment_occupancy decrement_occupancy_floor update_allocation
         with_rooms with_allocations Allocations].
    apply Forall_forall. intros y Hy.
    apply in_map_iff in Hy. destruct Hy as (x & <- & Hx).
    rewrite Forall_forall in HA. specialize (HA x Hx).
    destruct (allocation_id x =? allocation_id a); exact HA.
  - destruct H as [HA HP]. split; [exact HA|].
    cbn [insert_payment Payments]. apply Forall_app. split.
    + exact HP.
    + constructor; [|constructor]. cbn.
      apply known_student_found. exists st. exact Hst.
Qed.

Lemma change_rooms_in_range (now : Z) (db db' : DB) (half : bool) :
  change now db half db' -> rooms_in_range db -> rooms_in_range db'.
Proof.
  intros Hch H. unfold rooms_in_range in *.
  assert (Hset : forall r n, room_in_range r -> 0 <= n ->
                             room_in_range (set_occupancy n r)).
  { intros r n (A & B & C & D & _) Hn.
    exact (conj A (conj B (conj C (conj D Hn)))). }
  assert (Hmap : forall (g : room -> room) l,
            (forall r, room_in_range r -> room_in_range (g r)) ->
            Forall room_in_range l -> Forall room_in_range (map g l)).
  { intros g l Hg Hl. apply Forall_forall. intros y Hy.
    apply in_map_iff in Hy. destruct Hy as (x & <- & Hx).
    rewrite Forall_forall in Hl. apply Hg, Hl, Hx. }
  assert (Hinc : forall k r, room_in_range r ->
            room_in_range (if room_id r =? k
                           then set_occupancy (current_occupancy r + 1) r
                           else r)).
  { intros k r Hr. destruct (room_id r =? k); [|exact Hr].
    apply Hset; [exact Hr|]. destruct Hr as (_ & _ & _ & _ & H0). lia. }
  assert (Hrel : forall l d, Forall room_in_range (Rooms d) ->
                             Forall room_in_range (Rooms (release_beds l d))).
  { induction l as [|k l IH]; intros d Hd; simpl; [exact Hd|].
    apply IH. unfold decrement_occupancy_positive, with_rooms.
    cbn [Rooms]. apply Hmap; [|exact Hd].
    intros r Hr.
    destruct ((room_id r =? k) && (0 <? current_occupancy r)) eqn:E;
      [|exact Hr].
    apply andb_true_iff in E. destruct E as [_ E]. apply Z.ltb_lt in E.
    apply Hset; [exact Hr|lia]. }
  change_cases Hch; try exact H.
  - cbn [delete_student_row delete_payments delete_allocations
         with_students with_payments with_allocations Rooms].
    apply Hrel. exact H.
  - cbn [increment_occupancy with_rooms insert_allocation Rooms].
    apply Hmap; [apply Hinc|exact H].
  - cbn [increment_occupancy decrement_occupancy_floor update_allocation
         with_rooms with_allocations Rooms].
    apply Hmap; [apply Hinc|]. apply Hmap; [|exact H].
    intros x Hx. destruct (room_id x =? alloc_room_id a); [|exact Hx].
    apply Hset; [exact Hx|].
    destruct (0 <? current_occupancy x) eqn:E; [|lia].
    apply Z.ltb_lt in E. lia.
  - cbn [insert_room Rooms]. apply Forall_app. split; [exact H|].
    constructor; [|constructor].
    exact (conj Hcap (conj Hfee (conj Hfloor (conj Hwifi (Z.le_refl 0))))).
  - unfold update_room, with_rooms. cbn [Rooms].
    apply Hmap; [|exact H].
    intros x (A & B & C & D & E).
    destruct (room_id x =? rid);
      [|exact (conj A (conj B (conj C (conj D E))))].
    destruct Hvalid as (Vc & Vf & Vl & Vw).
    unfold room_in_range. cbn.
    split; [|split; [|split; [|split]]].
    + destruct (c_capacity clean) as [q|]; cbn; [apply Vc; reflexivity|].
      exact A.
    + destruct (c_monthly_fee clean) as [q|]; cbn; [apply Vf; reflexivity|].
      exact B.
    + destruct (c_floor_level clean) as [q|]; cbn; [apply Vl; reflexivity|].
      exact C.
    + destruct (c_wifi_available clean) as [q|]; cbn;
        [apply Vw; reflexivity|]. exact D.
    + exact E.
  - cbn [delete_room_row with_rooms Rooms].
    apply Forall_forall. intros x Hx. apply filter_In in Hx.
    rewrite Forall_forall in H. apply H. tauto.
Qed.

Lemma reachable_full_house : reachable full_house.
Proof.
  unfold full_house, two_rooms, ali_unpaid.
  repeat apply serve_reachable. constructor.
Qed.

Lemma distinct_labels_same_row {Row Label : Type} (label : Row -> Label) :
  forall rows : list Row,
    NoDup (map label rows) ->
    forall s t, In s rows -> In t rows -> label s = label t -> s = t.
Proof.
  induction rows as [|x rows IH]; simpl; intros Hnd s t Hs Ht Heq;
    [contradiction|].
  inversion Hnd as [|a l Hx Hnd']; subst.
  destruct Hs as [<-|Hs], Ht as [<-|Ht]; trivial.
  - exfalso. apply Hx. rewrite Heq. apply in_map. exact Ht.
  - exfalso. apply Hx. rewrite <- Heq. apply in_map. exact Hs.
  - exact (IH Hnd' s t Hs Ht Heq).
Qed.

(** X4.  In every reachable state, whatever store errors occurred, every
    allocation and every payment is of a student who is on record. *)
Theorem rows_have_their_student (c : conn) :
  reachable c ->
  (forall a, In a (Allocations (data c)) ->
     exists st, select_student (data c) (alloc_student_id a) = Some st) /\
  (forall p, In p (Payments (data c)) ->
     exists st, select_student (data c) (pay_student_id p) = Some st).
Proof.
  intros Hr.
  assert (H : students_exist (data c)).
  { revert c Hr. apply (reachable_change_invariant students_exist).
    - split; constructor.
    - intros now db half db'. apply change_students_exist. }
  destruct H as [HA HP]. rewrite Forall_forall in HA, HP.
  split; intros x Hx; apply known_student_found; auto.
Qed.

Lemma rows_have_their_student_witness :
  exists st, select_student (data full_house) (alloc_student_id bilal_in_A1)
             = Some st.
Proof.
  apply (proj1 (rows_have_their_student full_house reachable_full_house)).
  vm_compute. right. left. reflexivity.
Defined.

(** X5.  In every reachable state student ids are distinct and no two
    students share a CNIC: [add_student] and [students_update] refuse a CNIC
    that another student has. *)
Theorem cnic_is_unique (c : conn) :
  reachable c ->
  NoDup (map student_id (Students (data c))) /\
  NoDup (map cnic (Students (data c))) /\
  (forall s t, In s (Students (data c)) -> In t (Students (data c)) ->
               cnic s = cnic t -> s = t).
Proof.
  intros Hr.
  assert (H : students_keyed (data c) /\ cnics_distinct (data c)).
  { revert c Hr.
    apply (reachable_change_invariant
             (fun db => students_keyed db /\ cnics_distinct db)).
    - repeat split; constructor.
    - intros now db half db' Hch [Hk Hc]. split.
      + exact (change_students_keyed now db db' half Hch Hk).
      + exact (change_cnics_distinct now db db' half Hch Hk Hc). }
  destruct H as [[Hids _] Hcnic].
  repeat split; trivial.
  apply distinct_labels_same_row. exact Hcnic.
Qed.

Lemma cnic_is_unique_witness :
  NoDup (map cnic (Students (data full_house))).
Proof.
  exact (proj1 (proj2 (cnic_is_unique full_house reachable_full_house))).
Defined.

(** X6.  In every reachable state room ids are distinct and no two rooms
    share a room number: [rooms_add] and [rooms_update] refuse a number
    that another room has. *)
Theorem room_number_is_unique (c : conn) :
  reachable c ->
  NoDup (map room_id (Rooms (data c))) /\
  NoDup (map room_number (Rooms (data c))) /\
  (forall r x, In r (Rooms (data c)) -> In x (Rooms (data c)) ->
               room_number r = room_number x -> r = x).
Proof.
  intros Hr.
  assert (H : rooms_keyed (data c) /\ room_numbers_distinct (data c)).
  { revert c Hr.
    apply (reachable_change_invariant
             (fun db => rooms_keyed db /\ room_numbers_distinct db)).
    - repeat split; constructor.
    - intros now db half db' Hch [Hk Hn]. split.
      + exact (effect_rooms_keyed now db db'
                 (change_effect now db db' half Hch) Hk).
      + exact (change_room_numbers_distinct now db db' half Hch Hk Hn). }
  destruct H as [[Hids _] Hnum].
  repeat split; trivial.
  apply distinct_labels_same_row. exact Hnum.
Qed.

Lemma room_number_is_unique_witness :
  NoDup (map room_number (Rooms (data full_house))).
Proof.
  exact (proj1 (proj2
           (room_number_is_unique full_house reachable_full_house))).
Defined.

(** X7.  In every reachable state every room has a capacity in (0, 50], a
    monthly fee in [0, 500000], a floor in [0, 200], a Wi-Fi flag of 0 or
    1 and an occupancy that is not negative. *)
Theorem rooms_stay_in_range (c : conn) :
  reachable c ->
  forall r, In r (Rooms (data c)) ->
    (0 < capacity r)%Q /\ (capacity r <= 50)%Q /\
    (0 <= monthly_fee r)%Q /\ (monthly_fee r <= 500000)%Q /\
    0 <= floor_level r <= 200 /\
    (wifi_available r = 0 \/ wifi_available r = 1) /\
    0 <= current_occupancy r.
Proof.
  intros Hr.
  assert (H : rooms_in_range (data c)).
  { revert c Hr. apply (reachable_change_invariant rooms_in_range).
    - constructor.
    - intros now db half db'. apply change_rooms_in_range. }
  intros r Hin. unfold rooms_in_range in H. rewrite Forall_forall in H.
  destruct (H r Hin) as ([A1 A2] & [B1 B2] & C & D & E).
  repeat split; trivial; apply C.
Qed.

Lemma rooms_stay_in_range_witness :
  (0 < capacity A1_full)%Q /\ (capacity A1_full <= 50)%Q /\
  (0 <= monthly_fee A1_full)%Q /\ (monthly_fee A1_full <= 500000)%Q /\
  0 <= floor_level A1_full <= 200 /\
  (wifi_available A1_full = 0 \/ wifi_available A1_full = 1) /\
  0 <= current_occupancy A1_full.
Proof.
  apply (rooms_stay_in_range full_house reachable_full_house).
  vm_compute. left. reflexivity.
Defined.

(** ** Occupancy and allocations *)

Lemma occupants_tally (db : DB) (rid : Z) :
  occupants db rid = tally (Allocations db) rid.
Proof. reflexivity. Qed.

Lemma tally_cons (a : allocation) (rows : list allocation) (rid : Z) :
  tally (a :: rows) rid
  = (if alloc_room_id a =? rid then 1 else 0) + tally rows rid.
Proof.
  unfold tally. cbn [filter].
  destruct (alloc_room_id a =? rid); cbn [List.length]; lia.
Qed.

Lemma tally_app (l l' : list allocation) (rid : Z) :
  tally (l ++ l') rid = tally l rid + tally l' rid.
Proof.
  induction l as [|a l IH]; [reflexivity|].
  simpl app. rewrite !tally_cons, IH. lia.
Qed.

Lemma tally_nonneg (rows : list allocation) (rid : Z) : 0 <= tally rows rid.
Proof. unfold tally. lia. Qed.

Lemma tally_member (rows : list allocation) (a : allocation) :
  In a rows -> 1 <= tally rows (alloc_room_id a).
Proof.
  induction rows as [|x rows IH]; simpl; [contradiction|].
  rewrite tally_cons. pose proof (tally_nonneg rows (alloc_room_id a)).
  intros [->|Hin].
  - rewrite Z.eqb_refl. lia.
  - specialize (IH Hin). destruct (alloc_room_id x =? alloc_room_id a); lia.
Qed.

Lemma tally_none (rows : list allocation) (rid : Z) :
  tally rows rid = 0 ->
  forall a, In a rows -> alloc_room_id a <> rid.
Proof.
  intros Hz a Hin Heq. pose proof (tally_member rows a Hin) as H.
  rewrite Heq in H. lia.
Qed.

(** Moving the one row with a given id from its room to another. *)
Lemma tally_move (rows : list allocation) (a : allocation)
  (rid today x : Z) :
  NoDup (map allocation_id rows) -> In a rows ->
  tally
    (map (fun y =>
            if allocation_id y =? allocation_id a then
              {| allocation_id := allocation_id y;
                 alloc_student_id := alloc_student_id y;
                 alloc_room_id := rid; allocation_date := today |}
            else y) rows) x
  = tally rows x
    - (if alloc_room_id a =? x then 1 else 0)
    + (if rid =? x then 1 else 0).
Proof.
  induction rows as [|y rows IH]; simpl; intros Hnd Hin; [contradiction|].
  inversion Hnd as [|k l Hk Hnd']; subst.
  rewrite !tally_cons.
  destruct (allocation_id y =? allocation_id a) eqn:E.
  - apply Z.eqb_eq in E.
    assert (Hya : y = a).
    { destruct Hin as [Hy|Hy]; [exact Hy|].
      exfalso. apply Hk. rewrite E. apply in_map. exact Hy. }
    subst y. cbn [alloc_room_id].
    assert (Hsame : forall l,
              ~ In (allocation_id a) (map allocation_id l) ->
              map (fun y =>
                     if allocation_id y =? allocation_id a then
                       {| allocation_id := allocation_id y;
                          alloc_student_id := alloc_student_id y;
                          alloc_room_id := rid; allocation_date := today |}
                     else y) l = l).
    { induction l as [|z l IHl]; simpl; intros Hz; [reflexivity|].
      destruct (allocation_id z =? allocation_id a) eqn:Ez.
      - apply Z.eqb_eq in Ez. tauto.
      - rewrite IHl by tauto. reflexivity. }
    rewrite (Hsame rows Hk). lia.
  - apply Z.eqb_neq in E.
    destruct Hin as [Hy|Hy]; [subst y; contradiction|].
    rewrite (IH Hnd' Hy). lia.
Qed.

Lemma tally_split (keep : allocation -> bool) (rows : list allocation)
  (x : Z) :
  tally rows x
  = tally (filter keep rows) x
    + tally (filter (fun a => negb (keep a)) rows) x.
Proof.
  induction rows as [|a rows IH]; [reflexivity|].
  simpl filter. rewrite tally_cons, IH.
  destruct (keep a); cbn [negb]; rewrite tally_cons; lia.
Qed.

Lemma filter_out_students (rows : list allocation) (sid : Z) :
  filter (fun a => negb (negb (alloc_student_id a =? sid))) rows
  = filter (fun a => alloc_student_id a =? sid) rows.
Proof.
  apply filter_ext. intros a. apply negb_involutive.
Qed.

(** Removing a student's allocations when there is at most one. *)
Lemma tally_without (db : DB) (sid x : Z) :
  tally (filter (fun a => negb (alloc_student_id a =? sid)) (Allocations db))
    x
  = tally (Allocations db) x - tally (select_allocations db sid) x.
Proof.
  rewrite (tally_split (fun a => negb (alloc_student_id a =? sid))
             (Allocations db) x).
  rewrite filter_out_students. unfold select_allocations. lia.
Qed.

Lemma exact_by (db db' : DB) (g : room -> room) :
  Rooms db' = map g (Rooms db) ->
  (forall r, In r (Rooms db) ->
     current_occupancy r = occupants db (room_id r) ->
     current_occupancy (g r) = occupants db' (room_id (g r))) ->
  occupancy_exact db -> occupancy_exact db'.
Proof.
  unfold occupancy_exact. intros Hrooms Hg H. rewrite Hrooms.
  apply Forall_forall. intros y Hy.
  apply in_map_iff in Hy. destruct Hy as (x & <- & Hx).
  rewrite Forall_forall in H. exact (Hg x Hx (H x Hx)).
Qed.

Lemma exist_by (db db' : DB) :
  (forall k, known_room db k -> known_room db' k) ->
  Forall (fun a => known_room db (alloc_room_id a)) (Allocations db') ->
  rooms_exist db'.
Proof.
  intros Hk H. unfold rooms_exist.
  eapply Forall_impl; [|exact H]. cbn. intros a. apply Hk.
Qed.

Lemma select_allocation_In (db : DB) (sid : Z) (a : allocation) :
  select_allocation db sid = Some a ->
  In a (Allocations db) /\ alloc_student_id a = sid.
Proof.
  unfold select_allocation. intros H. apply find_some in H.
  destruct H as [Hin Hid]. apply Z.eqb_eq in Hid. tauto.
Qed.

Lemma allocate_consistent (now : Z) (db : DB) (sid rid : Z) (r : room) :
  select_room db rid = Some r ->
  rooms_exist db -> occupancy_exact db ->
  let db' := increment_occupancy rid
               (insert_allocation sid rid (sql_date now) db) in
  rooms_exist db' /\ occupancy_exact db'.
Proof.
  intros Hroom Hex Hocc db'. split.
  - apply (exist_by db).
    + unfold known_room. intros k Hk.
      unfold db'. rewrite increment_occupancy_ids. exact Hk.
    + unfold db'.
      cbn [increment_occupancy with_rooms insert_allocation Allocations].
      apply Forall_app. split; [exact Hex|].
      constructor; [|constructor]. cbn.
      apply known_room_found. exists r. exact Hroom.
  - apply (exact_by db db'
             (fun x => if room_id x =? rid
                       then set_occupancy (current_occupancy x + 1) x
                       else x)); [reflexivity| |exact Hocc].
    intros x _ Hx.
    assert (Hid : room_id (if room_id x =? rid
                           then set_occupancy (current_occupancy x + 1) x
                           else x) = room_id x)
      by (destruct (room_id x =? rid); reflexivity).
    rewrite Hid, !occupants_tally. unfold db'.
    cbn [increment_occupancy with_rooms insert_allocation Allocations].
    rewrite tally_app, tally_cons. cbn [alloc_room_id].
    rewrite occupants_tally in Hx.
    rewrite (Z.eqb_sym rid (room_id x)).
    change (tally [] (room_id x)) with 0.
    destruct (room_id x =? rid); cbn [current_occupancy set_occupancy];
      lia.
Qed.

Lemma transfer_consistent (now : Z) (db : DB) (sid rid : Z)
  (a : allocation) (r : room) :
  select_allocation db sid = Some a ->
  select_room db rid = Some r ->
  alloc_room_id a <> rid ->
  allocations_keyed db -> rooms_exist db -> occupancy_exact db ->
  let db' :=
    increment_occupancy rid
      (decrement_occupancy_floor (alloc_room_id a)
         (update_allocation rid (sql_date now) (allocation_id a) db)) in
  rooms_exist db' /\ occupancy_exact db'.
Proof.
  intros Halloc Hroom Hother [Hnd _] Hex Hocc db'.
  destruct (select_allocation_In db sid a Halloc) as [Hin _].
  split.
  - apply (exist_by db).
    + unfold known_room, db'. intros k Hk.
      rewrite increment_occupancy_ids, decrement_occupancy_floor_ids.
      exact Hk.
    + unfold db'.
      cbn [increment_occupancy decrement_occupancy_floor update_allocation
           with_rooms with_allocations Allocations].
      apply Forall_forall. intros y Hy.
      apply in_map_iff in Hy. destruct Hy as (x & <- & Hx).
      destruct (allocation_id x =? allocation_id a).
      * cbn. apply known_room_found. exists r. exact Hroom.
      * unfold rooms_exist in Hex. rewrite Forall_forall in Hex.
        exact (Hex x Hx).
  - set (dec := fun x : room =>
                  if room_id x =? alloc_room_id a
                  then set_occupancy
                         (if 0 <? current_occupancy x
                          then current_occupancy x - 1 else 0) x
                  else x).
    set (inc := fun x : room =>
                  if room_id x =? rid
                  then set_occupancy (current_occupancy x + 1) x
                  else x).
    apply (exact_by db db' (fun x => inc (dec x))).
    { unfold db'.
      cbn [increment_occupancy decrement_occupancy_floor update_allocation
           with_rooms with_allocations Rooms].
      rewrite map_map. reflexivity. }
    2: exact Hocc.
    intros x _ Hx.
    assert (Hdec : room_id (dec x) = room_id x)
      by (unfold dec; destruct (room_id x =? alloc_room_id a); reflexivity).
    assert (Hinc : room_id (inc (dec x)) = room_id x).
    { unfold inc. rewrite Hdec.
      destruct (room_id x =? rid); [exact Hdec|exact Hdec]. }
    rewrite Hinc, !occupants_tally. unfold db'.
    cbn [increment_occupancy decrement_occupancy_floor update_allocation
         with_rooms with_allocations Allocations].
    rewrite (tally_move (Allocations db) a rid (sql_date now) (room_id x)
               Hnd Hin).
    rewrite occupants_tally in Hx.
    pose proof (tally_member (Allocations db) a Hin) as Hone.
    rewrite (Z.eqb_sym (alloc_room_id a) (room_id x)),
      (Z.eqb_sym rid (room_id x)).
    unfold inc. rewrite Hdec. unfold dec.
    destruct (room_id x =? alloc_room_id a) eqn:Eold.
    + apply Z.eqb_eq in Eold.
      assert (Enew : (room_id x =? rid) = false)
        by (apply Z.eqb_neq; lia).
      rewrite Enew. cbn [current_occupancy set_occupancy].
      rewrite Eold in Hx.
      assert (Hpos : (0 <? current_occupancy x) = true)
        by (apply Z.ltb_lt; lia).
      rewrite Hpos. rewrite Eold. lia.
    + destruct (room_id x =? rid); cbn [current_occupancy set_occupancy];
        lia.
Qed.

Lemma delete_student_consistent (db : DB) (sid : Z) :
  one_allocation_each db -> rooms_exist db -> occupancy_exact db ->
  let db' :=
    delete_student_row sid
      (delete_payments sid
         (delete_allocations sid
            (release_beds (map alloc_room_id (select_allocations db sid))
               db))) in
  rooms_exist db' /\ occupancy_exact db'.
Proof.
  intros Hone Hex Hocc db'.
  assert (Hallocs : Allocations db'
                    = filter (fun a => negb (alloc_student_id a =? sid))
                        (Allocations db)).
  { unfold db'.
    cbn [delete_student_row delete_payments delete_allocations
         with_students with_payments with_allocations Allocations].
    rewrite release_beds_allocations. reflexivity. }
  assert (Hrooms : Rooms db'
                   = Rooms (release_beds
                              (map alloc_room_id (select_allocations db sid))
                              db)) by reflexivity.
  split.
  - apply (exist_by db).
    + unfold known_room. intros k Hk. rewrite Hrooms.
      rewrite (proj1 (release_beds_ids _ db)). exact Hk.
    + rewrite Hallocs. apply Forall_forall. intros a Ha.
      apply filter_In in Ha. unfold rooms_exist in Hex.
      rewrite Forall_forall in Hex. apply Hex. tauto.
  - pose proof (NoDup_one_row (Allocations db) sid Hone) as Hlen.
    fold (select_allocations db sid) in Hlen.
    assert (Htally : forall x, occupants db' x
                               = occupants db x
                                 - tally (select_allocations db sid) x).
    { intros x. rewrite !occupants_tally, Hallocs. apply tally_without. }
    destruct (select_allocations db sid) as [|a [|b l]] eqn:Esel;
      [| |cbn in Hlen; lia].
    + apply (exact_by db db' (fun x => x)).
      * rewrite Hrooms. cbn [map release_beds]. rewrite map_id. reflexivity.
      * intros x _ Hx. rewrite Htally. change (tally [] (room_id x)) with 0.
        lia.
      * exact Hocc.
    + assert (Hin : In a (Allocations db)).
      { assert (H : In a (select_allocations db sid))
          by (rewrite Esel; left; reflexivity).
        apply filter_In in H. tauto. }
      apply (exact_by db db'
               (fun x => if (room_id x =? alloc_room_id a)
                            && (0 <? current_occupancy x)
                         then set_occupancy (current_occupancy x - 1) x
                         else x)); [reflexivity| |exact Hocc].
      intros x _ Hx.
      assert (Hid : room_id (if (room_id x =? alloc_room_id a)
                                && (0 <? current_occupancy x)
                             then set_occupancy (current_occupancy x - 1) x
                             else x) = room_id x)
        by (destruct ((room_id x =? alloc_room_id a)
                      && (0 <? current_occupancy x)); reflexivity).
      rewrite Hid, Htally, tally_cons. change (tally [] (room_id x)) with 0.
      pose proof (tally_member (Allocations db) a Hin) as Hpos.
      rewrite occupants_tally in Hx.
      rewrite (Z.eqb_sym (alloc_room_id a) (room_id x)).
      destruct (room_id x =? alloc_room_id a) eqn:E; cbn [andb].
      * apply Z.eqb_eq in E. rewrite E in Hx.
        assert (Hp : (0 <? current_occupancy x) = true)
          by (apply Z.ltb_lt; lia).
        rewrite Hp. cbn [current_occupancy set_occupancy].
        rewrite occupants_tally, E. lia.
      * rewrite occupants_tally. lia.
Qed.

Lemma add_room_consistent (db : DB) (number : string) (cap : Q) (floor : Z)
  (type : string) (fee : Q) (wifi : Z) :
  rooms_keyed db -> rooms_exist db -> occupancy_exact db ->
  let db' := insert_room number cap floor type fee wifi db in
  rooms_exist db' /\ occupancy_exact db'.
Proof.
  intros [_ Hle] Hex Hocc db'. split.
  - apply (exist_by db); [|exact Hex].
    unfold known_room, db'. cbn [insert_room Rooms].
    intros k Hk. rewrite map_app. apply in_or_app. left. exact Hk.
  - unfold occupancy_exact, db'. cbn [insert_room Rooms].
    apply Forall_app. split; [exact Hocc|].
    constructor; [|constructor]. cbn [current_occupancy room_id].
    rewrite occupants_tally. cbn [insert_room Allocations].
    destruct (Z.eq_dec (tally (Allocations db) (seq_rooms db + 1)) 0)
      as [Hz|Hnz]; [symmetry; exact Hz|].
    exfalso. unfold tally in Hnz.
    destruct (filter (fun a => alloc_room_id a =? seq_rooms db + 1)
                (Allocations db)) as [|a l] eqn:E; [apply Hnz; reflexivity|].
    assert (Ha : In a (filter (fun a => alloc_room_id a =? seq_rooms db + 1)
                         (Allocations db)))
      by (rewrite E; left; reflexivity).
    apply filter_In in Ha. destruct Ha as [Hin Hid]. apply Z.eqb_eq in Hid.
    unfold rooms_exist in Hex. rewrite Forall_forall in Hex.
    specialize (Hex a Hin). unfold known_room in Hex.
    apply in_map_iff in Hex. destruct Hex as (x & Hx & Hxin).
    rewrite Forall_forall in Hle. specialize (Hle x Hxin). lia.
Qed.

Lemma update_room_consistent (db : DB) (rid : Z) (clean : room_clean) :
  rooms_exist db -> occupancy_exact db ->
  rooms_exist (update_room rid clean db) /\
  occupancy_exact (update_room rid clean db).
Proof.
  intros Hex Hocc. split.
  - apply (exist_by db); [|exact Hex].
    unfold known_room. intros k Hk. rewrite update_room_ids. exact Hk.
  - apply (exact_by db (update_room rid clean db)
             (fun r =>
                if room_id r =? rid then
                  {| room_id := room_id r;
                     room_number :=
                       or_else (c_room_number clean) (room_number r);
                     capacity := or_else (c_capacity clean) (capacity r);
                     current_occupancy := current_occupancy r;
                     floor_level :=
                       or_else (c_floor_level clean) (floor_level r);
                     room_type := or_else (c_room_type clean) (room_type r);
                     monthly_fee :=
                       or_else (c_monthly_fee clean) (monthly_fee r);
                     wifi_available :=
                       or_else (c_wifi_available clean) (wifi_available r) |}
                else r)); [reflexivity| |exact Hocc].
    intros x _ Hx. destruct (room_id x =? rid); exact Hx.
Qed.

Lemma delete_room_consistent (db : DB) (rid : Z) (r : room) :
  select_room db rid = Some r -> current_occupancy r <= 0 ->
  rooms_exist db -> occupancy_exact db ->
  rooms_exist (delete_room_row rid db) /\
  occupancy_exact (delete_room_row rid db).
Proof.
  intros Hroom Hempty Hex Hocc.
  destruct (select_room_In db rid r Hroom) as [Hin Hid].
  assert (Hnone : tally (Allocations db) rid = 0).
  { unfold occupancy_exact in Hocc. rewrite Forall_forall in Hocc.
    specialize (Hocc r Hin). rewrite occupants_tally, Hid in Hocc.
    pose proof (tally_nonneg (Allocations db) rid). lia. }
  split.
  - unfold rooms_exist, known_room.
    cbn [delete_room_row with_rooms Rooms Allocations].
    apply Forall_forall. intros a Ha.
    unfold rooms_exist in Hex. rewrite Forall_forall in Hex.
    specialize (Hex a Ha). unfold known_room in Hex.
    apply in_map_iff in Hex. destruct Hex as (x & Hx & Hxin).
    apply in_map_iff. exists x. split; [exact Hx|].
    apply filter_In. split; [exact Hxin|].
    apply negb_true_iff. apply Z.eqb_neq.
    pose proof (tally_none (Allocations db) rid Hnone a Ha). lia.
  - unfold occupancy_exact.
    cbn [delete_room_row with_rooms Rooms].
    apply Forall_forall. intros x Hx. apply filter_In in Hx.
    unfold occupancy_exact in Hocc. rewrite Forall_forall in Hocc.
    exact (Hocc x (proj1 Hx)).
Qed.

Lemma change_consistent (now : Z) (db db' : DB) :
  change now db false db' -> consistent db -> consistent db'.
Proof.
  intros Hch (Hrk & Hak & Hone & Hex & Hocc).
  pose proof (effect_rooms_keyed now db db'
                (change_effect now db db' false Hch) Hrk) as Hrk'.
  pose proof (change_allocations_keyed now db db' false Hch Hak) as Hak'.
  pose proof (effect_one_allocation_each now db db'
                (change_effect now db db' false Hch) Hone) as Hone'.
  unfold consistent.
  repeat (split; [assumption|]).
  clear Hrk' Hak' Hone'.
  remember false as half eqn:Ehalf.
  change_cases Hch; try discriminate Ehalf;
    try (split; [exact Hex|exact Hocc]).
  - exact (delete_student_consistent db sid Hone Hex Hocc).
  - exact (allocate_consistent now db sid rid r Hroom Hex Hocc).
  - exact (transfer_consistent now db sid rid a r Halloc Hroom Hother
             Hak Hex Hocc).
  - exact (add_room_consistent db number cap floor type fee wifi
             Hrk Hex Hocc).
  - exact (update_room_consistent db rid clean Hex Hocc).
  - exact (delete_room_consistent db rid r Hroom Hempty Hex Hocc).
Qed.

Lemma reachable_whole_consistent (c : conn) :
  reachable_whole c -> consistent (data c).
Proof.
  apply (reachable_whole_invariant consistent).
  - repeat split; constructor.
  - exact change_consistent.
Qed.

Lemma serve_reachable_whole (now : Z) (reqs : list request) :
  forall c, reachable_whole c -> reachable_whole (serve now reqs c).
Proof.
  induction reqs as [|req rest IH]; intros c Hc; simpl; [exact Hc|].
  apply IH. apply whole_step; [exact Hc|].
  destruct req; exact I || reflexivity.
Qed.

Lemma reachable_whole_full_house : reachable_whole full_house.
Proof.
  unfold full_house, two_rooms, ali_unpaid.
  repeat apply serve_reachable_whole. constructor.
Qed.

(** X8.  As long as no store error hits the occupancy update of [allocate]
    (any other store call may fail), the occupancy of every room is the
    number of allocations to it. *)
Theorem occupancy_counts_allocations (c : conn) :
  reachable_whole c ->
  forall r, In r (Rooms (data c)) ->
    current_occupancy r
    = Z.of_nat
        (List.length
           (filter (fun a => alloc_room_id a =? room_id r)
              (Allocations (data c)))).
Proof.
  intros Hr r Hin.
  destruct (reachable_whole_consistent c Hr) as (_ & _ & _ & _ & Hocc).
  unfold occupancy_exact in Hocc. rewrite Forall_forall in Hocc.
  exact (Hocc r Hin).
Qed.

Lemma occupancy_counts_allocations_witness :
  current_occupancy A1_full
  = Z.of_nat
      (List.length
         (filter (fun a => alloc_room_id a =? room_id A1_full)
            (Allocations (data full_house)))).
Proof.
  apply (occupancy_counts_allocations full_house reachable_whole_full_house).
  vm_compute. left. reflexivity.
Defined.

(** X9.  Under the same condition no allocation dangles: its room is on
    record with an occupancy of at least 1, and [rooms_delete] refuses that
    room and writes nothing. *)
Theorem allocated_room_stays (c : conn) :
  reachable_whole c ->
  forall a, In a (Allocations (data c)) ->
    (exists r, select_room (data c) (alloc_room_id a) = Some r /\
               1 <= current_occupancy r) /\
    (forall fail,
       status (fst (rooms_delete fail (alloc_room_id a) c)) <> 200 /\
       snd (rooms_delete fail (alloc_room_id a) c) = c).
Proof.
  intros Hr a Ha.
  destruct (reachable_whole_consistent c Hr) as (_ & _ & _ & Hex & Hocc).
  unfold rooms_exist in Hex. rewrite Forall_forall in Hex.
  destruct (proj1 (known_room_found _ _) (Hex a Ha)) as [r Hroom].
  destruct (select_room_In _ _ _ Hroom) as [Hin Hid].
  unfold occupancy_exact in Hocc. rewrite Forall_forall in Hocc.
  pose proof (Hocc r Hin) as Hr_occ.
  rewrite occupants_tally, Hid in Hr_occ.
  pose proof (tally_member _ a Ha) as Hone.
  assert (Hpos : 1 <= current_occupancy r) by lia.
  split; [exists r; split; assumption|].
  intros fail. unfold rooms_delete. rewrite Hroom.
  assert (Hlt : (0 <? current_occupancy r) = true) by (apply Z.ltb_lt; lia).
  rewrite Hlt.
  destruct (alloc_room_id a =? 0); [split; [discriminate|reflexivity]|].
  destruct (fail 0%nat); split; solve [discriminate | reflexivity].
Qed.

Lemma allocated_room_stays_witness :
  status (fst (rooms_delete no_fault 1 full_house)) <> 200 /\
  snd (rooms_delete no_fault 1 full_house) = full_house.
Proof.
  refine (proj2 (allocated_room_stays full_house reachable_whole_full_house
                   {| allocation_id := 1; alloc_student_id := 1;
                      alloc_room_id := 1; allocation_date := 20000 |} _)
            no_fault).
  left. reflexivity.
Defined.

(** ** Billing over time *)

Lemma sql_date_mono (now now' : Z) :
  now <= now' -> sql_date now <= sql_date now'.
Proof.
  intros H. unfold sql_date. apply Z.div_le_mono; [reflexivity|exact H].
Qed.

Lemma resolveFeeStatus_mono (raw raw' : Z) :
  raw <= raw' ->
  severity (resolveFeeStatus (Some raw) true)
  <= severity (resolveFeeStatus (Some raw') true).
Proof.
  intros H. rewrite !resolveFeeStatus_table.
  destruct (raw <=? 0) eqn:A0; destruct (raw' <=? 0) eqn:B0;
    destruct (raw <=? 5) eqn:A5; destruct (raw' <=? 5) eqn:B5;
    destruct (raw <=? 30) eqn:A30; destruct (raw' <=? 30) eqn:B30;
    cbn; try lia;
    repeat match goal with
           | E : (_ <=? _) = true |- _ => apply Z.leb_le in E
           | E : (_ <=? _) = false |- _ => apply Z.leb_gt in E
           end; lia.
Qed.

(** X10.  While no payment is made, a later clock never lowers the days
    late, the fine, the total or the severity of the status, and leaves the
    due date where it was. *)
Theorem dues_grow_with_time (fail : nat -> bool) (k : nat) (db : DB)
  (sid now now' : Z) (s s' : snapshot) :
  now <= now' ->
  buildFeeSnapshot fail k now db sid = SnapOk s ->
  buildFeeSnapshot fail k now' db sid = SnapOk s' ->
  due_date s' = due_date s /\
  days_late s <= days_late s' /\
  fine s <= fine s' /\
  (total_payable s <= total_payable s')%Q /\
  severity (fee_status s) <= severity (fee_status s').
Proof.
  intros Hnow Hs Hs'.
  destruct (buildFeeSnapshot_inv fail k now db sid s Hs)
    as (a & r & Hjoin & _ & ->).
  destruct (buildFeeSnapshot_inv fail k now' db sid s' Hs')
    as (a' & r' & Hjoin' & _ & ->).
  rewrite Hjoin in Hjoin'. injection Hjoin' as <- <-.
  pose proof (sql_date_mono now now' Hnow) as Hday.
  unfold snapshot_of.
  cbn [due_date days_late fine total_payable fee_status].
  destruct (select_last_payment db sid) as [d|].
  - assert (Hlate : Z.max 0 (sql_date now - (d + 30))
                    <= Z.max 0 (sql_date now' - (d + 30))) by lia.
    repeat split; try lia.
    + apply Qplus_le_r. rewrite <- Zle_Qle. lia.
    + apply resolveFeeStatus_mono. lia.
  - repeat split; try lia. apply Qle_refl.
Qed.

Lemma dues_grow_with_time_witness :
  status_and_fine (buildFeeSnapshot no_fault 0 (day 20031) (data ali_paid) 1)
  = Some (Late, 100) /\
  status_and_fine (buildFeeSnapshot no_fault 0 (day 20040) (data ali_paid) 1)
  = Some (Defaulter, 1000) /\
  100 <= 1000.
Proof.
  assert (Hnow : day 20031 <= day 20040) by discriminate.
  eassert (Hs : buildFeeSnapshot no_fault 0 (day 20031) (data ali_paid) 1
                = SnapOk _) by (vm_compute; reflexivity).
  eassert (Hs' : buildFeeSnapshot no_fault 0 (day 20040) (data ali_paid) 1
                 = SnapOk _) by (vm_compute; reflexivity).
  pose proof (dues_grow_with_time no_fault 0 (data ali_paid) 1
                (day 20031) (day 20040) _ _ Hnow Hs Hs')
    as (_ & _ & Hfine & _).
  split; [vm_compute; reflexivity|].
  split; [vm_compute; reflexivity|]. exact Hfine.
Defined.

(** ** Paying *)

Lemma snapshot_total_positive (fail : nat -> bool) (k : nat) (now : Z)
  (db : DB) (sid : Z) (s : snapshot) :
  buildFeeSnapshot fail k now db sid = SnapOk s ->
  (0 < total_payable s)%Q /\ 0 <= fine s /\
  (snap_monthly_fee s <= total_payable s)%Q.
Proof.
  intros Hs.
  destruct (buildFeeSnapshot_inv fail k now db sid s Hs)
    as (a & r & _ & Hfee & ->).
  unfold snapshot_of. cbn [total_payable fine snap_monthly_fee].
  set (late := match match select_last_payment db sid with
                     | Some d => Some (sql_date now - (d + 30))
                     | None => None
                     end with
               | Some n => Z.max 0 n
               | None => 0
               end).
  assert (Hlate : 0 <= late * 100).
  { unfold late. destruct (select_last_payment db sid); lia. }
  assert (Hq : (0 <= inject_Z (late * 100))%Q).
  { change 0%Q with (inject_Z 0). rewrite <- Zle_Qle. exact Hlate. }
  repeat split.
  - unfold fee_configured in Hfee.
    apply Qlt_le_trans with (monthly_fee r); [exact Hfee|].
    rewrite <- (Qplus_0_r (monthly_fee r)) at 1.
    apply Qplus_le_r. exact Hq.
  - exact Hlate.
  - rewrite <- (Qplus_0_r (monthly_fee r)) at 1.
    apply Qplus_le_r. exact Hq.
Qed.

(** X11.  The total that the fee status reports can always be paid as it
    is, unless it exceeds 500000: [recordPayment] accepts exactly that
    amount. *)
Theorem reported_total_is_accepted (fail : nat -> bool) (now sid : Z)
  (c : conn) (st : student) (s : snapshot) :
  sid <> 0 -> fail 0%nat = false -> fail 3%nat = false ->
  select_student (data c) sid = Some st ->
  buildFeeSnapshot fail 1 now (data c) sid = SnapOk s ->
  (total_payable s <= MAX_MONTHLY_FEE)%Q ->
  status (fst (recordPayment fail now sid (Some (JNum (total_payable s))) c))
  = 200.
Proof.
  intros Hsid F0 F3 Hst Hs Hmax.
  destruct (snapshot_total_positive fail 1 now (data c) sid s Hs)
    as (Hpos & _ & _).
  unfold recordPayment.
  apply Z.eqb_neq in Hsid. rewrite Hsid.
  assert (E0 : Qle_bool (total_payable s) 0 = false).
  { destruct (Qle_bool (total_payable s) 0) eqn:E; [|reflexivity].
    apply Qle_bool_iff in E. exfalso. exact (Qlt_not_le _ _ Hpos E). }
  assert (E1 : Qltb MAX_MONTHLY_FEE (total_payable s) = false).
  { destruct (Qltb MAX_MONTHLY_FEE (total_payable s)) eqn:E; [|reflexivity].
    apply Qltb_lt in E. exfalso. exact (Qlt_not_le _ _ E Hmax). }
  rewrite E0, E1, F0, Hst, Hs. cbn [orb].
  assert (Eeq : Qeq_bool (round2 (total_payable s))
                  (round2 (total_payable s)) = true)
    by (apply Qeq_bool_iff; reflexivity).
  rewrite Eeq, F3. cbn [negb].
  destruct (buildFeeSnapshot fail 4 now _ sid); reflexivity.
Qed.

Lemma reported_total_is_accepted_witness :
  status (fst (recordPayment no_fault (day 20040) 1
                 (Some (JNum (5000 + inject_Z 1000))) ali_paid)) = 200.
Proof.
  assert (H1 : 1 <> 0) by discriminate.
  assert (Hst : select_student (data ali_paid) 1
                = Some {| student_id := 1; name := "Ali";
                          cnic := "35202-1234567-1"; department := "Physics";
                          phone := "03001234567";
                          address := "Mall Road Lahore" |}) by reflexivity.
  assert (Hmax : (5000 + inject_Z 1000 <= MAX_MONTHLY_FEE)%Q)
    by discriminate.
  exact (reported_total_is_accepted no_fault (day 20040) 1 ali_paid _
           {| snap_student_id := 1; snap_monthly_fee := 5000;
              snap_room_type := "Standard"; snap_allocation_date := 20000;
              last_payment_date := Some 20000; due_date := Some 20030;
              days_late := 10; fine := 1000;
              total_payable := 5000 + inject_Z 1000;
              fee_status := Defaulter; snap_today := 20040 |}
           H1 eq_refl eq_refl Hst eq_refl Hmax).
Defined.

Lemma buildFeeSnapshot_no_fault (k k' : nat) (now : Z) (db : DB) (sid : Z) :
  buildFeeSnapshot no_fault k now db sid
  = buildFeeSnapshot no_fault k' now db sid.
Proof. reflexivity. Qed.

(** X12.  A payment buys no credit.  For a resident whose latest payment is
    dated today, the total is the plain monthly fee, [recordPayment] accepts
    it once more, and the due date after the second payment is still today
    plus 30 days. *)
Theorem second_payment_moves_nothing (now sid : Z) (c : conn)
  (st : student) (a : allocation) (r : room) :
  sid <> 0 ->
  select_student (data c) sid = Some st ->
  select_allocation_room (data c) sid = Some (a, r) ->
  fee_configured r -> (monthly_fee r <= MAX_MONTHLY_FEE)%Q ->
  select_last_payment (data c) sid = Some (sql_date now) ->
  let out := recordPayment no_fault now sid (Some (JNum (monthly_fee r))) c in
  (exists s, buildFeeSnapshot no_fault 1 now (data c) sid = SnapOk s /\
             fee_status s = Paid /\
             due_date s = Some (sql_date now + 30) /\
             (total_payable s == monthly_fee r)%Q) /\
  status (fst out) = 200 /\
  List.length (Payments (data (snd out)))
  = S (List.length (Payments (data c))) /\
  exists updated,
    body (fst out)
    = JPayment [Str "Payment recorded"] (seq_payments (data c) + 1)
        (Some updated) /\
    fee_status updated = Paid /\
    due_date updated = Some (sql_date now + 30).
Proof.
  intros Hsid Hst Hjoin Hfee Hmax Hlast out.
  pose proof (buildFeeSnapshot_closed no_fault 1 now (data c) sid a r
                eq_refl eq_refl Hjoin Hfee) as Hs.
  rewrite Hlast in Hs.
  set (s := snapshot_of now sid a r (Some (sql_date now))) in Hs.
  assert (Htotal : (total_payable s == monthly_fee r)%Q).
  { unfold s, snapshot_of. cbn [total_payable].
    replace (sql_date now - (sql_date now + 30)) with (-30) by lia.
    cbn [Z.max Z.mul inject_Z]. apply Qplus_0_r. }
  assert (Hdue : due_date s = Some (sql_date now + 30)) by reflexivity.
  assert (Hpaid : fee_status s = Paid).
  { unfold s, snapshot_of. cbn [fee_status].
    replace (sql_date now - (sql_date now + 30)) with (-30) by lia.
    reflexivity. }
  split; [exists s; repeat split; assumption|].
  assert (H200 : status (fst out) = 200).
  { subst out. unfold recordPayment.
    apply Z.eqb_neq in Hsid. rewrite Hsid.
    assert (E0 : Qle_bool (monthly_fee r) 0 = false)
      by (apply fee_configured_guard; exact Hfee).
    assert (E1 : Qltb MAX_MONTHLY_FEE (monthly_fee r) = false).
    { destruct (Qltb MAX_MONTHLY_FEE (monthly_fee r)) eqn:E; [|reflexivity].
      apply Qltb_lt in E. exfalso. exact (Qlt_not_le _ _ E Hmax). }
    rewrite E0, E1. cbn [orb no_fault]. rewrite Hst, Hs.
    assert (Eeq : Qeq_bool (round2 (monthly_fee r))
                    (round2 (total_payable s)) = true).
    { apply Qeq_bool_iff. rewrite (round2_compat _ _ Htotal). reflexivity. }
    rewrite Eeq. cbn [negb].
    destruct (buildFeeSnapshot no_fault 4 now _ sid); reflexivity. }
  split; [exact H200|].
  destruct (recordPayment_accepted no_fault now sid _ c H200)
    as (q & st' & s' & _ & _ & _ & _ & _ & _ & _ & Hs' & _ & Hout).
  rewrite Hs in Hs'. injection Hs' as <-.
  cbv zeta in Hout. fold out in Hout. rewrite Hout. cbn [fst snd body ok].
  set (c1 := exec (insert_payment sid (round2 (total_payable s))
                     (sql_date now)) c).
  split.
  { unfold c1. cbn [data exec insert_payment Payments].
    rewrite length_app. cbn [List.length]. lia. }
  assert (Hjoin1 : select_allocation_room (data c1) sid = Some (a, r)).
  { rewrite <- Hjoin. apply select_allocation_room_ext; reflexivity. }
  rewrite (buildFeeSnapshot_closed no_fault 4 now (data c1) sid a r
             eq_refl eq_refl Hjoin1 Hfee).
  assert (Hlast1 : select_last_payment (data c1) sid = Some (sql_date now)).
  { unfold select_last_payment, c1. cbn [data exec insert_payment Payments].
    rewrite latest_date_app by reflexivity. cbn [pay_date].
    fold (select_last_payment (data c) sid). rewrite Hlast.
    f_equal. lia. }
  rewrite Hlast1. eexists. split; [reflexivity|].
  fold s. split; assumption.
Qed.

Lemma second_payment_moves_nothing_witness :
  status (fst (recordPayment no_fault (day 20000) 1 (Some (JNum 5000))
                 ali_paid)) = 200 /\
  List.length (Payments (data (snd (recordPayment no_fault (day 20000) 1
                                      (Some (JNum 5000)) ali_paid)))) = 2%nat.
Proof.
  assert (H1 : 1 <> 0) by discriminate.
  assert (Hst : select_student (data ali_paid) 1
                = Some {| student_id := 1; name := "Ali";
                          cnic := "35202-1234567-1"; department := "Physics";
                          phone := "03001234567";
                          address := "Mall Road Lahore" |}) by reflexivity.
  assert (Hmax : (5000 <= MAX_MONTHLY_FEE)%Q) by discriminate.
  pose proof
    (second_payment_moves_nothing (day 20000) 1 ali_paid _
       {| allocation_id := 1; alloc_student_id := 1; alloc_room_id := 1;
          allocation_date := 20000 |}
       {| room_id := 1; room_number := "A1"; capacity := 2;
          current_occupancy := 1; floor_level := 0; room_type := "Standard";
          monthly_fee := 5000; wifi_available := 0 |}
       H1 Hst eq_refl eq_refl Hmax eq_refl) as (_ & H200 & Hlen & _).
  split; [exact H200|exact Hlen].
Defined.

(** X13.  What [recordPayment] returns as refreshed fee status is what
    GET /students/:id/fee-status answers right after it. *)
Theorem fee_status_after_payment (now sid : Z) (amount : option JsNumber)
  (c : conn) :
  status (fst (recordPayment no_fault now sid amount c)) = 200 ->
  exists updated,
    body (fst (recordPayment no_fault now sid amount c))
    = JPayment [Str "Payment recorded"] (seq_payments (data c) + 1)
        (Some updated) /\
    handleFeeStatusRequest no_fault now sid
      (snd (recordPayment no_fault now sid amount c))
    = ok (JSnapshot updated).
Proof.
  intros H200.
  destruct (recordPayment_accepted no_fault now sid amount c H200)
    as (q & st & s & _ & Hsid & _ & _ & _ & _ & Hst & Hs & _ & Hout).
  cbv zeta in Hout. rewrite Hout. cbn [fst snd body ok].
  set (c1 := exec (insert_payment sid (round2 (total_payable s))
                     (sql_date now)) c).
  destruct (buildFeeSnapshot_inv no_fault 1 now (data c) sid s Hs)
    as (a & r & Hjoin & Hfee & _).
  assert (Hjoin1 : select_allocation_room (data c1) sid = Some (a, r)).
  { rewrite <- Hjoin. apply select_allocation_room_ext; reflexivity. }
  pose proof (buildFeeSnapshot_closed no_fault 4 now (data c1) sid a r
                eq_refl eq_refl Hjoin1 Hfee) as H4.
  rewrite H4. eexists. split; [reflexivity|].
  unfold handleFeeStatusRequest.
  apply Z.eqb_neq in Hsid. rewrite Hsid. cbn [no_fault].
  assert (Hst1 : select_student (data c1) sid = Some st) by exact Hst.
  rewrite Hst1.
  rewrite (buildFeeSnapshot_no_fault 1 4), H4. reflexivity.
Qed.

Lemma fee_status_after_payment_witness :
  exists updated,
    body (fst (recordPayment no_fault (day 20031) 1 (Some (JNum 5100))
                 ali_paid))
    = JPayment [Str "Payment recorded"] 2 (Some updated) /\
    handleFeeStatusRequest no_fault (day 20031) 1
      (snd (recordPayment no_fault (day 20031) 1 (Some (JNum 5100))
              ali_paid))
    = ok (JSnapshot updated).
Proof.
  exact (fee_status_after_payment (day 20031) 1 (Some (JNum 5100)) ali_paid
           eq_refl).
Defined.

(** X14.  No fees before a room: for a student on record who has no
    allocation (or whose room is gone), the fee status and every payment
    within the amount range are answered 400 ("Student must be allocated to
    a room before paying fees") and nothing is written. *)
Theorem no_fees_before_allocation (fail : nat -> bool) (now sid : Z)
  (q : Q) (c : conn) (st : student) :
  sid <> 0 -> fail 0%nat = false -> fail 1%nat = false ->
  select_student (data c) sid = Some st ->
  select_allocation_room (data c) sid = None ->
  (0 < q)%Q -> (q <= MAX_MONTHLY_FEE)%Q ->
  recordPayment fail now sid (Some (JNum q)) c
  = (reply 400 "Student must be allocated to a room before paying fees", c)
  /\
  handleFeeStatusRequest fail now sid c
  = reply 400 "Student must be allocated to a room before paying fees".
Proof.
  intros Hsid F0 F1 Hst Hjoin Hpos Hmax.
  assert (Hsnap : buildFeeSnapshot fail 1 now (data c) sid
                  = SnapErr 400
                      "Student must be allocated to a room before paying fees").
  { unfold buildFeeSnapshot. rewrite F1, Hjoin. reflexivity. }
  apply Z.eqb_neq in Hsid. split.
  - unfold recordPayment. rewrite Hsid.
    assert (E0 : Qle_bool q 0 = false).
    { destruct (Qle_bool q 0) eqn:E; [|reflexivity].
      apply Qle_bool_iff in E. exfalso. exact (Qlt_not_le _ _ Hpos E). }
    assert (E1 : Qltb MAX_MONTHLY_FEE q = false).
    { destruct (Qltb MAX_MONTHLY_FEE q) eqn:E; [|reflexivity].
      apply Qltb_lt in E. exfalso. exact (Qlt_not_le _ _ E Hmax). }
    rewrite E0, E1, F0, Hst, Hsnap. reflexivity.
  - unfold handleFeeStatusRequest. rewrite Hsid, F0, Hst, Hsnap. reflexivity.
Qed.

Lemma no_fees_before_allocation_witness :
  recordPayment no_fault (day 20001) 2 (Some (JNum 3000))
    (serve (day 20000) [AddStudent bilal] two_rooms)
  = (reply 400 "Student must be allocated to a room before paying fees",
     serve (day 20000) [AddStudent bilal] two_rooms).
Proof.
  assert (H2 : 2 <> 0) by discriminate.
  assert (Hpos : (0 < 3000)%Q) by reflexivity.
  assert (Hmax : (3000 <= MAX_MONTHLY_FEE)%Q) by discriminate.
  exact (proj1 (no_fees_before_allocation no_fault (day 20001) 2 3000
                  (serve (day 20000) [AddStudent bilal] two_rooms) _
                  H2 eq_refl eq_refl eq_refl eq_refl Hpos Hmax)).
Defined.

(** ** The room page *)

Lemma one_row_per_key (rows : list student) (k : Z) :
  NoDup (map student_id rows) -> In k (map student_id rows) ->
  List.length (filter (fun s => student_id s =? k) rows) = 1%nat.
Proof.
  induction rows as [|s rows IH]; simpl; intros Hnd Hin; [contradiction|].
  inversion Hnd as [|x l Hs Hnd']; subst.
  destruct (student_id s =? k) eqn:E.
  - apply Z.eqb_eq in E. simpl. f_equal.
    destruct (filter (fun x => student_id x =? k) rows) as [|t l] eqn:F;
      [reflexivity|].
    exfalso. apply Hs.
    assert (Ht : In t (filter (fun x => student_id x =? k) rows))
      by (rewrite F; left; reflexivity).
    apply filter_In in Ht. destruct Ht as [Ht Hk]. apply Z.eqb_eq in Hk.
    rewrite E, <- Hk. apply in_map. exact Ht.
  - apply Z.eqb_neq in E. destruct Hin as [Hk|Hk]; [contradiction|].
    exact (IH Hnd' Hk).
Qed.

Lemma room_students_length (db : DB) (rid : Z) :
  students_keyed db -> students_exist db ->
  Z.of_nat (List.length (room_students db rid)) = occupants db rid.
Proof.
  intros [Hnd _] [Hex _]. unfold room_students, occupants.
  f_equal. unfold students_exist in Hex.
  induction (Allocations db) as [|a rows IH]; [reflexivity|].
  inversion Hex as [|x l Ha Hrest]; subst.
  cbn [filter]. destruct (alloc_room_id a =? rid).
  - cbn [flat_map]. rewrite length_app, length_map.
    rewrite (one_row_per_key (Students db) (alloc_student_id a) Hnd Ha).
    cbn [List.length Nat.add]. f_equal. exact (IH Hrest).
  - exact (IH Hrest).
Qed.

(** X15.  As long as no store error hits the occupancy update of
    [allocate], the room page lists as many students as the occupancy it
    shows, and says "No students in this room" exactly when that is 0. *)
Theorem room_page_lists_occupants (c : conn) (rid : Z) (r : room) :
  reachable_whole c ->
  select_room (data c) rid = Some r ->
  exists v,
    room_details no_fault (Some rid) c = Details v /\
    v_current_occupancy v = current_occupancy r /\
    Z.of_nat (List.length (v_students v)) = v_current_occupancy v /\
    (v_message v = Some "No students in this room"%string <->
     v_current_occupancy v = 0).
Proof.
  intros Hr Hroom.
  pose proof (reachable_whole_reachable c Hr) as Hreach.
  assert (Hkeys : students_keyed (data c) /\ students_exist (data c)).
  { revert Hreach. clear. revert c.
    apply (reachable_change_invariant
             (fun db => students_keyed db /\ students_exist db)).
    - repeat split; constructor.
    - intros now db half db' Hch [Hk He]. split.
      + exact (change_students_keyed now db db' half Hch Hk).
      + exact (change_students_exist now db db' half Hch He). }
  destruct Hkeys as [Hk He].
  destruct (reachable_whole_consistent c Hr) as (_ & _ & _ & _ & Hocc).
  destruct (select_room_In _ _ _ Hroom) as [Hin Hid].
  unfold occupancy_exact in Hocc. rewrite Forall_forall in Hocc.
  pose proof (Hocc r Hin) as Hexact.
  pose proof (room_students_length (data c) (room_id r) Hk He) as Hlen.
  unfold room_details. cbn [no_fault]. rewrite Hroom.
  eexists. split; [reflexivity|].
  cbn [v_current_occupancy v_students v_message].
  split; [reflexivity|]. split; [lia|].
  rewrite Hexact, <- Hlen.
  destruct (room_students (data c) (room_id r)); cbn [List.length].
  - split; reflexivity.
  - split; [discriminate|lia].
Qed.

Lemma room_page_lists_occupants_witness :
  exists v,
    room_details no_fault (Some 1) full_house = Details v /\
    v_students v = [(1, "Ali"%string); (2, "Bilal"%string)] /\
    v_current_occupancy v = 2.
Proof.
  destruct (room_page_lists_occupants full_house 1 _
              reachable_whole_full_house eq_refl)
    as (v & Hv & _ & _ & _).
  exists v. split; [exact Hv|].
  injection Hv as <-. split; reflexivity.
Defined.

(** ** The pages and the server *)

Lemma checked_field (value : field) (requireAll : bool)
  (ok_number : JsNumber -> bool) (wrong missing : string) :
  match value with
  | Undefined => if requireAll then [missing] else []
  | Null => [wrong]
  | Number x => if ok_number x then [] else [wrong]
  end = [] ->
  (value = Undefined /\ requireAll = false) \/
  (exists q, value = Number (JNum q) /\ ok_number (JNum q) = true) \/
  (exists x, value = Number x /\ is_finite x = false /\ ok_number x = true).
Proof.
  destruct value as [| |[q| |p]].
  - destruct requireAll; [discriminate|]. intros _. left. split; reflexivity.
  - discriminate.
  - destruct (ok_number (JNum q)) eqn:E; [|discriminate].
    intros _. right. left. exists q. split; [reflexivity|exact E].
  - destruct (ok_number JNaN) eqn:E; [|discriminate].
    intros _. right. right. exists JNaN. repeat split. exact E.
  - destruct (ok_number (JInf p)) eqn:E; [|discriminate].
    intros _. right. right. exists (JInf p). repeat split. exact E.
Qed.

(** X16.  A payload that the room form accepts passes the server's
    validation too, for the add form always and for the edit form unless
    the room number was emptied; an emptied room number passes the edit
    form and is refused by the server. *)
Theorem room_form_agrees_with_server (payload : room_form)
  (requireAll : bool) :
  validateRoomFormPayload payload requireAll = None ->
  (requireAll = true \/
   match f_room_number payload with
   | Some (s, _) => String.length s <> 0%nat
   | None => True
   end ->
   fst (validateRoomPayload (to_body payload) requireAll) = []) /\
  (forall n, f_room_number payload = Some (EmptyString, n) ->
     fst (validateRoomPayload (to_body payload) requireAll)
     = [[Str "Room number is required"]]).
Proof.
  unfold validateRoomFormPayload.
  set (filled := match f_room_number payload with
                 | Some (s, _) => negb (String.length s =? 0)%nat
                 | None => false
                 end).
  intros H.
  match type of H with
  | match ?l with [] => _ | _ :: _ => _ end = None =>
      assert (Hnil : l = []) by (destruct l; [reflexivity|discriminate])
  end.
  clear H.
  apply app_eq_nil in Hnil. destruct Hnil as [Hreq Hnil].
  apply app_eq_nil in Hnil. destruct Hnil as [Hlen Hnil].
  apply app_eq_nil in Hnil. destruct Hnil as [Hneg Hnil].
  apply app_eq_nil in Hnil. destruct Hnil as [Hcap Hnil].
  apply app_eq_nil in Hnil. destruct Hnil as [Hfee Hfloor].
  assert (Scap : match sent (f_capacity payload) with
                 | Some x =>
                     if negb (negb (is_finite x) || js_le x 0
                              || js_gt x MAX_ROOM_CAPACITY)
                     then []
                     else [[Str "Capacity must be between 1 and ";
                            Num MAX_ROOM_CAPACITY]]
                 | None =>
                     if requireAll then [[Str "Capacity is required"]]
                     else []
                 end = []).
  { destruct (checked_field _ _ _ _ _ Hcap)
      as [[-> ->]|[(q & -> & Hok)|(x & -> & Hfin & Hok)]].
    - reflexivity.
    - cbn [sent]. change MAX_ROOM_CAPACITY with 50%Q. rewrite Hok.
      reflexivity.
    - rewrite Hfin in Hok. discriminate. }
  assert (Sfee : match sent (f_monthly_fee payload) with
                 | Some x =>
                     if negb (negb (is_finite x) || js_lt x 0
                              || js_gt x MAX_MONTHLY_FEE)
                     then []
                     else [[Str "Monthly fee must be between 0 and ";
                            Num MAX_MONTHLY_FEE; Str " PKR"]]
                 | None =>
                     if requireAll then [[Str "Monthly fee is required"]]
                     else []
                 end = []).
  { destruct (checked_field _ _ _ _ _ Hfee)
      as [[-> ->]|[(q & -> & Hok)|(x & -> & Hfin & Hok)]].
    - reflexivity.
    - cbn [sent]. change MAX_MONTHLY_FEE with 500000%Q. rewrite Hok.
      reflexivity.
    - rewrite Hfin in Hok. discriminate. }
  assert (Sfloor : match sent (f_floor_level payload) with
                   | Some x =>
                       if negb (negb (is_integer x) || js_lt x 0
                                || js_gt x 200)
                       then []
                       else [[Str "Floor must be an integer between 0 and 200"]]
                   | None => []
                   end = []).
  { destruct (checked_field _ _ _ _ _ Hfloor)
      as [[-> ->]|[(q & -> & Hok)|(x & -> & Hfin & Hok)]].
    - reflexivity.
    - cbn [sent]. rewrite Hok. reflexivity.
    - destruct x as [q| |p]; cbn in Hfin, Hok; discriminate. }
  unfold validateRoomPayload. cbn [fst to_body b_room_number b_capacity
                                   b_monthly_fee b_floor_level].
  rewrite Scap, Sfee, Sfloor. rewrite !app_nil_r.
  split.
  - intros Hside. unfold filled in *.
    destruct (f_room_number payload) as [[s n]|].
    + destruct (String.length s =? 0)%nat eqn:E0.
      * apply Nat.eqb_eq in E0. destruct Hside as [->|Hs];
          [cbn in Hreq; discriminate|contradiction].
      * cbn [negb andb] in Hlen, Hneg.
        change ROOM_NUMBER_MAX_LENGTH with 12%nat.
        destruct (12 <? String.length s)%nat; [discriminate|].
        destruct (js_lt n 0); [discriminate|reflexivity].
    + destruct requireAll; [cbn in Hreq; discriminate|reflexivity].
  - intros n Hn. rewrite Hn. reflexivity.
Qed.

Lemma room_form_agrees_with_server_witness :
  validateRoomFormPayload room_D4 true = None /\
  fst (validateRoomPayload (to_body room_D4) true) = [].
Proof.
  split; [reflexivity|].
  refine (proj1 (room_form_agrees_with_server room_D4 true eq_refl) _).
  left. reflexivity.
Defined.

Lemma tone_of_status (raw raw' : Z) :
  raw <= raw' ->
  tone_rank (statusTone (fee_status_label (resolveFeeStatus (Some raw) true)))
  <= tone_rank
       (statusTone (fee_status_label (resolveFeeStatus (Some raw') true))).
Proof.
  intros H. rewrite !resolveFeeStatus_table.
  destruct (raw <=? 0) eqn:A0; destruct (raw' <=? 0) eqn:B0;
    destruct (raw <=? 5) eqn:A5; destruct (raw' <=? 5) eqn:B5;
    destruct (raw <=? 30) eqn:A30; destruct (raw' <=? 30) eqn:B30;
    try (vm_compute; discriminate);
    repeat match goal with
           | E : (_ <=? _) = true |- _ => apply Z.leb_le in E
           | E : (_ <=? _) = false |- _ => apply Z.leb_gt in E
           end; lia.
Qed.

(** X17.  The badge of the payments page has a colour for every status the
    server sends, and while no payment is made the colour only moves from
    success over warning to danger. *)
Theorem badge_never_improves (fail : nat -> bool) (k : nat) (db : DB)
  (sid now now' : Z) (s s' : snapshot) :
  now <= now' ->
  buildFeeSnapshot fail k now db sid = SnapOk s ->
  buildFeeSnapshot fail k now' db sid = SnapOk s' ->
  (forall st : FeeStatus,
     0 <= tone_rank (statusTone (fee_status_label st))) /\
  tone_rank (statusTone (fee_status_label (fee_status s)))
  <= tone_rank (statusTone (fee_status_label (fee_status s'))).
Proof.
  intros Hnow Hs Hs'. split.
  - intros [| | | |]; vm_compute; discriminate.
  - destruct (buildFeeSnapshot_inv fail k now db sid s Hs)
      as (a & r & Hjoin & _ & ->).
    destruct (buildFeeSnapshot_inv fail k now' db sid s' Hs')
      as (a' & r' & Hjoin' & _ & ->).
    pose proof (sql_date_mono now now' Hnow) as Hday.
    unfold snapshot_of. cbn [fee_status].
    destruct (select_last_payment db sid) as [d|].
    + apply tone_of_status. lia.
    + vm_compute. discriminate.
Qed.

Lemma badge_never_improves_witness :
  tone_rank (statusTone "Late") <= tone_rank (statusTone "Defaulter").
Proof.
  assert (Hnow : day 20031 <= day 20040) by discriminate.
  eassert (Hs : buildFeeSnapshot no_fault 0 (day 20031) (data ali_paid) 1
                = SnapOk _) by (vm_compute; reflexivity).
  eassert (Hs' : buildFeeSnapshot no_fault 0 (day 20040) (data ali_paid) 1
                 = SnapOk _) by (vm_compute; reflexivity).
  exact (proj2 (badge_never_improves no_fault 0 (data ali_paid) 1
                  (day 20031) (day 20040) _ _ Hnow Hs Hs')).
Defined.

Lemma sql_begin_data (c : conn) : data (sql_begin c) = data c.
Proof. unfold sql_begin. destruct (saved c); reflexivity. Qed.

(** X18.  The transfer dialog offers the rooms the server will take: for a
    student with an allocation elsewhere, [transfer] to a room on record
    answers 200 when the room is among [openRooms] and 400 "New room is
    full" when it is not. *)
Theorem offered_rooms_are_taken (now sid : Z) (c : conn) (st : student)
  (a : allocation) (r : room) :
  sid <> 0 -> room_id r <> 0 ->
  select_student (data c) sid = Some st ->
  select_allocation (data c) sid = Some a ->
  select_room (data c) (room_id r) = Some r ->
  alloc_room_id a <> room_id r ->
  (In r (openRooms (Rooms (data c))) ->
   status (fst (transfer no_fault now sid (room_id r) c)) = 200) /\
  (~ In r (openRooms (Rooms (data c))) ->
   fst (transfer no_fault now sid (room_id r) c)
   = reply 400 "New room is full").
Proof.
  intros Hsid Hrid Hst Ha Hroom Hother.
  destruct (select_room_In _ _ _ Hroom) as [Hin _].
  assert (Hopen : In r (openRooms (Rooms (data c))) <->
                  Qle_bool (capacity r) (inject_Z (current_occupancy r))
                  = false).
  { unfold openRooms. rewrite filter_In. unfold Qltb.
    rewrite negb_true_iff. tauto. }
  unfold transfer.
  apply Z.eqb_neq in Hsid. apply Z.eqb_neq in Hrid.
  rewrite Hsid, Hrid. cbn [orb no_fault].
  rewrite !sql_begin_data, Hst, Ha, Hroom.
  apply Z.eqb_neq in Hother. rewrite Hother.
  split.
  - intros Hr. apply Hopen in Hr. rewrite Hr. reflexivity.
  - intros Hr.
    destruct (Qle_bool (capacity r) (inject_Z (current_occupancy r))) eqn:E.
    + reflexivity.
    + exfalso. apply Hr. apply Hopen. reflexivity.
Qed.

Lemma offered_rooms_are_taken_witness :
  status (fst (transfer no_fault (day 20010) 2 2 full_house)) = 200.
Proof.
  assert (H2 : 2 <> 0) by discriminate.
  assert (H12 : 1 <> 2) by discriminate.
  refine (proj1 (offered_rooms_are_taken (day 20010) 2 full_house _
                   {| allocation_id := 2; alloc_student_id := 2;
                      alloc_room_id := 1; allocation_date := 20000 |}
                   {| room_id := 2; room_number := "B2"; capacity := 1;
                      current_occupancy := 0; floor_level := 0;
                      room_type := "Standard"; monthly_fee := 3000;
                      wifi_available := 0 |}
                   H2 H2 eq_refl eq_refl eq_refl H12) _).
  vm_compute. left. reflexivity.
Defined.

(** ** The dashboard *)

Lemma max0_nonneg (x : Q) : (0 <= max0 x)%Q.
Proof.
  unfold max0. destruct (Qle_bool x 0) eqn:E; [apply Qle_refl|].
  apply Qlt_le_weak. apply Qle_bool_false. exact E.
Qed.

Lemma max0_zero (x : Q) : (max0 x == 0)%Q <-> (x <= 0)%Q.
Proof.
  unfold max0. destruct (Qle_bool x 0) eqn:E.
  - apply Qle_bool_iff in E. split; [intros _; exact E|reflexivity].
  - apply Qle_bool_false in E. split.
    + intros H. rewrite H in E. exfalso. exact (Qlt_irrefl 0 E).
    + intros H. exfalso. exact (Qlt_not_le _ _ E H).
Qed.

Lemma openBeds_from (rooms : list room) :
  forall start : Q,
    (fold_left
       (fun sum r =>
          (sum + max0 (capacity r - inject_Z (current_occupancy r)))%Q)
       rooms start
     == start + openBeds rooms)%Q.
Proof.
  unfold openBeds.
  induction rooms as [|r rooms IH]; intros start; cbn [fold_left].
  - rewrite Qplus_0_r. reflexivity.
  - rewrite (IH (start + _)%Q), (IH (0 + _)%Q). ring.
Qed.

Lemma openBeds_cons (r : room) (rooms : list room) :
  (openBeds (r :: rooms)
   == max0 (capacity r - inject_Z (current_occupancy r)) + openBeds rooms)%Q.
Proof.
  unfold openBeds at 1. cbn [fold_left]. rewrite openBeds_from. ring.
Qed.

Lemma openBeds_nonneg (rooms : list room) : (0 <= openBeds rooms)%Q.
Proof.
  induction rooms as [|r rooms IH]; [apply Qle_refl|].
  rewrite openBeds_cons.
  pose proof (max0_nonneg (capacity r - inject_Z (current_occupancy r))).
  replace 0%Q with (0 + 0)%Q by reflexivity.
  apply Qplus_le_compat; assumption.
Qed.

(** X19.  The dashboard agrees with itself: the open beds it sums up from
    the rooms are never negative, and they are 0 exactly when the metrics
    count no vacant room. *)
Theorem no_open_bed_no_vacant_room (db : DB) :
  (0 <= openBeds (Rooms db))%Q /\
  ((openBeds (Rooms db) == 0)%Q <-> vacantRooms db = 0).
Proof.
  split; [apply openBeds_nonneg|].
  unfold vacantRooms.
  induction (Rooms db) as [|r rooms IH].
  - split; reflexivity.
  - rewrite openBeds_cons. cbn [filter].
    pose proof (max0_nonneg (capacity r - inject_Z (current_occupancy r)))
      as Hm.
    pose proof (openBeds_nonneg rooms) as Hn.
    destruct (Qltb (inject_Z (current_occupancy r)) (capacity r)) eqn:E.
    + apply Qltb_lt in E. split.
      * intros H. exfalso.
        assert (Hz : (max0 (capacity r - inject_Z (current_occupancy r))
                      == 0)%Q).
        { apply Qle_antisym; [|exact Hm].
          rewrite <- H. rewrite <- (Qplus_0_r (max0 _)) at 1.
          apply Qplus_le_r. exact Hn. }
        apply max0_zero in Hz.
        apply (Qlt_not_le _ _ E).
        apply (Qplus_le_l _ _ (- inject_Z (current_occupancy r))).
        rewrite Qplus_opp_r. exact Hz.
      * cbn [List.length]. lia.
    + apply Qltb_false in E.
      assert (Hz : (max0 (capacity r - inject_Z (current_occupancy r))
                    == 0)%Q).
      { apply max0_zero.
        apply (Qplus_le_l _ _ (inject_Z (current_occupancy r))).
        ring_simplify. exact E. }
      rewrite Hz, Qplus_0_l. exact IH.
Qed.

Lemma one_room_of (rooms : list room) (k : Z) :
  NoDup (map room_id rooms) -> In k (map room_id rooms) ->
  fold_right (fun r sum => (if k =? room_id r then 1 else 0) + sum) 0 rooms
  = 1.
Proof.
  induction rooms as [|r rooms IH]; simpl; intros Hnd Hin; [contradiction|].
  inversion Hnd as [|x l Hr Hnd']; subst.
  destruct (k =? room_id r) eqn:E.
  - apply Z.eqb_eq in E. subst k.
    assert (Hz : forall l, ~ In (room_id r) (map room_id l) ->
              fold_right
                (fun x sum => (if room_id r =? room_id x then 1 else 0) + sum)
                0 l = 0).
    { induction l as [|x l IHl]; simpl; intros Hx; [reflexivity|].
      destruct (room_id r =? room_id x) eqn:Ex.
      - apply Z.eqb_eq in Ex. exfalso. apply Hx. left. symmetry. exact Ex.
      - rewrite IHl by tauto. reflexivity. }
    rewrite (Hz rooms Hr). reflexivity.
  - apply Z.eqb_neq in E. destruct Hin as [Hk|Hk]; [congruence|].
    rewrite (IH Hnd' Hk). reflexivity.
Qed.

Lemma tally_over_rooms (rooms : list room) (rows : list allocation) :
  NoDup (map room_id rooms) ->
  Forall (fun a => In (alloc_room_id a) (map room_id rooms)) rows ->
  fold_right (fun r sum => tally rows (room_id r) + sum) 0 rooms
  = Z.of_nat (List.length rows).
Proof.
  intros Hnd. induction rows as [|a rows IH]; intros Hex.
  - clear Hnd Hex. induction rooms as [|r rooms IHr]; [reflexivity|].
    cbn [fold_right]. rewrite IHr. reflexivity.
  - inversion Hex as [|x l Ha Hrest]; subst.
    assert (Hsplit : forall l,
              fold_right (fun r sum => tally (a :: rows) (room_id r) + sum)
                0 l
              = fold_right
                  (fun r sum =>
                     (if alloc_room_id a =? room_id r then 1 else 0) + sum)
                  0 l
                + fold_right (fun r sum => tally rows (room_id r) + sum) 0 l).
    { induction l as [|r l IHl]; [reflexivity|].
      cbn [fold_right]. rewrite IHl, tally_cons. lia. }
    rewrite Hsplit, (IH Hrest), (one_room_of rooms _ Hnd Ha).
    cbn [List.length]. lia.
Qed.

(** X20.  As long as no store error hits the occupancy update of
    [allocate], the beds taken over all rooms are as many as the dashboard
    counts allocations. *)
Theorem beds_taken_are_allocations (c : conn) :
  reachable_whole c ->
  bedsTaken (Rooms (data c)) = totalAllocations (data c).
Proof.
  intros Hr.
  destruct (reachable_whole_consistent c Hr)
    as ([Hnd _] & _ & _ & Hex & Hocc).
  unfold totalAllocations.
  rewrite <- (tally_over_rooms (Rooms (data c)) (Allocations (data c))
                Hnd Hex).
  unfold bedsTaken, occupancy_exact in *.
  induction (Rooms (data c)) as [|r rooms IH]; [reflexivity|].
  inversion Hocc as [|x l Hx Hrest]; subst.
  inversion Hnd; subst.
  cbn [fold_right]. rewrite Hx, occupants_tally. f_equal.
  apply IH; assumption.
Qed.

Lemma beds_taken_are_allocations_witness :
  bedsTaken (Rooms (data full_house)) = 2 /\
  totalAllocations (data full_house) = 2.
Proof.
  pose proof (beds_taken_are_allocations full_house
                reachable_whole_full_house) as H.
  split; [rewrite H|]; reflexivity.
Defined.

(** ** Writing and reading back *)

Lemma find_room_mapped (g : room -> room) (k : Z) (rooms : list room) :
  (forall r, room_id (g r) = room_id r) ->
  find (fun r => room_id r =? k) (map g rooms)
  = option_map g (find (fun r => room_id r =? k) rooms).
Proof.
  intros Hg. induction rooms as [|r rooms IH]; [reflexivity|].
  cbn [map find]. rewrite Hg.
  destruct (room_id r =? k); [reflexivity|exact IH].
Qed.

Lemma find_appended {Row : Type} (p : Row -> bool) (rows : list Row)
  (row : Row) :
  find p rows = None -> p row = true -> find p (rows ++ [row]) = Some row.
Proof.
  intros Hnone Hrow. induction rows as [|x rows IH]; cbn [app find].
  - rewrite Hrow. reflexivity.
  - cbn [find] in Hnone. destruct (p x); [discriminate|]. exact (IH Hnone).
Qed.

Lemma allocate_ok (fail : nat -> bool) (now sid rid : Z) (c : conn) :
  status (fst (allocate fail now sid rid c)) = 200 ->
  exists r,
    select_allocation (data c) sid = None /\
    select_room (data c) rid = Some r /\
    (inject_Z (current_occupancy r) < capacity r)%Q /\
    snd (allocate fail now sid rid c)
    = exec (increment_occupancy rid)
        (exec (insert_allocation sid rid (sql_date now)) c).
Proof.
  unfold allocate. split_cases; cbn [fst snd status reply ok];
    try discriminate.
  intros _. eexists. repeat split.
  apply Qle_bool_false. assumption.
Qed.

(** X21.  After a successful [allocate] the student's allocation is found:
    it is to the room asked for and dated today, and that room's occupancy
    is one more than before. *)
Theorem allocation_is_found (fail : nat -> bool) (now sid rid : Z)
  (c : conn) :
  status (fst (allocate fail now sid rid c)) = 200 ->
  let after := data (snd (allocate fail now sid rid c)) in
  select_allocation after sid
  = Some {| allocation_id := seq_allocations (data c) + 1;
            alloc_student_id := sid; alloc_room_id := rid;
            allocation_date := sql_date now |} /\
  exists r,
    select_room (data c) rid = Some r /\
    select_room after rid
    = Some (set_occupancy (current_occupancy r + 1) r).
Proof.
  intros H200 after.
  destruct (allocate_ok fail now sid rid c H200)
    as (r & Hnone & Hroom & _ & Hout).
  subst after. rewrite Hout. cbn [data exec]. split.
  - unfold select_allocation.
    cbn [increment_occupancy with_rooms insert_allocation Allocations].
    apply find_appended; [exact Hnone|].
    cbn. apply Z.eqb_refl.
  - exists r. split; [exact Hroom|].
    unfold select_room.
    cbn [increment_occupancy with_rooms insert_allocation Rooms].
    rewrite (find_room_mapped
               (fun x => if room_id x =? rid
                         then set_occupancy (current_occupancy x + 1) x
                         else x)).
    + fold (select_room (data c) rid). rewrite Hroom. cbn [option_map].
      destruct (select_room_In _ _ _ Hroom) as [_ Hid].
      apply Z.eqb_eq in Hid. rewrite Hid. reflexivity.
    + intros x. destruct (room_id x =? rid); reflexivity.
Qed.

Lemma allocation_is_found_witness :
  select_allocation
    (data (snd (allocate no_fault (day 20005) 2 2
                  (serve (day 20000) [AddStudent bilal] two_rooms)))) 2
  = Some {| allocation_id := 2; alloc_student_id := 2; alloc_room_id := 2;
            allocation_date := 20005 |}.
Proof.
  exact (proj1 (allocation_is_found no_fault (day 20005) 2 2
                  (serve (day 20000) [AddStudent bilal] two_rooms)
                  eq_refl)).
Defined.

(** X22.  After a successful [transfer] the student's allocation is the
    same row, now to the new room and dated today; the new room has one
    occupant more, and the answer names the old and the new room. *)
Theorem transfer_moves_the_allocation (fail : nat -> bool) (now sid rid : Z)
  (c : conn) :
  saved c = None ->
  status (fst (transfer fail now sid rid c)) = 200 ->
  let out := transfer fail now sid rid c in
  exists a r,
    select_allocation (data c) sid = Some a /\
    alloc_room_id a <> rid /\
    select_room (data c) rid = Some r /\
    fst out
    = ok (JTransfer [Str "Room transfer successful"] (alloc_room_id a) rid)
    /\
    select_allocation (data (snd out)) sid
    = Some {| allocation_id := allocation_id a; alloc_student_id := sid;
              alloc_room_id := rid; allocation_date := sql_date now |} /\
    select_room (data (snd out)) rid
    = Some (set_occupancy (current_occupancy r + 1) r) /\
    List.length (Allocations (data (snd out)))
    = List.length (Allocations (data c)).
Proof.
  intros Hc H200 out.
  destruct (transfer_outcome fail now sid rid c Hc)
    as [[Hnot _]|(a & r & Ha & Hr & Hne & _ & Hresp & _ & Hd)];
    [contradiction|].
  exists a, r. fold out in Hresp, Hd.
  repeat (split; [assumption|]).
  rewrite Hd.
  destruct (select_allocation_In _ _ _ Ha) as [_ Hsid].
  destruct (select_room_In _ _ _ Hr) as [_ Hrid].
  split; [|split].
  - unfold select_allocation in *.
    cbn [increment_occupancy decrement_occupancy_floor update_allocation
         with_rooms with_allocations Allocations].
    revert Ha. induction (Allocations (data c)) as [|x l IH];
      [discriminate|].
    cbn [map find].
    destruct (alloc_student_id x =? sid) eqn:E.
    + intros [= ->]. rewrite Z.eqb_refl. cbn [alloc_student_id].
      rewrite E. rewrite Hsid. reflexivity.
    + intros Hfind.
      assert (Hx : alloc_student_id
                     (if allocation_id x =? allocation_id a
                      then {| allocation_id := allocation_id x;
                              alloc_student_id := alloc_student_id x;
                              alloc_room_id := rid;
                              allocation_date := sql_date now |}
                      else x) = alloc_student_id x)
        by (destruct (allocation_id x =? allocation_id a); reflexivity).
      rewrite Hx, E. exact (IH Hfind).
  - unfold select_room in *.
    cbn [increment_occupancy decrement_occupancy_floor update_allocation
         with_rooms with_allocations Rooms].
    rewrite map_map.
    rewrite (find_room_mapped _ rid (Rooms (data c))).
    + rewrite Hr. cbn [option_map].
      assert (Eold : (room_id r =? alloc_room_id a) = false)
        by (apply Z.eqb_neq; lia).
      rewrite Eold.
      assert (Enew : (room_id r =? rid) = true) by (apply Z.eqb_eq; lia).
      rewrite Enew. reflexivity.
    + intros x.
      destruct (room_id x =? alloc_room_id a); cbn [room_id set_occupancy];
        destruct (room_id x =? rid); reflexivity.
  - cbn [increment_occupancy decrement_occupancy_floor update_allocation
         with_rooms with_allocations Allocations].
    apply length_map.
Qed.

Lemma transfer_moves_the_allocation_witness :
  select_allocation
    (data (snd (transfer no_fault (day 20010) 1 2 two_rooms))) 1
  = Some {| allocation_id := 1; alloc_student_id := 1; alloc_room_id := 2;
            allocation_date := 20010 |}.
Proof.
  destruct (transfer_moves_the_allocation no_fault (day 20010) 1 2 two_rooms
              eq_refl eq_refl)
    as (a & r & Ha & _ & _ & _ & Hafter & _).
  injection Ha as <-. exact Hafter.
Defined.

Lemma clean_from_body (body : room_body) (requireAll : bool) :
  let clean := snd (validateRoomPayload body requireAll) in
  (forall s, c_room_number clean = Some s ->
             exists n, b_room_number body = Some (s, n)) /\
  (forall q, c_capacity clean = Some q -> b_capacity body = Some (JNum q)) /\
  (forall q, c_monthly_fee clean = Some q ->
             b_monthly_fee body = Some (JNum q)).
Proof.
  unfold validateRoomPayload.
  cbn [snd c_room_number c_capacity c_monthly_fee].
  split; [|split].
  - intros s. destruct (b_room_number body) as [[s' n]|]; [|discriminate].
    intros [= ->]. exists n. reflexivity.
  - intros q. destruct (b_capacity body) as [[q'| |p]|]; try discriminate.
    destruct (negb _); [|discriminate]. intros [= ->]. reflexivity.
  - intros q. destruct (b_monthly_fee body) as [[q'| |p]|]; try discriminate.
    destruct (negb _); [|discriminate]. intros [= ->]. reflexivity.
Qed.

Lemma no_room_above (db : DB) (rid : Z) :
  rooms_keyed db -> seq_rooms db < rid -> select_room db rid = None.
Proof.
  intros [_ Hle] Hrid. unfold select_room.
  induction (Rooms db) as [|r rooms IH]; [reflexivity|].
  cbn [find]. inversion Hle as [|? ? Hr Hrest]; subst.
  assert (E : (room_id r =? rid) = false) by (apply Z.eqb_neq; lia).
  rewrite E. exact (IH Hrest).
Qed.

(** X23.  The id [rooms_add] reports on a 200 was not in use before and now
    finds the room just written: it is empty and has the number, capacity
    and fee of the request. *)
Theorem added_room_is_found (fail : nat -> bool) (body : room_body)
  (c : conn) :
  reachable c ->
  status (fst (rooms_add fail body c)) = 200 ->
  let out := rooms_add fail body c in
  exists r,
    fst out = ok (JCreated [Str "Room added successfully"] (room_id r)) /\
    select_room (data c) (room_id r) = None /\
    select_room (data (snd out)) (room_id r) = Some r /\
    current_occupancy r = 0 /\
    (exists n, b_room_number body = Some (room_number r, n)) /\
    b_capacity body = Some (JNum (capacity r)) /\
    b_monthly_fee body = Some (JNum (monthly_fee r)).
Proof.
  intros Hreach. pose proof (reachable_rooms_keyed c Hreach) as Hkeyed.
  pose proof (clean_from_body body true) as Hbody. cbn zeta in Hbody.
  unfold rooms_add.
  destruct (validateRoomPayload body true) as [errors clean].
  cbn [snd] in Hbody. destruct Hbody as (Hnumber & Hcap & Hfee).
  destruct errors; [|discriminate].
  destruct (c_room_number clean) as [number|];
    [|destruct (c_capacity clean); discriminate].
  destruct (c_capacity clean) as [cap|]; [|discriminate].
  destruct (c_monthly_fee clean) as [fee|]; [|discriminate].
  destruct (fail 0%nat); [discriminate|].
  destruct (find (fun r => String.eqb (room_number r) number)
              (Rooms (data c))); [discriminate|].
  destruct (fail 1%nat); [discriminate|].
  intros _. cbn zeta. cbn [fst snd data exec insert_room seq_rooms].
  eexists {| room_id := seq_rooms (data c) + 1; room_number := number;
             capacity := cap; current_occupancy := 0 |}.
  cbn [room_id room_number capacity current_occupancy monthly_fee].
  assert (Hnew : select_room (data c) (seq_rooms (data c) + 1) = None)
    by (apply no_room_above; [exact Hkeyed|lia]).
  split; [reflexivity|]. split; [exact Hnew|].
  split.
  { unfold select_room. cbn [Rooms].
    apply find_appended; [exact Hnew|]. cbn [room_id]. apply Z.eqb_refl. }
  split; [reflexivity|].
  split; [apply Hnumber; reflexivity|].
  split; [apply Hcap|apply Hfee]; reflexivity.
Qed.

Lemma added_room_is_found_witness :
  exists r,
    fst (rooms_add no_fault (new_room "D4" 3 4500) full_house)
    = ok (JCreated [Str "Room added successfully"] (room_id r)) /\
    select_room (data full_house) (room_id r) = None.
Proof.
  destruct (added_room_is_found no_fault (new_room "D4" 3 4500) full_house
              reachable_full_house eq_refl)
    as (r & Hid & Hnew & _).
  exists r. split; assumption.
Defined.

Lemma absent_stays_absent (body : room_body) :
  let clean := snd (validateRoomPayload body false) in
  (b_room_number body = None -> c_room_number clean = None) /\
  (b_room_type body = None -> c_room_type clean = None) /\
  (b_capacity body = None -> c_capacity clean = None) /\
  (b_monthly_fee body = None -> c_monthly_fee clean = None) /\
  (b_floor_level body = None -> c_floor_level clean = None) /\
  (b_wifi_available body = None -> c_wifi_available clean = None).
Proof.
  unfold validateRoomPayload.
  cbn [snd c_room_number c_room_type c_capacity c_monthly_fee c_floor_level
       c_wifi_available].
  repeat split; intros ->; reflexivity.
Qed.

Lemma sent_values_kept (body : room_body) :
  fst (validateRoomPayload body false) = [] ->
  (forall cap, b_capacity body = Some (JNum cap) ->
     c_capacity (snd (validateRoomPayload body false)) = Some cap) /\
  (forall fee, b_monthly_fee body = Some (JNum fee) ->
     c_monthly_fee (snd (validateRoomPayload body false)) = Some fee).
Proof.
  unfold validateRoomPayload.
  cbn [fst snd c_capacity c_monthly_fee].
  intros H.
  apply app_eq_nil in H. destruct H as [_ H].
  apply app_eq_nil in H. destruct H as [Hcap H].
  apply app_eq_nil in H. destruct H as [Hfee _].
  split.
  - intros cap Hb. rewrite Hb in *.
    destruct (negb (negb (is_finite (JNum cap)) || js_le (JNum cap) 0
                    || js_gt (JNum cap) MAX_ROOM_CAPACITY));
      [reflexivity|discriminate].
  - intros fee Hb. rewrite Hb in *.
    destruct (negb (negb (is_finite (JNum fee)) || js_lt (JNum fee) 0
                    || js_gt (JNum fee) MAX_MONTHLY_FEE));
      [reflexivity|discriminate].
Qed.

Lemma rooms_update_ok (fail : nat -> bool) (rid : Z) (body : room_body)
  (c : conn) :
  status (fst (rooms_update fail rid body c)) = 200 ->
  exists r,
    fst (validateRoomPayload body false) = [] /\
    select_room (data c) rid = Some r /\
    (forall cap,
       c_capacity (snd (validateRoomPayload body false)) = Some cap ->
       (inject_Z (current_occupancy r) <= cap)%Q) /\
    snd (rooms_update fail rid body c)
    = exec (update_room rid (snd (validateRoomPayload body false))) c.
Proof.
  unfold rooms_update.
  destruct (validateRoomPayload body false) as [errors clean]. cbn [fst snd].
  destruct (rid =? 0); [discriminate|].
  destruct errors; [|discriminate].
  destruct (no_keys clean); [discriminate|].
  destruct (fail 0%nat); [discriminate|].
  destruct (select_room (data c) rid) as [r|]; [|discriminate].
  destruct (match c_capacity clean with
            | Some cap => Qltb cap (inject_Z (current_occupancy r))
            | None => false
            end) eqn:Eg; [discriminate|].
  intros H200. exists r. split; [reflexivity|]. split; [reflexivity|]. split.
  { intros cap Hsome. rewrite Hsome in Eg. apply Qltb_false. exact Eg. }
  revert H200.
  destruct (c_room_number clean);
    [destruct (fail 1%nat); [discriminate|];
     destruct (find _ (Rooms (data c))); [discriminate|]|];
    (destruct (fail 2%nat); [discriminate|]); reflexivity.
Qed.

(** X24.  A successful [rooms_update] changes the room asked for and no
    other: the room keeps its id and its occupancy, a field the request does
    not carry keeps its value, a capacity or fee sent is the one read back,
    the capacity sent is not below the occupancy, and every other room and
    table reads as before. *)
Theorem room_edit_is_partial (fail : nat -> bool) (rid : Z)
  (body : room_body) (c : conn) :
  status (fst (rooms_update fail rid body c)) = 200 ->
  let after := data (snd (rooms_update fail rid body c)) in
  (exists r r',
     select_room (data c) rid = Some r /\
     select_room after rid = Some r' /\
     room_id r' = room_id r /\
     current_occupancy r' = current_occupancy r /\
     (b_room_number body = None -> room_number r' = room_number r) /\
     (b_room_type body = None -> room_type r' = room_type r) /\
     (b_capacity body = None -> capacity r' = capacity r) /\
     (b_monthly_fee body = None -> monthly_fee r' = monthly_fee r) /\
     (b_floor_level body = None -> floor_level r' = floor_level r) /\
     (b_wifi_available body = None -> wifi_available r' = wifi_available r)
     /\
     (forall cap, b_capacity body = Some (JNum cap) ->
        capacity r' = cap /\ (inject_Z (current_occupancy r') <= cap)%Q) /\
     (forall fee, b_monthly_fee body = Some (JNum fee) ->
        monthly_fee r' = fee)) /\
  (forall other, other <> rid ->
     select_room after other = select_room (data c) other) /\
  Students after = Students (data c) /\
  Allocations after = Allocations (data c) /\
  Payments after = Payments (data c).
Proof.
  intros H200 after.
  destruct (rooms_update_ok fail rid body c H200)
    as (r & Hclean & Hr & Hguard & Hout).
  pose proof (absent_stays_absent body) as Habs. cbn zeta in Habs.
  destruct (sent_values_kept body Hclean) as [Hsentcap Hsentfee].
  subst after. rewrite Hout. clear Hout H200.
  set (clean := snd (validateRoomPayload body false)) in *.
  destruct Habs as (Hnum & Htype & Hcap & Hfee & Hfloor & Hwifi).
  assert (Hsel : forall k,
            select_room (data (exec (update_room rid clean) c)) k
            = option_map
                (fun x =>
                   if room_id x =? rid then
                     {| room_id := room_id x;
                        room_number :=
                          or_else (c_room_number clean) (room_number x);
                        capacity := or_else (c_capacity clean) (capacity x);
                        current_occupancy := current_occupancy x;
                        floor_level :=
                          or_else (c_floor_level clean) (floor_level x);
                        room_type :=
                          or_else (c_room_type clean) (room_type x);
                        monthly_fee :=
                          or_else (c_monthly_fee clean) (monthly_fee x);
                        wifi_available :=
                          or_else (c_wifi_available clean)
                            (wifi_available x) |}
                   else x)
                (select_room (data c) k)).
  { intros k. unfold select_room.
    cbn [data exec update_room with_rooms Rooms].
    apply find_room_mapped.
    intros x. destruct (room_id x =? rid); reflexivity. }
  split; [|split; [|repeat split]].
  - exists r. eexists. split; [exact Hr|].
    split.
    { rewrite Hsel, Hr. cbn [option_map].
      destruct (select_room_In _ _ _ Hr) as [_ Hid].
      apply Z.eqb_eq in Hid. rewrite Hid. reflexivity. }
    cbn [room_id current_occupancy room_number room_type capacity
         monthly_fee floor_level wifi_available].
    split; [reflexivity|]. split; [reflexivity|].
    split; [intros H; rewrite (Hnum H); reflexivity|].
    split; [intros H; rewrite (Htype H); reflexivity|].
    split; [intros H; rewrite (Hcap H); reflexivity|].
    split; [intros H; rewrite (Hfee H); reflexivity|].
    split; [intros H; rewrite (Hfloor H); reflexivity|].
    split; [intros H; rewrite (Hwifi H); reflexivity|].
    split.
    + intros cap Hb. pose proof (Hsentcap cap Hb) as Hc.
      fold clean in Hc. rewrite Hc. cbn [or_else].
      split; [reflexivity|]. apply Hguard. exact Hc.
    + intros fee Hb. pose proof (Hsentfee fee Hb) as Hf.
      fold clean in Hf. rewrite Hf. reflexivity.
  - intros other Hne. rewrite Hsel.
    destruct (select_room (data c) other) as [x|] eqn:Ex; [|reflexivity].
    cbn [option_map]. destruct (select_room_In _ _ _ Ex) as [_ Hid].
    assert (E : (room_id x =? rid) = false) by (apply Z.eqb_neq; lia).
    rewrite E. reflexivity.
Qed.

Lemma room_edit_is_partial_witness :
  select_room
    (data (snd (rooms_update no_fault 1
                  {| b_room_number := None; b_room_type := None;
                     b_capacity := None;
                     b_monthly_fee := Some (JNum 5500);
                     b_floor_level := None; b_wifi_available := None |}
                  full_house))) 2
  = select_room (data full_house) 2.
Proof.
  apply (proj1 (proj2 (room_edit_is_partial no_fault 1
                         {| b_room_number := None; b_room_type := None;
                            b_capacity := None;
                            b_monthly_fee := Some (JNum 5500);
                            b_floor_level := None;
                            b_wifi_available := None |}
                         full_house eq_refl))).
  discriminate.
Defined.
